(** * Autopilot (scripts/autopilot/autopilot.py): a shallow embedding

    Work Item (ACF-###) -> Branch -> PR -> Evidence Pack.

    Conventions of the embedding.

    - A Python [str] is a [string]: the UTF-8 bytes of the text.  [\d]
      is the class of the decimal digits of Unicode, read off the code
      points of the text.  The other character classes used by the script
      ([\s], [str.strip], [str.lower], [str.splitlines]) are modelled on
      their ASCII members; there the embedding is exact on ASCII text and
      on text whose other code points are neither white space, cased
      letters nor line separators.
    - Regular expressions are kept as syntax trees and run by a small
      backtracking matcher that returns the matches in Python's priority
      order, so each pattern of the script appears as it is written there.
    - Captured subprocesses ([_run], [_git]) are queries on an environment;
      live subprocesses, file writes, HTTP requests and [print] are logged in
      a chronological trace and threaded through a state-and-error monad.
      The programs the script starts ([git], [bash], [python3]) are taken
      to be installed: starting one gives a return code.
    - What becomes of an HTTP request is the environment's answer: a reply,
      an HTTP error, no connection, a request the client refuses before it
      sends anything (as [http.client] does for a URL with a space), or a
      connection lost after the request went out.
    - JSON documents (request and response bodies, the state file) are
      values of type [json]; a JSON file holds its parsed value, so the
      files of the model are well-formed.
    - Files are named by the text [pathlib] prints for their path, one name
      for each file. *)

From Stdlib Require Import List String Ascii NArith ZArith Lia Bool Arith.
From Stdlib Require Import DecimalString DecimalPos DecimalZ.
Import ListNotations.
Local Open Scope string_scope.
Local Open Scope nat_scope.
Local Open Scope list_scope.

Set Implicit Arguments.
Local Set Warnings "-register-all,-abstract-large-number".

(* ================================================================== *)
(** ** Characters and strings, as Python's [str] methods use them      *)
(* ================================================================== *)

Module Str.

Definition code (c : ascii) : nat := nat_of_ascii c.

Definition in_range (lo hi : nat) (c : ascii) : bool :=
  (lo <=? code c) && (code c <=? hi).

(** [str.isspace] on ASCII: TAB..CR, FS..US and SPACE. *)
Definition is_space (c : ascii) : bool :=
  in_range 9 13 c || in_range 28 32 c.

Definition is_digit (c : ascii) : bool := in_range 48 57 c.
Definition is_upper (c : ascii) : bool := in_range 65 90 c.
Definition is_lower (c : ascii) : bool := in_range 97 122 c.
Definition is_alnum (c : ascii) : bool := is_digit c || is_upper c || is_lower c.

Definition lower_char (c : ascii) : ascii :=
  if is_upper c then ascii_of_nat (code c + 32) else c.

Fixpoint map (f : ascii -> ascii) (s : string) : string :=
  match s with
  | EmptyString => EmptyString
  | String c s' => String (f c) (map f s')
  end.

(** [s.lower()] *)
Definition lower (s : string) : string := map lower_char s.

Fixpoint existsb (p : ascii -> bool) (s : string) : bool :=
  match s with
  | EmptyString => false
  | String c s' => p c || existsb p s'
  end.

Fixpoint forallb (p : ascii -> bool) (s : string) : bool :=
  match s with
  | EmptyString => true
  | String c s' => p c && forallb p s'
  end.

Definition is_empty (s : string) : bool :=
  match s with EmptyString => true | _ => false end.

(** [c in chars] for a set of characters given as a string. *)
Definition mem (chars : string) (c : ascii) : bool :=
  existsb (Ascii.eqb c) chars.

Fixpoint lstrip (p : ascii -> bool) (s : string) : string :=
  match s with
  | EmptyString => EmptyString
  | String c s' => if p c then lstrip p s' else s
  end.

Fixpoint rstrip (p : ascii -> bool) (s : string) : string :=
  match s with
  | EmptyString => EmptyString
  | String c s' =>
      let r := rstrip p s' in
      if is_empty r && p c then EmptyString else String c r
  end.

(** [s.strip()] and [s.strip(chars)] *)
Definition strip_by (p : ascii -> bool) (s : string) : string :=
  rstrip p (lstrip p s).
Definition strip (s : string) : string := strip_by is_space s.
Definition strip_chars (chars : string) (s : string) : string :=
  strip_by (mem chars) s.

(** [s.startswith(pre)] *)
Fixpoint startswith (pre s : string) : bool :=
  match pre, s with
  | EmptyString, _ => true
  | String a pre', String b s' => Ascii.eqb a b && startswith pre' s'
  | String _ _, EmptyString => false
  end.

(** [s[n:]] and [s[:n]] for [n >= 0] *)
Fixpoint drop (n : nat) (s : string) : string :=
  match n, s with
  | O, _ => s
  | S n', String _ s' => drop n' s'
  | S _, EmptyString => EmptyString
  end.

Fixpoint take (n : nat) (s : string) : string :=
  match n, s with
  | O, _ => EmptyString
  | S n', String c s' => String c (take n' s')
  | S _, EmptyString => EmptyString
  end.

(** [s.endswith(suf)] *)
Definition endswith (suf s : string) : bool :=
  (String.length suf <=? String.length s) &&
  String.eqb (drop (String.length s - String.length suf) s) suf.

(** [sub in s] *)
Fixpoint contains (sub s : string) : bool :=
  startswith sub s ||
  match s with
  | EmptyString => false
  | String _ s' => contains sub s'
  end.

(** [s.replace(old, new)]: the occurrences of a non-empty [old] are replaced
    from the left and do not overlap.  [skip] counts the characters of an
    occurrence still to be passed over.  The script replaces by the empty
    string only, for which an empty [old] leaves [s] as it is. *)
Fixpoint replace_from (old new : string) (skip : nat) (s : string) : string :=
  match s with
  | EmptyString => EmptyString
  | String c s' =>
      match skip with
      | S k => replace_from old new k s'
      | O =>
          if startswith old s
          then (new ++ replace_from old new (String.length old - 1) s')%string
          else String c (replace_from old new 0 s')
      end
  end.

Definition replace (old new s : string) : string :=
  if is_empty old then s else replace_from old new 0 s.

(** [s.split(sep, 1)[1]] for a one-character [sep] that occurs in [s]: the
    text after the first [sep]; [None] stands for the IndexError. *)
Fixpoint after_first (sep : ascii) (s : string) : option string :=
  match s with
  | EmptyString => None
  | String c s' => if Ascii.eqb c sep then Some s' else after_first sep s'
  end.

(** [sep.join(parts)] *)
Fixpoint join (sep : string) (parts : list string) : string :=
  match parts with
  | [] => EmptyString
  | [p] => p
  | p :: rest => (p ++ sep ++ join sep rest)%string
  end.

(** Line boundaries of [str.splitlines] (ASCII): LF, CR, CR LF, VT, FF, FS,
    GS, RS. *)
Definition is_linebreak (c : ascii) : bool :=
  in_range 10 13 c || in_range 28 30 c.

Fixpoint splitlines_from (cur : string) (s : string) : list string :=
  match s with
  | EmptyString => if is_empty cur then [] else [cur]
  | String c s' =>
      if Ascii.eqb c "013"%char then
        match s' with
        | String "010"%char s'' => cur :: splitlines_from EmptyString s''
        | _ => cur :: splitlines_from EmptyString s'
        end
      else if is_linebreak c then cur :: splitlines_from EmptyString s'
      else splitlines_from (cur ++ String c EmptyString)%string s'
  end.

(** [s.splitlines()] *)
Definition splitlines (s : string) : list string :=
  splitlines_from EmptyString s.

(** Truth value of a string: non-empty. *)
Definition truthy (s : string) : bool := negb (is_empty s).

(** A continuation byte [10xxxxxx] of UTF-8 brings six more bits. *)
Definition extend (acc : N) (s : string) : option (N * string) :=
  match s with
  | String c s' =>
      if in_range 128 191 c
      then Some ((acc * 64 + (N.of_nat (code c) - 128))%N, s')
      else None
  | EmptyString => None
  end.

(** The code point at the head of a text and the text after it.  [None] at
    the end of the text and on bytes that are no well-formed UTF-8 (a stray
    continuation byte, an overlong form, a surrogate, a value above
    U+10FFFF), which no [str] holds. *)
Definition decode (s : string) : option (N * string) :=
  match s with
  | EmptyString => None
  | String c s1 =>
      let x := N.of_nat (code c) in
      if in_range 0 127 c then Some (x, s1)
      else if in_range 194 223 c then extend (x - 192)%N s1
      else if in_range 224 239 c then
        match extend (x - 224)%N s1 with
        | Some (y, s2) =>
            match extend y s2 with
            | Some (n, s3) =>
                if ((0x800 <=? n) && negb ((0xD800 <=? n) && (n <=? 0xDFFF)))%N
                then Some (n, s3) else None
            | None => None
            end
        | None => None
        end
      else if in_range 240 244 c then
        match extend (x - 240)%N s1 with
        | Some (y, s2) =>
            match extend y s2 with
            | Some (z, s3) =>
                match extend z s3 with
                | Some (n, s4) =>
                    if ((0x10000 <=? n) && (n <=? 0x10FFFF))%N
                    then Some (n, s4) else None
                | None => None
                end
            | None => None
            end
        | None => None
        end
      else None
  end.

(** The decimal digits of Unicode (category Nd) come in runs of ten, zero
    to nine.  These are the zeros of the runs of Unicode 14.0, the database
    of Python 3.11, from the ASCII digits (U+0030) to the segmented digits
    (U+1FBF0). *)
Definition DECIMAL_ZEROS : list N :=
  [0x30; 0x660; 0x6F0; 0x7C0; 0x966; 0x9E6; 0xA66; 0xAE6; 0xB66; 0xBE6; 0xC66;
   0xCE6; 0xD66; 0xDE6; 0xE50; 0xED0; 0xF20; 0x1040; 0x1090; 0x17E0; 0x1810;
   0x1946; 0x19D0; 0x1A80; 0x1A90; 0x1B50; 0x1BB0; 0x1C40; 0x1C50; 0xA620;
   0xA8D0; 0xA900; 0xA9D0; 0xA9F0; 0xAA50; 0xABF0; 0xFF10; 0x104A0; 0x10D30;
   0x11066; 0x110F0; 0x11136; 0x111D0; 0x112F0; 0x11450; 0x114D0; 0x11650;
   0x116C0; 0x11730; 0x118E0; 0x11950; 0x11C50; 0x11D50; 0x11DA0; 0x16A60;
   0x16AC0; 0x16B50; 0x1D7CE; 0x1D7D8; 0x1D7E2; 0x1D7EC; 0x1D7F6; 0x1E140;
   0x1E2F0; 0x1E950; 0x1FBF0]%N.

(** [\d] on a code point. *)
Definition is_decimal (n : N) : bool :=
  List.existsb (fun z => (z <=? n) && (n <? z + 10))%N DECIMAL_ZEROS.

(** [a or b] on strings. *)
Definition or_else (a b : string) : string := if truthy a then a else b.

End Str.

(* ================================================================== *)
(** ** Regular expressions ([re]), with Python's backtracking order    *)
(* ================================================================== *)

Module Re.

Inductive regex : Type :=
| Chr (c : ascii)                      (* a literal character *)
| Class (p : ascii -> bool)            (* [...], \s, . *)
| Code (p : N -> bool)                 (* \d: a class of code points *)
| Eps
| Seq (r1 r2 : regex)
| Star (greedy : bool) (r : regex)     (* r* and r*? *)
| Opt (greedy : bool) (r : regex)      (* r? and r?? *)
| Group (n : nat) (r : regex)          (* the n-th capturing group *)
| Eol.                                 (* $ *)

(** [r+], [r+?] and a literal string. *)
Definition Plus (greedy : bool) (r : regex) : regex := Seq r (Star greedy r).

Fixpoint Lit (s : string) : regex :=
  match s with
  | EmptyString => Eps
  | String c s' => Seq (Chr c) (Lit s')
  end.

(** [.] matches everything but a newline. *)
Definition dot : ascii -> bool := fun c => negb (Ascii.eqb c "010"%char).
Definition not_slash : ascii -> bool := fun c => negb (Ascii.eqb c "/"%char).

Definition captures := list (nat * string).

Fixpoint group (n : nat) (cs : captures) : string :=
  match cs with
  | [] => EmptyString
  | (k, v) :: cs' => if Nat.eqb k n then v else group n cs'
  end.

(** A partial match: the groups captured so far and the input left. *)
Definition partial := (captures * string)%type.

(** Iteration of [step] zero or more times, longest first when [greedy] and
    shortest first otherwise.  An iteration that consumes nothing ends the
    repetition, as in [re]; [n] bounds the iterations by the input length. *)
Fixpoint star_loop (step : string -> captures -> list partial) (greedy : bool)
    (n : nat) (s : string) (cs : captures) : list partial :=
  match n with
  | O => [(cs, s)]
  | S n' =>
      let more :=
        flat_map
          (fun x : partial =>
             if String.length (snd x) <? String.length s
             then star_loop step greedy n' (snd x) (fst x) else [])
          (step s cs) in
      if greedy then more ++ [(cs, s)] else (cs, s) :: more
  end.

(** All the ways [r] matches at the start of [s], in the order in which the
    backtracking matcher of [re] tries them. *)
Fixpoint matches (r : regex) (s : string) (cs : captures) : list partial :=
  match r with
  | Chr c =>
      match s with
      | String d s' => if Ascii.eqb c d then [(cs, s')] else []
      | EmptyString => []
      end
  | Class p =>
      match s with
      | String d s' => if p d then [(cs, s')] else []
      | EmptyString => []
      end
  | Code p =>
      match Str.decode s with
      | Some (n, s') => if p n then [(cs, s')] else []
      | None => []
      end
  | Eps => [(cs, s)]
  | Seq r1 r2 =>
      flat_map (fun x : partial => matches r2 (snd x) (fst x)) (matches r1 s cs)
  | Star g r' => star_loop (matches r') g (String.length s) s cs
  | Opt g r' =>
      if g then matches r' s cs ++ [(cs, s)] else (cs, s) :: matches r' s cs
  | Group n r' =>
      List.map
        (fun x : partial =>
           ((n, Str.take (String.length s - String.length (snd x)) s) :: fst x,
            snd x))
        (matches r' s cs)
  | Eol =>
      match s with
      | EmptyString => [(cs, s)]
      | String "010"%char EmptyString => [(cs, s)]
      | _ => []
      end
  end.

(** [re.match(r, s)]: the first match at the start of [s]. *)
Definition rmatch (r : regex) (s : string) : option captures :=
  match matches r s [] with
  | [] => None
  | x :: _ => Some (fst x)
  end.

(** [r.fullmatch(s)]: the first match that spans the whole of [s]. *)
Definition fullmatch (r : regex) (s : string) : bool :=
  List.existsb (fun x : partial => Str.is_empty (snd x)) (matches r s []).

(** [re.sub(r, repl, s)] for a pattern that matches no empty string and a
    replacement without group references: the matches are taken from the
    left and do not overlap. *)
Fixpoint sub_from (r : regex) (repl : string) (skip : nat) (s : string) : string :=
  match s with
  | EmptyString => EmptyString
  | String c s' =>
      match skip with
      | S k => sub_from r repl k s'
      | O =>
          match matches r s [] with
          | x :: _ =>
              let used := String.length s - String.length (snd x) in
              match used with
              | O => String c (sub_from r repl 0 s')
              | S k => (repl ++ sub_from r repl k s')%string
              end
          | [] => String c (sub_from r repl 0 s')
          end
      end
  end.

Definition sub (r : regex) (repl : string) (s : string) : string :=
  sub_from r repl 0 s.

End Re.

(* ================================================================== *)
(** ** Pure helpers of the script                                      *)
(* ================================================================== *)

(** [STORY_ID_RE = re.compile(r"^ACF-\d+$")] *)
Definition STORY_ID_RE : Re.regex :=
  Re.Seq (Re.Lit "ACF-") (Re.Seq (Re.Plus true (Re.Code Str.is_decimal)) Re.Eol).

(** [[^a-zA-Z0-9]+] and [-{2,}] *)
Definition NON_ALNUM_RUN : Re.regex :=
  Re.Plus true (Re.Class (fun c => negb (Str.is_alnum c))).
Definition DASH_RUN : Re.regex :=
  Re.Seq (Re.Chr "-") (Re.Seq (Re.Chr "-") (Re.Star true (Re.Chr "-"))).

(** The slug before the empty-result fallback. *)
Definition slug_of (text : string) (max_len : nat) : string :=
  let slug := Str.lower (Str.strip_chars "-" (Re.sub NON_ALNUM_RUN "-" (Str.strip text))) in
  let slug := Re.sub DASH_RUN "-" slug in
  Str.take max_len slug.

(** [_slugify(text, *, max_len=40)] *)
Definition _slugify_len (text : string) (max_len : nat) : string :=
  Str.or_else (slug_of text max_len) "work".

Definition _slugify (text : string) : string := _slugify_len text 40.

(** *** Story title (the text processing of [_parse_story]) *)

(** [r"^#+\s+(.+)$"] (the leading [^] is what [re.match] does anyway) *)
Definition HEADING_RE : Re.regex :=
  Re.Seq (Re.Plus true (Re.Chr "#"))
    (Re.Seq (Re.Plus true (Re.Class Str.is_space))
       (Re.Seq (Re.Group 1 (Re.Plus true (Re.Class Re.dot))) Re.Eol)).

(** The loop over the frontmatter lines: stops at the closing [---] or at
    the first [title:] line, whose value it returns. *)
Fixpoint scan_frontmatter (lines : list string) : string :=
  match lines with
  | [] => EmptyString
  | line :: rest =>
      if String.eqb (Str.strip line) "---" then EmptyString
      else if Str.startswith "title:" (Str.lower line) then
        match Str.after_first ":" line with
        | Some v => Str.strip v
        | None => EmptyString
        end
      else scan_frontmatter rest
  end.

Definition frontmatter_title (content : string) : string :=
  if Str.startswith "---" content
  then scan_frontmatter (firstn 79 (skipn 1 (Str.splitlines content)))
  else EmptyString.

(** The loop over all the lines: the first heading. *)
Fixpoint scan_heading (lines : list string) : string :=
  match lines with
  | [] => EmptyString
  | line :: rest =>
      match Re.rmatch HEADING_RE (Str.strip line) with
      | Some cs => Str.strip (Re.group 1 cs)
      | None => scan_heading rest
      end
  end.

Definition heading_title (content : string) : string :=
  scan_heading (Str.splitlines content).

(** [title or body_title.replace(story_id, '').strip(" -:") or "Untitled"] *)
Definition effective_title (content story_id : string) : string :=
  let title := frontmatter_title content in
  let body_title := heading_title content in
  Str.or_else title
    (Str.or_else (Str.strip_chars " -:" (Str.replace story_id EmptyString body_title))
       "Untitled").

(** *** Origin remotes *)

(** [r"^git@github\.com:([^/]+)/(.+?)(?:\.git)?$"] *)
Definition GITHUB_SSH_RE : Re.regex :=
  Re.Seq (Re.Lit "git@github.com:")
    (Re.Seq (Re.Group 1 (Re.Plus true (Re.Class Re.not_slash)))
       (Re.Seq (Re.Chr "/")
          (Re.Seq (Re.Group 2 (Re.Plus false (Re.Class Re.dot)))
             (Re.Seq (Re.Opt true (Re.Lit ".git")) Re.Eol)))).

(** [r"^https?://github\.com/([^/]+)/(.+?)(?:\.git)?$"] *)
Definition GITHUB_HTTPS_RE : Re.regex :=
  Re.Seq (Re.Lit "http")
    (Re.Seq (Re.Opt true (Re.Chr "s"))
       (Re.Seq (Re.Lit "://github.com/")
          (Re.Seq (Re.Group 1 (Re.Plus true (Re.Class Re.not_slash)))
             (Re.Seq (Re.Chr "/")
                (Re.Seq (Re.Group 2 (Re.Plus false (Re.Class Re.dot)))
                   (Re.Seq (Re.Opt true (Re.Lit ".git")) Re.Eol)))))).

(** [r"^(https?://dev\.azure\.com/[^/]+/[^/]+)/_git/([^/]+)$"] *)
Definition AZURE_RE : Re.regex :=
  Re.Seq
    (Re.Group 1
       (Re.Seq (Re.Lit "http")
          (Re.Seq (Re.Opt true (Re.Chr "s"))
             (Re.Seq (Re.Lit "://dev.azure.com/")
                (Re.Seq (Re.Plus true (Re.Class Re.not_slash))
                   (Re.Seq (Re.Chr "/") (Re.Plus true (Re.Class Re.not_slash))))))))
    (Re.Seq (Re.Lit "/_git/")
       (Re.Seq (Re.Group 2 (Re.Plus true (Re.Class Re.not_slash))) Re.Eol)).

(** The part of [_github_repo_from_origin] after the remote URL is known. *)
Definition github_repo_of_url (url : string) : option string :=
  match Re.rmatch GITHUB_SSH_RE url with
  | Some m => Some (Re.group 1 m ++ "/" ++ Re.group 2 m)%string
  | None =>
      match Re.rmatch GITHUB_HTTPS_RE url with
      | Some m => Some (Re.group 1 m ++ "/" ++ Re.group 2 m)%string
      | None => None
      end
  end.

(** [s.split(sep)] for a one-character separator. *)
Fixpoint split_char_from (sep : ascii) (cur : string) (s : string) : list string :=
  match s with
  | EmptyString => [cur]
  | String c s' =>
      if Ascii.eqb c sep then cur :: split_char_from sep EmptyString s'
      else split_char_from sep (cur ++ String c EmptyString)%string s'
  end.
Definition split_char (sep : ascii) (s : string) : list string :=
  split_char_from sep EmptyString s.

(** The part of [_azure_repo_from_origin] after the remote URL is known:
    [(org_url, project, repo)]. *)
Definition azure_repo_of_url (url : string) : option (string * string * string) :=
  match Re.rmatch AZURE_RE url with
  | Some m =>
      let org_project := Re.group 1 m in
      let repo := Re.group 2 m in
      let parts := split_char "/" org_project in
      let org_url := Str.join "/" (removelast parts) in
      let project := last parts EmptyString in
      Some (org_url, project, repo)
  | None => None
  end.

(** *** Quoting and escaping *)

Definition hex_digit (n : nat) : ascii :=
  match String.get n "0123456789ABCDEF" with Some c => c | None => "0"%char end.

(** The characters [urllib.parse.quote] leaves alone with its default
    [safe="/"]. *)
Definition url_safe (c : ascii) : bool :=
  Str.is_alnum c || Str.mem "_.-~" c || Ascii.eqb c "/"%char.

Definition pct (c : ascii) : string :=
  String "%" (String (hex_digit (Str.code c / 16))
                (String (hex_digit (Str.code c mod 16)) EmptyString)).

(** [urllib.parse.quote(s)] *)
Fixpoint quote (s : string) : string :=
  match s with
  | EmptyString => EmptyString
  | String c s' =>
      if url_safe c then String c (quote s') else (pct c ++ quote s')%string
  end.

(** [_html_escape] *)
Definition _html_escape (s : string) : string :=
  Str.replace "'" "&#39;"
    (Str.replace (String "034" EmptyString) "&quot;"
       (Str.replace ">" "&gt;"
          (Str.replace "<" "&lt;" (Str.replace "&" "&amp;" s)))).

(** [str(n)] for an integer. *)
Definition str_of_Z (n : Z) : string := NilZero.string_of_int (Z.to_int n).

(** [base64.b64encode] *)
Definition b64_char (n : nat) : ascii :=
  match String.get n "ABCDEFGHIJKLMNOPQRSTUVWXYZabcdefghijklmnopqrstuvwxyz0123456789+/" with
  | Some c => c
  | None => "="%char
  end.

Fixpoint b64encode (s : string) : string :=
  match s with
  | EmptyString => EmptyString
  | String a EmptyString =>
      let x := Str.code a in
      String (b64_char (x / 4)) (String (b64_char (x mod 4 * 16)) "==")
  | String a (String b EmptyString) =>
      let x := Str.code a in
      let y := Str.code b in
      String (b64_char (x / 4))
        (String (b64_char (x mod 4 * 16 + y / 16))
           (String (b64_char (y mod 16 * 4)) "="))
  | String a (String b (String c rest)) =>
      let x := Str.code a in
      let y := Str.code b in
      let z := Str.code c in
      String (b64_char (x / 4))
        (String (b64_char (x mod 4 * 16 + y / 16))
           (String (b64_char (y mod 16 * 4 + z / 64))
              (String (b64_char (z mod 64)) (b64encode rest))))
  end.

(** *** Paths ([pathlib]), as normalised POSIX path strings *)

(** [a / b]: an absolute [b] replaces [a].  A path is the text [pathlib]
    prints for it, and [b] is taken to be written that way too: [pathlib]
    drops a trailing slash, a doubled slash and a [.] component of [b],
    which are left to [plain_path] where a property depends on the name. *)
Definition path_join (a b : string) : string :=
  if Str.startswith "/" b then b else (a ++ "/" ++ b)%string.

(** [p.relative_to(root)]; [None] stands for the ValueError. *)
Definition relative_to (root p : string) : option string :=
  if String.eqb p root then Some "."
  else if Str.startswith (root ++ "/") p
       then Some (Str.drop (String.length root + 1) p)
       else None.

(** [p.parent] *)
Definition parent (p : string) : string :=
  Str.join "/" (removelast (split_char "/" p)).

(** [_relative_story_path_guess], [_state_path], [_review_pack_path] *)
Definition _relative_story_path_guess (story_id : string) : string :=
  ("artifacts/stories/" ++ story_id ++ ".md")%string.

Definition _state_path (repo_root story_id : string) : string :=
  path_join (path_join (path_join repo_root "artifacts") "autopilot")
    (story_id ++ ".json")%string.

Definition _review_pack_path (repo_root story_id : string) : string :=
  path_join (path_join (path_join repo_root "artifacts") "review-pack")
    (story_id ++ ".md")%string.

(** *** [textwrap.dedent] *)

Definition is_blank (c : ascii) : bool :=
  Ascii.eqb c " "%char || Ascii.eqb c "009"%char.

(** Lines made of spaces and tabs only are emptied first. *)
Definition blank_to_empty (line : string) : string :=
  if Str.forallb is_blank line then EmptyString else line.

Fixpoint leading_blanks (line : string) : string :=
  match line with
  | String c s' => if is_blank c then String c (leading_blanks s') else EmptyString
  | EmptyString => EmptyString
  end.

Fixpoint common_prefix (a b : string) : string :=
  match a, b with
  | String x a', String y b' =>
      if Ascii.eqb x y then String x (common_prefix a' b') else EmptyString
  | _, _ => EmptyString
  end.

(** The margin: the longest common leading white space of the lines that
    have other characters. *)
Fixpoint margin_of (margin : option string) (lines : list string) : option string :=
  match lines with
  | [] => margin
  | line :: rest =>
      if Str.is_empty line then margin_of margin rest
      else
        let indent := leading_blanks line in
        match margin with
        | None => margin_of (Some indent) rest
        | Some m => margin_of (Some (common_prefix m indent)) rest
        end
  end.

Definition dedent (text : string) : string :=
  let lines := List.map blank_to_empty (split_char "010" text) in
  match margin_of None lines with
  | Some m =>
      Str.join (String "010" EmptyString)
        (List.map
           (fun l => if Str.startswith m l then Str.drop (String.length m) l else l)
           lines)
  | None => Str.join (String "010" EmptyString) lines
  end.

(* ================================================================== *)
(** ** JSON values and Python dictionaries                             *)
(* ================================================================== *)

Inductive json : Type :=
| JNull
| JBool (b : bool)
| JNum (n : Z)
| JStr (s : string)
| JArr (items : list json)
| JObj (fields : list (string * json)).

Module Dict.

(** [d.get(k)] *)
Fixpoint get (k : string) (d : list (string * json)) : option json :=
  match d with
  | [] => None
  | (k', v) :: d' => if String.eqb k k' then Some v else get k d'
  end.

(** [d[k] = v]: an existing key keeps its place. *)
Fixpoint set (k : string) (v : json) (d : list (string * json)) : list (string * json) :=
  match d with
  | [] => [(k, v)]
  | (k', v') :: d' =>
      if String.eqb k k' then (k, v) :: d' else (k', v') :: set k v d'
  end.

End Dict.

(** Truth value of a JSON value, [None] (absent) being false. *)
Definition json_truthy (j : json) : bool :=
  match j with
  | JNull => false
  | JBool b => b
  | JNum n => negb (Z.eqb n 0)
  | JStr s => Str.truthy s
  | JArr l => match l with [] => false | _ => true end
  | JObj d => match d with [] => false | _ => true end
  end.

Definition opt_json_truthy (o : option json) : bool :=
  match o with Some j => json_truthy j | None => false end.

Definition hex_lower (n : nat) : ascii :=
  match String.get n "0123456789abcdef" with Some c => c | None => "0"%char end.

(** One character of [repr(str)] inside quotes [q]. *)
Definition backslash : ascii := "092"%char.

Definition repr_char (q c : ascii) : string :=
  if Ascii.eqb c backslash then String backslash (String backslash EmptyString)
  else if Ascii.eqb c q then String backslash (String c EmptyString)
  else if Ascii.eqb c "010"%char then String backslash "n"
  else if Ascii.eqb c "013"%char then String backslash "r"
  else if Ascii.eqb c "009"%char then String backslash "t"
  else if (Str.code c <? 32) || Nat.eqb (Str.code c) 127
       then String backslash
              (String "x" (String (hex_lower (Str.code c / 16))
                             (String (hex_lower (Str.code c mod 16)) EmptyString)))
       else String c EmptyString.

Fixpoint repr_chars (q : ascii) (s : string) : string :=
  match s with
  | EmptyString => EmptyString
  | String c s' => (repr_char q c ++ repr_chars q s')%string
  end.

(** [repr(s)]: single quotes unless [s] has a single quote and no double
    quote. *)
Definition repr_str (s : string) : string :=
  let q : ascii :=
    if Str.mem s "'"%char && negb (Str.mem s "034"%char)
    then "034"%char else "'"%char in
  String q (repr_chars q s ++ String q EmptyString)%string.

(** [repr(v)] of the Python value a JSON document parses to. *)
Fixpoint py_repr (j : json) : string :=
  match j with
  | JNull => "None"
  | JBool true => "True"
  | JBool false => "False"
  | JNum n => str_of_Z n
  | JStr s => repr_str s
  | JArr l => ("[" ++ Str.join ", " (List.map py_repr l) ++ "]")%string
  | JObj d =>
      ("{" ++ Str.join ", "
                (List.map (fun kv => (repr_str (fst kv) ++ ": " ++ py_repr (snd kv))%string) d)
           ++ "}")%string
  end.

(** [str(v)], as an f-string formats it. *)
Definition py_str (j : json) : string :=
  match j with
  | JStr s => s
  | _ => py_repr j
  end.

(** [int(v)] for the values the script converts: integers, booleans and
    [None] (a TypeError, here [None]); numeric strings are not modelled. *)
Definition py_int (j : json) : option Z :=
  match j with
  | JNum n => Some n
  | JBool b => Some (if b then 1%Z else 0%Z)
  | _ => None
  end.


(* ================================================================== *)
(** ** The world of the script: files, subprocesses, HTTP, console      *)
(* ================================================================== *)

(** The failures of section 7 of the design, by the place that raises them;
    the others are the Python exceptions of the library calls. *)
Inductive Error : Type :=
| InvalidIdentifier          (* ValueError("Invalid story id ...") *)
| NotFound                   (* FileNotFoundError: story file or state file *)
| DirtyWorktree              (* "Working tree is not clean ..." *)
| PushRequired               (* "... PR creation requires pushing the branch" *)
| MissingCredentials         (* "... integration requires ..." *)
| MissingProviderInfo        (* "Missing ... provider info in state" *)
| NoProviderConfigured       (* "No provider integration recorded in state" *)
| UnknownProvider            (* "Unknown provider: ..." *)
| NetworkError               (* urllib.error.URLError *)
| HttpError (status : Z)     (* urllib.error.HTTPError *)
| InvalidURL                 (* http.client.InvalidURL and what else urlopen
                                raises before it sends anything *)
| ConnectionLost             (* what is raised once the request is out:
                                TimeoutError, RemoteDisconnected, IncompleteRead *)
| CommandFailed (argv : list string)   (* subprocess.CalledProcessError *)
| PathError                  (* ValueError of Path.relative_to *)
| BadShape.                  (* KeyError, TypeError, AttributeError on JSON *)

Inductive Result (A : Type) : Type :=
| Ok (a : A)
| Err (e : Error).
Arguments Err {A} e.

Record Request : Type := {
  method : string;
  url : string;
  headers : list (string * string);
  body : option json
}.

(** What [urllib.request.urlopen] and the reading of the response come to:
    a body ([JNull] when it is empty, [JStr] when it is no JSON), an HTTP
    error status, or no connection (URLError).  The client may also refuse
    the request before anything is sent: [http.client] raises InvalidURL
    for a space or a control character in the host or the path of the URL,
    UnicodeEncodeError for a character of the path that is not ASCII, and
    [Request] raises ValueError for a URL without a scheme.  And the
    connection may be lost after the request went out.  The script catches
    neither of the last two. *)
Inductive Reply : Type :=
| Replied (j : json)
| HttpFailed (status : Z)
| Unreachable
| Refused
| Dropped.

Inductive Event : Type :=
| Cmd (argv : list string)                 (* a live subprocess *)
| Mkdir (path : string)                    (* mkdir(parents, exist_ok) *)
| WriteText (path content : string)
| WriteJson (path : string) (data : json)
| Http (req : Request)                     (* a request the client took up *)
| Print (line : string).

(** What the script reads from its surroundings.  [S] is the state of the
    remote service. *)
Record Env (S : Type) : Type := {
  proc : list string -> Z * string;        (* argv -> return code, stdout *)
  environ : string -> option string;       (* os.environ.get *)
  clock : nat -> string;                   (* the n-th reading of the clock *)
  serve : Request -> S -> Reply * S        (* the remote service *)
}.

Record World (S : Type) : Type := {
  texts : list (string * string);          (* text files: path, content *)
  jsons : list (string * json);            (* JSON files: path, document *)
  remote : S;
  ticks : nat;
  trace : list Event
}.

(** Files as association lists, in directory order. *)
Module Fs.

Fixpoint lookup {A} (p : string) (fs : list (string * A)) : option A :=
  match fs with
  | [] => None
  | (q, v) :: fs' => if String.eqb p q then Some v else lookup p fs'
  end.

Definition exists_ {A} (p : string) (fs : list (string * A)) : bool :=
  match lookup p fs with Some _ => true | None => false end.

Fixpoint write {A} (p : string) (v : A) (fs : list (string * A)) : list (string * A) :=
  match fs with
  | [] => [(p, v)]
  | (q, w) :: fs' =>
      if String.eqb p q then (p, v) :: fs' else (q, w) :: write p v fs'
  end.

(** [dir.rglob("*.md")] *)
Definition rglob_md (dir : string) (fs : list (string * string)) : list string :=
  List.map fst
    (List.filter
       (fun e => Str.startswith (dir ++ "/") (fst e) && Str.endswith ".md" (fst e))
       fs).

End Fs.

Definition M (S A : Type) : Type := World S -> Result A * World S.

Definition ret {S A} (a : A) : M S A := fun w => (Ok a, w).
Definition fail {S A} (e : Error) : M S A := fun w => (Err e, w).
Definition bind {S A B} (m : M S A) (k : A -> M S B) : M S B :=
  fun w =>
    match m w with
    | (Ok a, w') => k a w'
    | (Err e, w') => (Err e, w')
    end.

Declare Scope monad_scope.
Delimit Scope monad_scope with monad.
Notation "x <- m ;; k" := (bind m (fun x => k))
  (at level 61, m at next level, right associativity) : monad_scope.
Notation "m ;; k" := (bind m (fun _ => k))
  (at level 61, right associativity) : monad_scope.
Local Open Scope monad_scope.

Definition lift {S A} (r : Result A) : M S A := fun w => (r, w).
Definition lift_opt {S A} (e : Error) (o : option A) : M S A :=
  match o with Some a => ret a | None => fail e end.
Definition when {S} (b : bool) (m : M S unit) : M S unit :=
  if b then m else ret tt.

Definition emit {S} (e : Event) : M S unit :=
  fun w =>
    (Ok tt, {| texts := texts w; jsons := jsons w; remote := remote w;
               ticks := ticks w; trace := trace w ++ [e] |}).

(** [print(line)] *)
Definition print {S} (line : string) : M S unit := emit (Print line).

(** Python's [a or b] on optional strings ([None] and the empty string are false). *)
Definition opt_truthy (o : option string) : bool :=
  match o with Some s => Str.truthy s | None => false end.
Definition opt_or (a b : option string) : option string :=
  if opt_truthy a then a else b.
Definition opt_str (o : option string) : string :=
  match o with Some s => s | None => EmptyString end.

Definition nl : string := String "010" EmptyString.
Definition unlines (ls : list string) : string := Str.join nl ls.

(* ================================================================== *)
(** ** The script                                                      *)
(* ================================================================== *)

(** [n] spaces: the indentation of the templates in the source. *)
Definition spaces (n : nat) : string := String.concat EmptyString (repeat " " n).

(** [s[:n]] counted in code points: the continuation bytes of UTF-8 stay
    with the byte they follow. *)
Fixpoint take_chars (n : nat) (s : string) : string :=
  match s with
  | EmptyString => EmptyString
  | String c s' =>
      if Str.in_range 128 191 c then String c (take_chars n s')
      else match n with
           | O => EmptyString
           | S n' => String c (take_chars n' s')
           end
  end.

(** [d.setdefault(k, v)] on headers. *)
Definition setdefault (k v : string) (d : list (string * string)) : list (string * string) :=
  if Fs.exists_ k d then d else d ++ [(k, v)].

(** [x[k]] on a JSON value; anything but an object with the key raises. *)
Definition getitem (k : string) (j : json) : Result json :=
  match j with
  | JObj d => match Dict.get k d with Some v => Ok v | None => Err BadShape end
  | _ => Err BadShape
  end.

(** [x.get(k)] on a JSON value that must be an object; an absent key gives
    [None], here [JNull]. *)
Definition get_opt (k : string) (j : json) : Result json :=
  match j with
  | JObj d => match Dict.get k d with Some v => Ok v | None => Ok JNull end
  | _ => Err BadShape
  end.

(** [x[0]] *)
Definition first_item (j : json) : Result json :=
  match j with
  | JArr (x :: _) => Ok x
  | _ => Err BadShape
  end.

Definition to_int (j : json) : Result Z :=
  match py_int j with Some n => Ok n | None => Err BadShape end.

(** [int(x or 0)] *)
Definition int_or_0 (j : json) : Result Z :=
  if json_truthy j then to_int j else Ok 0%Z.

(** The parsed command line of [start] and of [evidence]. *)
Record Args : Type := {
  story_id : string;
  stories_dir : string;
  provider : string;
  base_branch : string;
  draft : bool;
  dry_run : bool;
  allow_untracked : bool;
  commit : bool;
  push : bool;
  require_integration : bool;
  github_token : option string;
  github_repo : option string;
  github_api_url : option string;
  azure_pat : option string;
  azure_org_url : option string;
  azure_project : option string;
  azure_repo : option string;
  azure_work_item_type : option string
}.

Record EvArgs : Type := {
  ev_story_id : string;
  ev_stories_dir : string;
  ev_tests_root : string;
  ev_run_local : bool;
  ev_full_verify : bool;
  ev_dry_run : bool;
  ev_github_token : option string;
  ev_azure_pat : option string
}.

(** [ProviderRef] *)
Record ProviderRef : Type := {
  kind : string;
  issue : option json;
  pr : option json
}.

(** What [cmd_start] has in hand when it turns to the provider: its local
    variables after the branch, the review pack and the first state file. *)
Record StartCtx : Type := {
  repo_root : string;
  story_file : string;
  story_title : string;
  story_content : string;
  branch : string;
  review_pack : string;
  state : json;
  state_file : string;
  effective_provider : string
}.

(** [state["provider"] = block] *)
Definition set_provider (block : json) (state_ : json) : json :=
  match state_ with
  | JObj d => JObj (Dict.set "provider" block d)
  | _ => state_
  end.

Section Script.

Context {S : Type} (env : Env S).

(** *** Subprocesses *)

(** [_run(cmd, check=...)]: output captured, nothing shown. *)
Definition _run (cmd : list string) (check : bool) : Result (Z * string) :=
  let cp := proc env cmd in
  if check && negb (Z.eqb (fst cp) 0) then Err (CommandFailed cmd) else Ok cp.

(** [_run_live(cmd, check=...)] *)
Definition _run_live (cmd : list string) (check : bool) : M S unit :=
  emit (Cmd cmd) ;;
  if check && negb (Z.eqb (fst (proc env cmd)) 0)
  then fail (CommandFailed cmd) else ret tt.

Definition _git (args : list string) (check : bool) : Result (Z * string) :=
  _run ("git" :: args) check.

Definition _git_live (args : list string) (check : bool) : M S unit :=
  _run_live ("git" :: args) check.

Definition _repo_root : Result string :=
  match _git ["rev-parse"; "--show-toplevel"] true with
  | Ok cp => Ok (Str.strip (snd cp))
  | Err e => Err e
  end.

Definition _require_clean_worktree (allow_untracked : bool) : Result unit :=
  match _git ["status"; "--porcelain"] true with
  | Err e => Err e
  | Ok cp =>
      let lines :=
        List.filter (fun l => Str.truthy (Str.strip l)) (Str.splitlines (snd cp)) in
      match lines with
      | [] => Ok tt
      | _ =>
          if allow_untracked then
            match List.filter (fun l => negb (Str.startswith "?? " l)) lines with
            | [] => Ok tt
            | _ => Err DirtyWorktree
            end
          else Err DirtyWorktree
      end
  end.

Definition origin_url : option string :=
  match _git ["remote"; "get-url"; "origin"] false with
  | Ok cp =>
      if negb (Z.eqb (fst cp) 0) then None
      else let url := Str.strip (snd cp) in
           if Str.is_empty url then None else Some url
  | Err _ => None
  end.

Definition _github_repo_from_origin : option string :=
  match origin_url with
  | Some url => github_repo_of_url url
  | None => None
  end.

Definition _azure_repo_from_origin : option (string * string * string) :=
  match origin_url with
  | Some url => azure_repo_of_url url
  | None => None
  end.

(** *** Clock and files *)

Definition _now_utc_iso : M S string :=
  fun w =>
    (Ok (clock env (ticks w)),
     {| texts := texts w; jsons := jsons w; remote := remote w;
        ticks := Datatypes.S (ticks w); trace := trace w |}).

Definition _ensure_dir (path : string) : M S unit := emit (Mkdir path).

(** [path.write_text(content)] *)
Definition write_text (path content : string) : M S unit :=
  emit (WriteText path content) ;;
  fun w =>
    (Ok tt, {| texts := Fs.write path content (texts w); jsons := jsons w;
               remote := remote w; ticks := ticks w; trace := trace w |}).

Definition _write_json (path : string) (data : json) : M S unit :=
  _ensure_dir (parent path) ;;
  emit (WriteJson path data) ;;
  fun w =>
    (Ok tt, {| texts := texts w; jsons := Fs.write path data (jsons w);
               remote := remote w; ticks := ticks w; trace := trace w |}).

(** [_parse_story], on the text files [fs]. *)
Definition _parse_story (fs : list (string * string)) (stories_dir story_id : string)
  : Result (string * string * string) :=
  if negb (Re.fullmatch STORY_ID_RE story_id) then Err InvalidIdentifier
  else
    let path := path_join stories_dir (story_id ++ ".md")%string in
    let path :=
      if Fs.exists_ path fs then path
      else
        (* Fallback: locate by scanning *)
        match
          List.find (fun p => Str.contains story_id (opt_str (Fs.lookup p fs)))
            (Fs.rglob_md stories_dir fs)
        with
        | Some p => p
        | None => path
        end in
    match Fs.lookup path fs with
    | None => Err NotFound
    | Some content => Ok (path, effective_title content story_id, content)
    end.

(** *** HTTP *)

Definition _http_json (meth url_ : string) (hdrs : list (string * string))
    (body_ : option json) (accept : string) : M S json :=
  let req_headers := setdefault "Accept" accept hdrs in
  let req_headers :=
    match body_ with
    | Some _ => setdefault "Content-Type" "application/json" req_headers
    | None => req_headers
    end in
  let req := {| method := meth; url := url_; headers := req_headers; body := body_ |} in
  fun w =>
    let (reply, r') := serve env req (remote w) in
    let w' := {| texts := texts w; jsons := jsons w; remote := r';
                 ticks := ticks w; trace := trace w ++ [Http req] |} in
    match reply with
    | Replied j => (Ok j, w')
    | HttpFailed status => (Err (HttpError status), w')
    | Unreachable => (Err NetworkError, w')
    | Refused => (Err InvalidURL, w)
    | Dropped => (Err ConnectionLost, w')
    end.

Definition json_accept : string := "application/json".

(** *** GitHub *)

Definition _github_headers (token : string) : list (string * string) :=
  [("Authorization", ("Bearer " ++ token)%string);
   ("X-GitHub-Api-Version", "2022-11-28");
   ("User-Agent", "ai-coding-factory-autopilot")].

Definition issue_triple (x : json) : Result json :=
  match getitem "number" x with
  | Err e => Err e
  | Ok number =>
      match getitem "html_url" x with
      | Err e => Err e
      | Ok html_url =>
          match getitem "title" x with
          | Err e => Err e
          | Ok title =>
              Ok (JObj [("number", number); ("html_url", html_url); ("title", title)])
          end
      end
  end.

Definition github_issue_body (story_id story_title story_content : string) : string :=
  Str.strip
    (dedent
       (unlines
          [(spaces 8 ++ story_id ++ ": " ++ story_title)%string;
           EmptyString;
           (spaces 8 ++ "This issue is managed by AI Coding Factory Autopilot.")%string;
           EmptyString;
           (spaces 8 ++ "**Story File (source of truth)**: `"
              ++ _relative_story_path_guess story_id ++ "`")%string;
           EmptyString;
           (spaces 8 ++ "---")%string;
           (spaces 8 ++ story_content)%string;
           spaces 8])).

Definition _github_find_or_create_issue
    (api_url token repo story_id story_title story_content : string)
    (dry_run : bool) : M S json :=
  let hdrs := _github_headers token in
  let q := quote ("repo:" ++ repo ++ " " ++ story_id ++ " in:title type:issue") in
  let search_url := (api_url ++ "/search/issues?q=" ++ q)%string in
  if dry_run then
    ret (JObj [("number", JNum 0); ("html_url", JStr "(dry-run)");
               ("title", JStr (story_id ++ ": " ++ story_title))])
  else
    res <- _http_json "GET" search_url hdrs None json_accept ;;
    let items :=
      match res with
      | JObj d => match Dict.get "items" d with Some v => v | None => JArr [] end
      | _ => JArr []
      end in
    if json_truthy items then
      x <- lift (first_item items) ;;
      lift (issue_triple x)
    else
      let create_url := (api_url ++ "/repos/" ++ repo ++ "/issues")%string in
      let payload :=
        JObj [("title", JStr (story_id ++ ": " ++ story_title));
              ("body", JStr (github_issue_body story_id story_title story_content));
              ("labels", JArr [JStr "ai-coding-factory"; JStr "autopilot"])] in
      issue <- _http_json "POST" create_url hdrs (Some payload) json_accept ;;
      lift (issue_triple issue).

Definition _github_create_pr
    (api_url token repo base_branch head_branch title body_ : string)
    (draft dry_run : bool) : M S json :=
  if dry_run then
    ret (JObj [("number", JNum 0); ("html_url", JStr "(dry-run)"); ("title", JStr title)])
  else
    let hdrs := _github_headers token in
    let url_ := (api_url ++ "/repos/" ++ repo ++ "/pulls")%string in
    let payload :=
      JObj [("title", JStr title); ("head", JStr head_branch);
            ("base", JStr base_branch); ("body", JStr body_); ("draft", JBool draft)] in
    pr <- _http_json "POST" url_ hdrs (Some payload) json_accept ;;
    lift (issue_triple pr).

(** [marker in (c.get("body") or "")] *)
Definition body_has_marker (marker : string) (c : json) : Result bool :=
  match get_opt "body" c with
  | Err e => Err e
  | Ok b =>
      if negb (json_truthy b) then Ok (Str.contains marker EmptyString)
      else
        match b with
        | JStr s => Ok (Str.contains marker s)
        | JArr l =>
            Ok (List.existsb
                  (fun x => match x with JStr s => String.eqb s marker | _ => false end) l)
        | JObj d => Ok (Fs.exists_ marker d)
        | _ => Err BadShape
        end
  end.

(** The loop that looks for the comment to update. *)
Fixpoint find_existing (marker : string) (comments : list json) : Result (option json) :=
  match comments with
  | [] => Ok None
  | c :: rest =>
      match body_has_marker marker c with
      | Err e => Err e
      | Ok true => Ok (Some c)
      | Ok false => find_existing marker rest
      end
  end.

Definition _github_upsert_pr_comment
    (api_url token repo : string) (pr_number : Z) (marker body_ : string)
    (dry_run : bool) : M S unit :=
  if dry_run then ret tt
  else
    let hdrs := _github_headers token in
    let list_url :=
      (api_url ++ "/repos/" ++ repo ++ "/issues/" ++ str_of_Z pr_number
         ++ "/comments?per_page=100")%string in
    res <- _http_json "GET" list_url hdrs None json_accept ;;
    comments <-
      (if negb (json_truthy res) then ret []
       else match res with
            | JArr l => ret l
            | _ => fail BadShape
            end) ;;
    existing <- lift (find_existing marker comments) ;;
    let final_body := (marker ++ nl ++ body_)%string in
    match existing with
    | Some c =>
        id <- lift (getitem "id" c) ;;
        let upd_url :=
          (api_url ++ "/repos/" ++ repo ++ "/issues/comments/" ++ py_str id)%string in
        _http_json "PATCH" upd_url hdrs (Some (JObj [("body", JStr final_body)])) json_accept ;;
        ret tt
    | None =>
        let create_url :=
          (api_url ++ "/repos/" ++ repo ++ "/issues/" ++ str_of_Z pr_number
             ++ "/comments")%string in
        _http_json "POST" create_url hdrs (Some (JObj [("body", JStr final_body)])) json_accept ;;
        ret tt
    end.

(** *** Azure DevOps *)

Definition _azure_headers (pat : string) : list (string * string) :=
  let token := b64encode (":" ++ pat) in
  [("Authorization", ("Basic " ++ token)%string);
   ("Accept", "application/json");
   ("User-Agent", "ai-coding-factory-autopilot")].

Definition set_header (k v : string) (d : list (string * string)) : list (string * string) :=
  Fs.write k v d.

Definition _azure_wiql_find_work_item
    (org_url project pat story_id : string) (dry_run : bool) : M S (option Z) :=
  if dry_run then ret (Some 0%Z)
  else
    let hdrs := _azure_headers pat in
    let url_ := (org_url ++ "/" ++ project ++ "/_apis/wit/wiql?api-version=7.1-preview.2")%string in
    let query :=
      JObj [("query",
             JStr ("SELECT [System.Id] FROM WorkItems "
                   ++ "WHERE [System.TeamProject] = @project "
                   ++ "AND [System.Title] CONTAINS '" ++ story_id ++ "' "
                   ++ "ORDER BY [System.ChangedDate] DESC"))] in
    res <- _http_json "POST" url_ hdrs (Some query) json_accept ;;
    let items :=
      match res with
      | JObj d => match Dict.get "workItems" d with Some v => v | None => JArr [] end
      | _ => JArr []
      end in
    if negb (json_truthy items) then ret None
    else
      x <- lift (first_item items) ;;
      id <- lift (getitem "id" x) ;;
      n <- lift (to_int id) ;;
      ret (Some n).

Definition azure_description (story_id story_content : string) : string :=
  Str.strip
    (dedent
       (unlines
          [(spaces 8 ++ "<p><strong>Managed by AI Coding Factory Autopilot</strong></p>")%string;
           (spaces 8 ++ "<p><strong>Story ID:</strong> " ++ story_id ++ "</p>")%string;
           (spaces 8 ++ "<pre>" ++ _html_escape (take_chars 20000 story_content)
              ++ "</pre>")%string;
           spaces 8])).

Definition _azure_create_work_item
    (org_url project pat work_item_type story_id story_title story_content : string)
    (dry_run : bool) : M S Z :=
  if dry_run then ret 0%Z
  else
    let hdrs := set_header "Content-Type" "application/json-patch+json" (_azure_headers pat) in
    let wi_type := quote work_item_type in
    let url_ :=
      (org_url ++ "/" ++ project ++ "/_apis/wit/workitems/$" ++ wi_type
         ++ "?api-version=7.1-preview.3")%string in
    let desc := azure_description story_id story_content in
    let patch :=
      JArr [JObj [("op", JStr "add"); ("path", JStr "/fields/System.Title");
                  ("value", JStr (story_id ++ ": " ++ story_title))];
            JObj [("op", JStr "add"); ("path", JStr "/fields/System.Description");
                  ("value", JStr desc)]] in
    wi <- _http_json "POST" url_ hdrs (Some patch) "application/json" ;;
    id <- lift (getitem "id" wi) ;;
    lift (to_int id).

Definition _azure_create_pr
    (org_url project repo pat source_branch target_branch title description : string)
    (is_draft dry_run : bool) : M S json :=
  if dry_run then
    ret (JObj [("pullRequestId", JNum 0); ("url", JStr "(dry-run)"); ("title", JStr title)])
  else
    let hdrs := _azure_headers pat in
    let url_ :=
      (org_url ++ "/" ++ project ++ "/_apis/git/repositories/" ++ quote repo
         ++ "/pullrequests?api-version=7.1-preview.1")%string in
    let payload :=
      JObj [("sourceRefName", JStr ("refs/heads/" ++ source_branch));
            ("targetRefName", JStr ("refs/heads/" ++ target_branch));
            ("title", JStr title);
            ("description", JStr description);
            ("isDraft", JBool is_draft)] in
    _http_json "POST" url_ hdrs (Some payload) json_accept.

(** The artifact link of [_azure_link_work_item_to_pr]. *)
Definition artifact_url (project repo : string) (pr_id : Z) : string :=
  ("vstfs:///Git/PullRequestId/" ++ quote project ++ "%2F" ++ quote repo ++ "%2F"
     ++ str_of_Z pr_id)%string.

Definition link_patch (artifact : string) : json :=
  JArr [JObj [("op", JStr "add");
              ("path", JStr "/relations/-");
              ("value", JObj [("rel", JStr "ArtifactLink");
                              ("url", JStr artifact);
                              ("attributes", JObj [("name", JStr "Pull Request")])])]].

Definition _azure_link_work_item_to_pr
    (org_url project pat : string) (work_item_id pr_id : Z) (repo : string)
    (dry_run : bool) : M S unit :=
  if dry_run || Z.eqb work_item_id 0 || Z.eqb pr_id 0 then ret tt
  else
    let hdrs := set_header "Content-Type" "application/json-patch+json" (_azure_headers pat) in
    let artifact := artifact_url project repo pr_id in
    let url_ :=
      (org_url ++ "/" ++ project ++ "/_apis/wit/workitems/" ++ str_of_Z work_item_id
         ++ "?api-version=7.1-preview.3")%string in
    _http_json "PATCH" url_ hdrs (Some (link_patch artifact)) "application/json" ;;
    ret tt.

Definition _azure_post_pr_comment
    (org_url project repo pat : string) (pr_id : Z) (body_ : string)
    (dry_run : bool) : M S unit :=
  if dry_run || Z.eqb pr_id 0 then ret tt
  else
    let hdrs := _azure_headers pat in
    let url_ :=
      (org_url ++ "/" ++ project ++ "/_apis/git/repositories/" ++ quote repo
         ++ "/pullRequests/" ++ str_of_Z pr_id
         ++ "/threads?api-version=7.1-preview.1")%string in
    let payload :=
      JObj [("comments", JArr [JObj [("content", JStr body_); ("commentType", JNum 1)]]);
            ("status", JNum 1)] in
    _http_json "POST" url_ hdrs (Some payload) json_accept ;;
    ret tt.

(** *** Review pack and PR body *)

Definition review_pack_text (story_id story_title generated rel_story : string) : string :=
  Str.lstrip Str.is_space
    (dedent
       (unlines
          (List.map (fun l => if Str.is_empty l then l else (spaces 12 ++ l)%string)
             [("# Review Pack — " ++ story_id ++ ": " ++ story_title)%string;
              EmptyString;
              ("Generated: " ++ generated)%string;
              EmptyString;
              "## Links";
              ("- Story file: `" ++ rel_story ++ "`")%string;
              EmptyString;
              "## Scope (Human-verified)";
              "- [ ] Scope matches acceptance criteria";
              "- [ ] No new dependencies without ADR approval";
              "- [ ] Security model changes reviewed (if applicable)";
              EmptyString;
              "## Evidence (Autopilot)";
              "- [ ] `scripts/validate-project.sh`";
              "- [ ] `scripts/validate-documentation.sh`";
              "- [ ] `scripts/validate-rnd-policy.sh`";
              "- [ ] `python3 scripts/traceability/traceability.py validate`";
              "- [ ] Optional: `scripts/scaffold-and-verify.sh` (template build/test/coverage)";
              EmptyString;
              "## Notes";
              "- Add any reviewer notes, risks, or waivers here (link to ADRs/waivers if needed)."]
           ++ [spaces 12]))).

Definition _write_review_pack (repo_root story_id story_title story_file : string)
  : M S string :=
  let out := _review_pack_path repo_root story_id in
  _ensure_dir (parent out) ;;
  rel_story <- lift_opt PathError (relative_to repo_root story_file) ;;
  generated <- _now_utc_iso ;;
  write_text out (review_pack_text story_id story_title generated rel_story) ;;
  ret out.

Definition _compose_pr_body
    (repo_root story_id story_title story_file : string) (issue_ref : option string)
    (review_pack_file : string) : Result string :=
  match relative_to repo_root story_file with
  | None => Err PathError
  | Some rel_story =>
      match relative_to repo_root review_pack_file with
      | None => Err PathError
      | Some rel_review =>
          let parts :=
            [("## " ++ story_id ++ ": " ++ story_title)%string;
             EmptyString;
             ("- Story: `" ++ rel_story ++ "`")%string;
             ("- Review pack: `" ++ rel_review ++ "`")%string] in
          let parts :=
            if opt_truthy issue_ref
            then parts ++ [("- Work item: " ++ opt_str issue_ref)%string]
            else parts in
          let parts :=
            parts ++
            [EmptyString;
             "## Autopilot checklist";
             "- [ ] Evidence pack generated/updated";
             "- [ ] Traceability passes (Story → Test → Commit → Release)";
             "- [ ] Policy self-checks completed"] in
          Ok (Str.strip (unlines parts) ++ nl)%string
      end
  end.

(** *** [start] *)

Definition get_texts : M S (list (string * string)) := fun w => (Ok (texts w), w).
Definition get_jsons : M S (list (string * json)) := fun w => (Ok (jsons w), w).

(** Credentials and coordinates: an explicit argument, else the environment
    variable, else what the origin remote gives. *)
Definition github_token_of (a : option string) : option string :=
  opt_or a (opt_or (environ env "GITHUB_TOKEN") (environ env "GH_TOKEN")).

Definition github_repo_of (args : Args) : option string :=
  opt_or (github_repo args)
    (opt_or (environ env "GITHUB_REPOSITORY") _github_repo_from_origin).

Definition github_api_url_of (args : Args) : option string :=
  opt_or (github_api_url args)
    (opt_or (environ env "GITHUB_API_URL") (Some "https://api.github.com")).

Definition azure_pat_of (a : option string) : option string :=
  opt_or a (environ env "AZURE_DEVOPS_PAT").

(** [org_url], [project] and [repo] as given by the arguments and the
    environment. *)
Definition azure_given (args : Args) : option string * option string * option string :=
  (opt_or (azure_org_url args) (environ env "AZURE_DEVOPS_ORG_URL"),
   opt_or (azure_project args) (environ env "AZURE_DEVOPS_PROJECT"),
   opt_or (azure_repo args) (environ env "AZURE_DEVOPS_REPO")).

(** ... and after the inference from the origin remote. *)
Definition azure_coordinates (args : Args) : option string * option string * option string :=
  let '(org_url, project, repo) := azure_given args in
  if negb (opt_truthy org_url) || negb (opt_truthy project) || negb (opt_truthy repo) then
    match _azure_repo_from_origin with
    | Some (i_org, i_project, i_repo) =>
        if negb (opt_truthy org_url) && negb (opt_truthy project) && negb (opt_truthy repo)
        then (Some i_org, Some i_project, Some i_repo)
        else (org_url, project, repo)
    | None => (org_url, project, repo)
    end
  else (org_url, project, repo).

Definition azure_work_item_type_of (args : Args) : option string :=
  opt_or (azure_work_item_type args)
    (opt_or (environ env "AZURE_DEVOPS_WORK_ITEM_TYPE") (Some "User Story")).

(** Lines 587-589: [auto] is Azure DevOps when the origin remote has the
    shape of Azure Repos, GitHub otherwise. *)
Definition resolve_provider (p : string) : string :=
  if String.eqb p "auto" then
    match _azure_repo_from_origin with
    | Some _ => "azuredevops"
    | None => "github"
    end
  else p.

(** The condition under which the provider path goes on to the remote calls:
    a token and a repository for GitHub; a PAT, an organisation URL, a
    project and a repository for Azure DevOps. *)
Definition integration_ready (args : Args) (p : string) : bool :=
  if String.eqb p "github" then
    opt_truthy (github_token_of (github_token args)) && opt_truthy (github_repo_of args)
  else if String.eqb p "azuredevops" then
    let '(org_url, project, repo) := azure_coordinates args in
    opt_truthy (azure_pat_of (azure_pat args)) && opt_truthy org_url
    && opt_truthy project && opt_truthy repo
  else false.

(** Lines 547-591: story, branch, review pack, first state file, commit and
    push, choice of the provider. *)
Definition start_prepare (args : Args) : M S StartCtx :=
  repo_root_ <- lift _repo_root ;;
  let stories_dir_ := path_join repo_root_ (stories_dir args) in
  fs <- get_texts ;;
  parsed <- lift (_parse_story fs stories_dir_ (story_id args)) ;;
  let '(story_file_, story_title_, story_content_) := parsed in
  let branch_slug := _slugify story_title_ in
  let branch_ := ("feature/" ++ story_id args ++ "-" ++ branch_slug)%string in
  when (negb (dry_run args)) (lift (_require_clean_worktree (allow_untracked args))) ;;
  (* Ensure base branch exists locally. *)
  when (negb (dry_run args))
    (_git_live ["fetch"; "origin"; base_branch args] false ;;
     _git_live ["checkout"; base_branch args] true ;;
     _git_live ["pull"; "--ff-only"] false ;;
     _git_live ["checkout"; "-b"; branch_] true) ;;
  review_pack_ <- _write_review_pack repo_root_ (story_id args) story_title_ story_file_ ;;
  rel_story <- lift_opt PathError (relative_to repo_root_ story_file_) ;;
  created_at <- _now_utc_iso ;;
  let state_ :=
    JObj [("storyId", JStr (story_id args));
          ("storyTitle", JStr story_title_);
          ("storyFile", JStr rel_story);
          ("branch", JStr branch_);
          ("baseBranch", JStr (base_branch args));
          ("createdAt", JStr created_at);
          ("provider", JObj [])] in
  let state_file_ := _state_path repo_root_ (story_id args) in
  _write_json state_file_ state_ ;;
  when (negb (dry_run args) && commit args)
    (rel_pack <- lift_opt PathError (relative_to repo_root_ review_pack_) ;;
     rel_state <- lift_opt PathError (relative_to repo_root_ state_file_) ;;
     _git_live ["add"; rel_pack; rel_state] true ;;
     _git_live ["commit"; "-m"; (story_id args ++ ": start autopilot")%string] true ;;
     when (push args) (_git_live ["push"; "-u"; "origin"; branch_] true)) ;;
  let provider_ := resolve_provider (provider args) in
  ret {| repo_root := repo_root_; story_file := story_file_;
         story_title := story_title_; story_content := story_content_;
         branch := branch_; review_pack := review_pack_; state := state_;
         state_file := state_file_; effective_provider := provider_ |}.

(** Lines 594-634: the GitHub path. *)
Definition start_github (args : Args) (c : StartCtx) : M S (ProviderRef * json) :=
  let token := github_token_of (github_token args) in
  let repo := github_repo_of args in
  let api_url := opt_str (github_api_url_of args) in
  if negb (opt_truthy token) || negb (opt_truthy repo) then
    if require_integration args then fail MissingCredentials
    else ret ({| kind := "github"; issue := None; pr := None |}, state c)
  else
    if negb (push args) && negb (dry_run args) then fail PushRequired
    else
      issue_ <- _github_find_or_create_issue api_url (opt_str token) (opt_str repo)
                  (story_id args) (story_title c) (story_content c) (dry_run args) ;;
      let number := match issue_ with JObj d => Dict.get "number" d | _ => None end in
      let issue_ref :=
        if json_truthy issue_ && opt_json_truthy number
        then Some ("#" ++ match number with Some n => py_str n | None => EmptyString end)%string
        else None in
      pr_body <- lift (_compose_pr_body (repo_root c) (story_id args) (story_title c)
                         (story_file c) issue_ref (review_pack c)) ;;
      pr_ <- _github_create_pr api_url (opt_str token) (opt_str repo) (base_branch args)
               (branch c) (story_id args ++ ": " ++ story_title c) pr_body
               (draft args) (dry_run args) ;;
      ret ({| kind := "github"; issue := Some issue_; pr := Some pr_ |},
           set_provider
             (JObj [("kind", JStr "github"); ("apiUrl", JStr api_url);
                    ("repo", JStr (opt_str repo)); ("issue", issue_); ("pr", pr_)])
             (state c)).

Definition opt_Z_or_0 (o : option Z) : Z := match o with Some n => n | None => 0%Z end.

(** [pr.get(k, default)] *)
Definition get_default (k : string) (default : json) (j : json) : Result json :=
  match j with
  | JObj d => match Dict.get k d with Some v => Ok v | None => Ok default end
  | _ => Err BadShape
  end.

(** Lines 636-715: the Azure DevOps path. *)
Definition start_azure (args : Args) (c : StartCtx) : M S (ProviderRef * json) :=
  let pat := azure_pat_of (azure_pat args) in
  let wi_type := opt_str (azure_work_item_type_of args) in
  let '(org_url, project, repo) := azure_coordinates args in
  if negb (opt_truthy pat) || negb (opt_truthy org_url) || negb (opt_truthy project)
     || negb (opt_truthy repo) then
    if require_integration args then fail MissingCredentials
    else ret ({| kind := "azuredevops"; issue := None; pr := None |}, state c)
  else
    if negb (push args) && negb (dry_run args) then fail PushRequired
    else
      let org_url := opt_str org_url in
      let project := opt_str project in
      let repo := opt_str repo in
      let pat := opt_str pat in
      found <- _azure_wiql_find_work_item org_url project pat (story_id args) (dry_run args) ;;
      wi_id <-
        match found with
        | None =>
            n <- _azure_create_work_item org_url project pat wi_type (story_id args)
                   (story_title c) (story_content c) (dry_run args) ;;
            ret (Some n)
        | Some _ => ret found
        end ;;
      let wi_ref :=
        match wi_id with
        | Some n => Some ("WorkItem " ++ str_of_Z n)%string
        | None => None
        end in
      pr_body <- lift (_compose_pr_body (repo_root c) (story_id args) (story_title c)
                         (story_file c) wi_ref (review_pack c)) ;;
      pr_ <- _azure_create_pr org_url project repo pat (branch c) (base_branch args)
               (story_id args ++ ": " ++ story_title c) pr_body (draft args) (dry_run args) ;;
      pr_id_json <- lift (get_default "pullRequestId" (JNum 0) pr_) ;;
      pr_id <- lift (int_or_0 pr_id_json) ;;
      _azure_link_work_item_to_pr org_url project pat (opt_Z_or_0 wi_id) pr_id repo
        (dry_run args) ;;
      pr_url <- lift (get_opt "url" pr_) ;;
      pr_title <- lift (get_opt "title" pr_) ;;
      let wi_text := match wi_id with Some n => str_of_Z n | None => "None" end in
      ret ({| kind := "azuredevops";
              issue := Some (JObj [("id", JNum (opt_Z_or_0 wi_id));
                                   ("url", JStr (org_url ++ "/" ++ project
                                                   ++ "/_workitems/edit/" ++ wi_text))]);
              pr := Some (JObj [("id", JNum pr_id); ("url", pr_url); ("title", pr_title)]) |},
           set_provider
             (JObj [("kind", JStr "azuredevops"); ("orgUrl", JStr org_url);
                    ("project", JStr project); ("repo", JStr repo);
                    ("workItemType", JStr wi_type);
                    ("workItemId", JNum (opt_Z_or_0 wi_id));
                    ("prId", JNum pr_id); ("prUrl", pr_url)])
             (state c)).

(** Lines 594-717: the provider integration. *)
Definition start_integrate (args : Args) (c : StartCtx) : M S (ProviderRef * json) :=
  if String.eqb (effective_provider c) "github" then start_github args c
  else if String.eqb (effective_provider c) "azuredevops" then start_azure args c
  else fail UnknownProvider.

(** Lines 719-735: second state file, best-effort commit, summary. *)
Definition start_finish (args : Args) (c : StartCtx) (r : ProviderRef * json) : M S Z :=
  let '(provider_ref, state_) := r in
  _write_json (state_file c) state_ ;;
  let has_provider :=
    match state_ with
    | JObj d => opt_json_truthy (Dict.get "provider" d)
    | _ => false
    end in
  when (negb (dry_run args) && commit args && has_provider)
    (rel_state <- lift_opt PathError (relative_to (repo_root c) (state_file c)) ;;
     _git_live ["add"; rel_state] true ;;
     _git_live ["commit"; "-m"; (story_id args ++ ": link work item and PR")%string] false ;;
     when (push args) (_git_live ["push"] false)) ;;
  (* Console output (human-friendly) *)
  print ("Story: " ++ story_id args ++ ": " ++ story_title c) ;;
  print ("Branch: " ++ branch c) ;;
  rel_pack <- lift_opt PathError (relative_to (repo_root c) (review_pack c)) ;;
  print ("Review pack: " ++ rel_pack) ;;
  rel_state <- lift_opt PathError (relative_to (repo_root c) (state_file c)) ;;
  print ("State: " ++ rel_state) ;;
  when (opt_json_truthy (issue provider_ref))
    (print (kind provider_ref ++ " work item: "
              ++ match issue provider_ref with Some j => py_str j | None => EmptyString end)) ;;
  when (opt_json_truthy (pr provider_ref))
    (print (kind provider_ref ++ " PR: "
              ++ match pr provider_ref with Some j => py_str j | None => EmptyString end)) ;;
  ret 0%Z.

Definition cmd_start (args : Args) : M S Z :=
  c <- start_prepare args ;;
  r <- start_integrate args c ;;
  start_finish args c r.

(** *** [evidence] *)

Definition _local_evidence_summary (story_id_ story_title_ : string) : M S string :=
  generated <- _now_utc_iso ;;
  ret (Str.strip
         (dedent
            (unlines
               (List.map (fun l => if Str.is_empty l then l else (spaces 8 ++ l)%string)
                  [("## Evidence Pack — " ++ story_id_ ++ ": " ++ story_title_)%string;
                   EmptyString;
                   ("Generated: " ++ generated)%string;
                   EmptyString;
                   "### Commands";
                   "- `./scripts/validate-project.sh`";
                   "- `./scripts/validate-documentation.sh`";
                   "- `./scripts/validate-rnd-policy.sh`";
                   "- `python3 scripts/traceability/traceability.py validate --stories-dir artifacts/stories --tests-root .`";
                   EmptyString;
                   "### Notes";
                   "- This comment is managed by AI Coding Factory Autopilot."]
                ++ [spaces 8])))).

Definition EVIDENCE_MARKER : string := "<!-- acf-autopilot:evidence -->".

(** [j or o], then read as text. *)
Definition json_or (j : json) (o : option string) : option string :=
  if json_truthy j then Some (py_str j) else o.

Definition is_str (s : string) (j : json) : bool :=
  match j with JStr t => String.eqb t s | _ => false end.

(** Lines 765-786: the local validations. *)
Definition run_local_checks (args : EvArgs) : M S unit :=
  (* Local validations (do not assume dotnet/docker availability). *)
  _git_live ["status"] false ;;
  _run_live ["bash"; "scripts/validate-project.sh"] false ;;
  _run_live ["bash"; "scripts/validate-documentation.sh"] false ;;
  _run_live ["bash"; "scripts/validate-rnd-policy.sh"] false ;;
  _run_live ["python3"; "scripts/traceability/traceability.py"; "validate";
             "--stories-dir"; ev_stories_dir args; "--tests-root"; ev_tests_root args;
             "--skip-commits"] false ;;
  when (ev_full_verify args) (_run_live ["bash"; "scripts/scaffold-and-verify.sh"] false).

(** Lines 792-810. *)
Definition evidence_github (args : EvArgs) (prov : json) (marker comment : string) : M S Z :=
  let token := github_token_of (ev_github_token args) in
  repo <- lift (get_opt "repo" prov) ;;
  api <- lift (get_opt "apiUrl" prov) ;;
  let api_url :=
    opt_str (json_or api (opt_or (environ env "GITHUB_API_URL") (Some "https://api.github.com"))) in
  pr_j <- lift (get_opt "pr" prov) ;;
  let pr_ := if json_truthy pr_j then pr_j else JObj [] in
  number <- lift (get_default "number" (JNum 0) pr_) ;;
  pr_number <- lift (int_or_0 number) ;;
  if negb (opt_truthy token) || negb (json_truthy repo) || Z.eqb pr_number 0
  then fail MissingProviderInfo
  else
    _github_upsert_pr_comment api_url (opt_str token) (py_str repo) pr_number marker comment
      (ev_dry_run args) ;;
    print ("Updated GitHub PR comment for PR #" ++ str_of_Z pr_number) ;;
    ret 0%Z.

(** Lines 812-832. *)
Definition evidence_azure (args : EvArgs) (prov : json) (marker comment : string) : M S Z :=
  let pat := azure_pat_of (ev_azure_pat args) in
  org_j <- lift (get_opt "orgUrl" prov) ;;
  let org_url := json_or org_j (environ env "AZURE_DEVOPS_ORG_URL") in
  project_j <- lift (get_opt "project" prov) ;;
  let project := json_or project_j (environ env "AZURE_DEVOPS_PROJECT") in
  repo_j <- lift (get_opt "repo" prov) ;;
  let repo := json_or repo_j (environ env "AZURE_DEVOPS_REPO") in
  pr_id_j <- lift (get_default "prId" (JNum 0) prov) ;;
  pr_id <- lift (int_or_0 pr_id_j) ;;
  if negb (opt_truthy pat) || negb (opt_truthy org_url) || negb (opt_truthy project)
     || negb (opt_truthy repo) || Z.eqb pr_id 0
  then fail MissingProviderInfo
  else
    _azure_post_pr_comment (opt_str org_url) (opt_str project) (opt_str repo) (opt_str pat)
      pr_id (marker ++ nl ++ comment) (ev_dry_run args) ;;
    print ("Posted Azure DevOps PR thread comment for PR " ++ str_of_Z pr_id) ;;
    ret 0%Z.

Definition cmd_evidence (args : EvArgs) : M S Z :=
  repo_root_ <- lift _repo_root ;;
  let state_file_ := _state_path repo_root_ (ev_story_id args) in
  files <- get_jsons ;;
  match Fs.lookup state_file_ files with
  | None => fail NotFound
  | Some state_ =>
      title <- lift (get_default "storyTitle" (JStr "Untitled") state_) ;;
      when (ev_run_local args) (run_local_checks args) ;;
      let marker := EVIDENCE_MARKER in
      comment <- _local_evidence_summary (ev_story_id args) (py_str title) ;;
      prov <- lift (get_default "provider" (JObj []) state_) ;;
      provider_ <- lift (get_opt "kind" prov) ;;
      if is_str "github" provider_ then evidence_github args prov marker comment
      else if is_str "azuredevops" provider_ then evidence_azure args prov marker comment
      else fail NoProviderConfigured
  end.

(** *** [main] *)

Inductive Command : Type :=
| Start (args : Args)
| Evidence (args : EvArgs).

(** [args.commit = True] *)
Definition with_commit (a : Args) : Args :=
  {| story_id := story_id a; stories_dir := stories_dir a; provider := provider a;
     base_branch := base_branch a; draft := draft a; dry_run := dry_run a;
     allow_untracked := allow_untracked a; commit := true; push := push a;
     require_integration := require_integration a; github_token := github_token a;
     github_repo := github_repo a; github_api_url := github_api_url a;
     azure_pat := azure_pat a; azure_org_url := azure_org_url a;
     azure_project := azure_project a; azure_repo := azure_repo a;
     azure_work_item_type := azure_work_item_type a |}.

Definition main (cmd : Command) : M S Z :=
  match cmd with
  | Start args => cmd_start (if push args then with_commit args else args)
  | Evidence args => cmd_evidence args
  end.

End Script.

(* ================================================================== *)
(** ** The remote side of the evidence comment                         *)
(* ================================================================== *)

(** The issue-comment endpoints of the GitHub REST API for one pull request,
    as the script addresses them: the listing returns the first page, oldest
    comment first, of at most [per_page=100] comments; a POST appends a
    comment under a fresh id; a PATCH replaces the body of the comment with
    the id in the URL. *)
Module GitHubSim.

Record Remote : Type := {
  comments : list (Z * string);            (* id, body; oldest first *)
  next_id : Z
}.

Definition comment_json (c : Z * string) : json :=
  JObj [("id", JNum (fst c)); ("body", JStr (snd c))].

Definition body_of (req : Request) : option string :=
  match body req with
  | Some (JObj d) =>
      match Dict.get "body" d with
      | Some (JStr b) => Some b
      | _ => None
      end
  | _ => None
  end.

Fixpoint update (id_text new_body : string) (cs : list (Z * string)) : option (list (Z * string)) :=
  match cs with
  | [] => None
  | c :: rest =>
      if String.eqb (str_of_Z (fst c)) id_text then Some ((fst c, new_body) :: rest)
      else match update id_text new_body rest with
           | Some rest' => Some (c :: rest')
           | None => None
           end
  end.

Definition serve (api_url repo : string) (pr_number : Z) (req : Request) (st : Remote)
  : Reply * Remote :=
  let issues := (api_url ++ "/repos/" ++ repo ++ "/issues/")%string in
  let of_pr := (issues ++ str_of_Z pr_number ++ "/comments")%string in
  let by_id := (issues ++ "comments/")%string in
  if String.eqb (method req) "GET" && String.eqb (url req) (of_pr ++ "?per_page=100") then
    (Replied (JArr (List.map comment_json (firstn 100 (comments st)))), st)
  else if String.eqb (method req) "POST" && String.eqb (url req) of_pr then
    match body_of req with
    | Some b =>
        (Replied (comment_json (next_id st, b)),
         {| comments := comments st ++ [(next_id st, b)]; next_id := next_id st + 1 |})
    | None => (HttpFailed 422, st)
    end
  else if String.eqb (method req) "PATCH" && Str.startswith by_id (url req) then
    match body_of req with
    | Some b =>
        match update (Str.drop (String.length by_id) (url req)) b (comments st) with
        | Some cs => (Replied JNull, {| comments := cs; next_id := next_id st |})
        | None => (HttpFailed 404, st)
        end
    | None => (HttpFailed 422, st)
    end
  else (HttpFailed 404, st).

(** The comments that carry the marker. *)
Definition marked (marker : string) (st : Remote) : list (Z * string) :=
  List.filter (fun c => Str.contains marker (snd c)) (comments st).

End GitHubSim.

(** The threads endpoint of a pull request, as the script addresses it. *)
Definition threads_url (org project repo : string) (pr_id : Z) : string :=
  (org ++ "/" ++ project ++ "/_apis/git/repositories/" ++ quote repo
     ++ "/pullRequests/" ++ str_of_Z pr_id ++ "/threads?api-version=7.1-preview.1")%string.

(** The comment threads of one Azure DevOps pull request: a POST to the
    threads endpoint adds a thread with the content of its first comment. *)
Module AzureSim.

Definition content_of (req : Request) : option string :=
  match body req with
  | Some (JObj d) =>
      match Dict.get "comments" d with
      | Some (JArr (JObj c :: _)) =>
          match Dict.get "content" c with
          | Some (JStr t) => Some t
          | _ => None
          end
      | _ => None
      end
  | _ => None
  end.

Definition serve (org project repo : string) (pr_id : Z) (req : Request)
    (threads : list string) : Reply * list string :=
  if String.eqb (method req) "POST"
     && String.eqb (url req) (threads_url org project repo pr_id) then
    match content_of req with
    | Some t =>
        (Replied (JObj [("id", JNum (Z.of_nat (Datatypes.S (List.length threads))))]),
         threads ++ [t])
    | None => (HttpFailed 400, threads)
    end
  else (HttpFailed 404, threads).

End AzureSim.

(* ================================================================== *)
(** ** A small repository, for running the script                      *)
(* ================================================================== *)

Module Demo.

Fixpoint argv_eqb (a b : list string) : bool :=
  match a, b with
  | [], [] => true
  | x :: a', y :: b' => String.eqb x y && argv_eqb a' b'
  | _, _ => false
  end.

(** Every command succeeds; the work tree is [/r] and clean; [origin] is the
    origin remote. *)
Definition proc_ok (origin : string) (argv : list string) : Z * string :=
  if argv_eqb argv ["git"; "rev-parse"; "--show-toplevel"] then (0%Z, "/r" ++ nl)%string
  else if argv_eqb argv ["git"; "remote"; "get-url"; "origin"] then (0%Z, origin ++ nl)%string
  else (0%Z, EmptyString).

Definition no_environ : string -> option string := fun _ => None.

Definition midnight : nat -> string := fun _ => "2024-01-01T00:00:00Z".

(** A remote that cannot be reached. *)
Definition offline : Request -> unit -> Reply * unit := fun _ s => (Unreachable, s).

Definition env_of (origin : string) : Env unit :=
  {| proc := proc_ok origin; environ := no_environ; clock := midnight; serve := offline |}.

(** A service behind a client that refuses a URL with a space or a control
    character, as [http.client] does, and answers the other requests with
    an empty body. *)
Definition url_ctl (c : ascii) : bool :=
  Str.in_range 0 32 c || Ascii.eqb c "127"%char.

Definition checked : Request -> unit -> Reply * unit :=
  fun req s =>
    if Str.existsb url_ctl (url req) then (Refused, s) else (Replied JNull, s).

Definition checked_env : Env unit :=
  {| proc := proc_ok "https://dev.azure.com/acme/proj/_git/widgets";
     environ := no_environ; clock := midnight; serve := checked |}.

Definition github_env : Env unit := env_of "git@github.com:acme/widgets.git".
Definition github_https_env : Env unit := env_of "https://github.com/acme/widgets.git".
Definition azure_env : Env unit := env_of "https://dev.azure.com/acme/proj/_git/widgets".

Definition story : string :=
  ("# ACF-1: Hello, World!! Foo" ++ nl ++ "As a user I want to be greeted.")%string.

Definition world : World unit :=
  {| texts := [("/r/artifacts/stories/ACF-1.md", story)];
     jsons := []; remote := tt; ticks := 0; trace := [] |}.

(** [start ACF-1] with the defaults of the command line. *)
Definition start_args : Args :=
  {| story_id := "ACF-1"; stories_dir := "artifacts/stories"; provider := "auto";
     base_branch := "main"; draft := false; dry_run := false; allow_untracked := false;
     commit := false; push := false; require_integration := false;
     github_token := None; github_repo := None; github_api_url := None;
     azure_pat := None; azure_org_url := None; azure_project := None;
     azure_repo := None; azure_work_item_type := None |}.

Definition set_dry_run (a : Args) : Args :=
  {| story_id := story_id a; stories_dir := stories_dir a; provider := provider a;
     base_branch := base_branch a; draft := draft a; dry_run := true;
     allow_untracked := allow_untracked a; commit := commit a; push := push a;
     require_integration := require_integration a; github_token := github_token a;
     github_repo := github_repo a; github_api_url := github_api_url a;
     azure_pat := azure_pat a; azure_org_url := azure_org_url a;
     azure_project := azure_project a; azure_repo := azure_repo a;
     azure_work_item_type := azure_work_item_type a |}.

Definition set_require_integration (a : Args) : Args :=
  {| story_id := story_id a; stories_dir := stories_dir a; provider := provider a;
     base_branch := base_branch a; draft := draft a; dry_run := dry_run a;
     allow_untracked := allow_untracked a; commit := commit a; push := push a;
     require_integration := true; github_token := github_token a;
     github_repo := github_repo a; github_api_url := github_api_url a;
     azure_pat := azure_pat a; azure_org_url := azure_org_url a;
     azure_project := azure_project a; azure_repo := azure_repo a;
     azure_work_item_type := azure_work_item_type a |}.

Definition set_github_token (t : string) (a : Args) : Args :=
  {| story_id := story_id a; stories_dir := stories_dir a; provider := provider a;
     base_branch := base_branch a; draft := draft a; dry_run := dry_run a;
     allow_untracked := allow_untracked a; commit := commit a; push := push a;
     require_integration := require_integration a; github_token := Some t;
     github_repo := github_repo a; github_api_url := github_api_url a;
     azure_pat := azure_pat a; azure_org_url := azure_org_url a;
     azure_project := azure_project a; azure_repo := azure_repo a;
     azure_work_item_type := azure_work_item_type a |}.

Definition set_story_id (i : string) (a : Args) : Args :=
  {| story_id := i; stories_dir := stories_dir a; provider := provider a;
     base_branch := base_branch a; draft := draft a; dry_run := dry_run a;
     allow_untracked := allow_untracked a; commit := commit a; push := push a;
     require_integration := require_integration a; github_token := github_token a;
     github_repo := github_repo a; github_api_url := github_api_url a;
     azure_pat := azure_pat a; azure_org_url := azure_org_url a;
     azure_project := azure_project a; azure_repo := azure_repo a;
     azure_work_item_type := azure_work_item_type a |}.

(** [start ACF-1 --dry-run --require-integration], without credentials. *)
Definition dry_required_args : Args := set_require_integration (set_dry_run start_args).

(** [start ACF-404 --dry-run]: no story has this identifier. *)
Definition missing_story_args : Args := set_story_id "ACF-404" (set_dry_run start_args).

Definition no_ctx : StartCtx :=
  {| repo_root := EmptyString; story_file := EmptyString; story_title := EmptyString;
     story_content := EmptyString; branch := EmptyString; review_pack := EmptyString;
     state := JNull; state_file := EmptyString; effective_provider := EmptyString |}.

(** [start ACF-1 --provider azuredevops --azure-pat pat --azure-project proj]:
    a project is given, the organisation URL and the repository are not. *)
Definition partial_azure_args : Args :=
  {| story_id := "ACF-1"; stories_dir := "artifacts/stories"; provider := "azuredevops";
     base_branch := "main"; draft := false; dry_run := true; allow_untracked := false;
     commit := false; push := false; require_integration := false;
     github_token := None; github_repo := None; github_api_url := None;
     azure_pat := Some "pat"; azure_org_url := None; azure_project := Some "proj";
     azure_repo := None; azure_work_item_type := None |}.

Definition partial_azure_ctx : StartCtx :=
  match fst (start_prepare azure_env partial_azure_args world) with
  | Ok c => c
  | Err _ => no_ctx
  end.

(** [start ACF-1 --github-token tok], without [--push]. *)
Definition token_args : Args := set_github_token "tok" start_args.

Definition prepared : Result StartCtx * World unit :=
  start_prepare github_env token_args world.

Definition prepared_ctx : StartCtx :=
  match fst prepared with Ok c => c | Err _ => no_ctx end.

(** The world after [start ACF-1 --dry-run] without credentials: the state
    file has an empty provider block. *)
Definition started : World unit :=
  snd (cmd_start github_env (set_dry_run start_args) world).

Definition started_state : json :=
  match Fs.lookup "/r/artifacts/autopilot/ACF-1.json" (jsons started) with
  | Some j => j
  | None => JNull
  end.

(** [evidence ACF-1] *)
Definition evidence_args : EvArgs :=
  {| ev_story_id := "ACF-1"; ev_stories_dir := "artifacts/stories"; ev_tests_root := ".";
     ev_run_local := false; ev_full_verify := false; ev_dry_run := false;
     ev_github_token := None; ev_azure_pat := None |}.

(** A repository on GitHub with pull request 5 open for ACF-1: the token is
    in the environment, the clock moves on with every reading, and the
    remote is the comment service of that pull request. *)
Definition token_environ (name : string) : option string :=
  if String.eqb name "GITHUB_TOKEN" then Some "tok" else None.

Definition day (n : nat) : string :=
  ("2024-01-0" ++ str_of_Z (Z.of_nat (Datatypes.S n)) ++ "T00:00:00Z")%string.

Definition gh_env : Env GitHubSim.Remote :=
  {| proc := proc_ok "git@github.com:acme/widgets.git";
     environ := token_environ;
     clock := day;
     serve := GitHubSim.serve "https://api.github.com" "acme/widgets" 5 |}.

Definition linked_state : json :=
  JObj [("storyId", JStr "ACF-1");
        ("storyTitle", JStr "Hello, World!! Foo");
        ("storyFile", JStr "artifacts/stories/ACF-1.md");
        ("branch", JStr "feature/ACF-1-hello-world-foo");
        ("baseBranch", JStr "main");
        ("createdAt", JStr "2024-01-01T00:00:00Z");
        ("provider",
         JObj [("kind", JStr "github");
               ("apiUrl", JStr "https://api.github.com");
               ("repo", JStr "acme/widgets");
               ("issue", JObj [("number", JNum 4);
                               ("html_url", JStr "https://github.com/acme/widgets/issues/4");
                               ("title", JStr "ACF-1: Hello, World!! Foo")]);
               ("pr", JObj [("number", JNum 5);
                            ("html_url", JStr "https://github.com/acme/widgets/pull/5");
                            ("title", JStr "ACF-1: Hello, World!! Foo")])])].

(** The pull request already has [n] comments of reviewers. *)
Definition discussed (n : nat) : GitHubSim.Remote :=
  {| GitHubSim.comments := List.map (fun i => (Z.of_nat i, "LGTM")) (seq 1 n);
     GitHubSim.next_id := Z.of_nat (Datatypes.S n) |}.

Definition linked_world (n : nat) : World GitHubSim.Remote :=
  {| texts := [("/r/artifacts/stories/ACF-1.md", story)];
     jsons := [("/r/artifacts/autopilot/ACF-1.json", linked_state)];
     remote := discussed n; ticks := 0; trace := [] |}.

(** [evidence ACF-1], run twice. *)
Definition evidence_twice (n : nat) : World GitHubSim.Remote :=
  snd (cmd_evidence gh_env evidence_args
         (snd (cmd_evidence gh_env evidence_args (linked_world n)))).

(** [start ACF-1 --github-token tok --push] *)
Definition push_args : Args :=
  {| story_id := "ACF-1"; stories_dir := "artifacts/stories"; provider := "auto";
     base_branch := "main"; draft := false; dry_run := false; allow_untracked := false;
     commit := false; push := true; require_integration := false;
     github_token := Some "tok"; github_repo := None; github_api_url := None;
     azure_pat := None; azure_org_url := None; azure_project := None;
     azure_repo := None; azure_work_item_type := None |}.

Definition no_request : Request :=
  {| method := EmptyString; url := EmptyString; headers := []; body := None |}.

(** A work tree whose [git status --porcelain] returns [rc] and prints [out]. *)
Definition status_env (rc : Z) (out : string) : Env unit :=
  {| proc := fun argv =>
       if argv_eqb argv ["git"; "status"; "--porcelain"] then (rc, out)
       else proc_ok "git@github.com:acme/widgets.git" argv;
     environ := no_environ; clock := midnight; serve := offline |}.

(** Outside a git work tree: [git rev-parse --show-toplevel] fails. *)
Definition outside_env : Env unit :=
  {| proc := fun argv =>
       if argv_eqb argv ["git"; "rev-parse"; "--show-toplevel"] then (128%Z, EmptyString)
       else proc_ok "git@github.com:acme/widgets.git" argv;
     environ := no_environ; clock := midnight; serve := offline |}.

(** One modified file and one untracked file. *)
Definition dirty_status : string :=
  (" M src/app.py" ++ nl ++ "?? notes.txt" ++ nl)%string.

(** The branch of the story exists already: [git checkout -b] fails. *)
Definition rerun_env : Env unit :=
  {| proc := fun argv =>
       if argv_eqb argv ["git"; "checkout"; "-b"; "feature/ACF-1-hello-world-foo"]
       then (128%Z, EmptyString)
       else if argv_eqb argv ["git"; "fetch"; "origin"; "main"] then (1%Z, EmptyString)
       else proc_ok "git@github.com:acme/widgets.git" argv;
     environ := no_environ; clock := midnight; serve := offline |}.

(** GitHub as the issue search sees it: the search returns [found]; a POST
    creates issue 8. *)
Definition issue (n : Z) : json :=
  JObj [("number", JNum n);
        ("html_url", JStr ("https://github.com/acme/widgets/issues/" ++ str_of_Z n));
        ("title", JStr "ACF-1: Hello, World!! Foo");
        ("state", JStr "open")].

Definition search_env (found : list json) : Env unit :=
  {| proc := proc_ok "git@github.com:acme/widgets.git";
     environ := no_environ; clock := midnight;
     serve := fun req st =>
       if String.eqb (method req) "GET"
       then (Replied (JObj [("total_count", JNum (Z.of_nat (List.length found)));
                            ("items", JArr found)]), st)
       else (Replied (issue 8), st) |}.

(** The events of a trace before its first POST, that request, and the
    events after it. *)
Fixpoint until_post (t : list Event) : list Event * Request * list Event :=
  match t with
  | [] => ([], no_request, [])
  | Http q :: t' =>
      if String.eqb (method q) "POST" then ([], q, t')
      else let '(a, r, b) := until_post t' in (Http q :: a, r, b)
  | e :: t' => let '(a, r, b) := until_post t' in (e :: a, r, b)
  end.

(** [start ACF-1 --github-token tok --push] on a GitHub that finds issue 7
    and creates pull request 8: the trace, cut at the request that creates
    the pull request. *)
Definition pushed_trace : list Event :=
  trace (snd (main (search_env [issue 7]) (Start push_args) world)).
Definition before_pr : list Event := fst (fst (until_post pushed_trace)).
Definition pr_request : Request := snd (fst (until_post pushed_trace)).
Definition after_pr : list Event := snd (until_post pushed_trace).

(** Azure DevOps with pull request 9 of [acme/proj/widgets]. *)
Definition threads_env : Env (list string) :=
  {| proc := proc_ok "https://dev.azure.com/acme/proj/_git/widgets";
     environ := no_environ; clock := midnight;
     serve := AzureSim.serve "https://dev.azure.com/acme" "proj" "widgets" 9 |}.

Definition threads_world : World (list string) :=
  {| texts := []; jsons := []; remote := ["Please add a test."]; ticks := 0; trace := [] |}.

(** A story whose frontmatter has its title in line 81. *)
Definition long_story (title : string) : string :=
  ("---" ++ nl ++ String.concat EmptyString (repeat ("owner: team" ++ nl)%string 79)
     ++ "title: " ++ title ++ nl ++ "---" ++ nl)%string.

(** [start ACF-1 --dry-run --github-token tok] *)
Definition dry_token_args : Args := set_dry_run token_args.

(** [evidence ACF-1 --run-local --full-verify] *)
Definition verify_args : EvArgs :=
  {| ev_story_id := "ACF-1"; ev_stories_dir := "artifacts/stories"; ev_tests_root := ".";
     ev_run_local := true; ev_full_verify := true; ev_dry_run := false;
     ev_github_token := None; ev_azure_pat := None |}.

(** The issue search finds issue 7 of the story; the body of the pull
    request refers to it. *)
Definition found_body : string :=
  match _compose_pr_body (repo_root prepared_ctx) "ACF-1" (story_title prepared_ctx)
          (story_file prepared_ctx) (Some "#7") (review_pack prepared_ctx) with
  | Ok b => b
  | Err _ => EmptyString
  end.

(** [start ACF-1 --provider azuredevops --azure-pat pat --push] on a clone
    of [acme/proj/widgets]: the query finds work item 42, the pull request
    gets the id 9. *)
Definition azure_push_args : Args :=
  {| story_id := "ACF-1"; stories_dir := "artifacts/stories"; provider := "azuredevops";
     base_branch := "main"; draft := true; dry_run := false; allow_untracked := false;
     commit := false; push := true; require_integration := false;
     github_token := None; github_repo := None; github_api_url := None;
     azure_pat := Some "pat"; azure_org_url := None; azure_project := None;
     azure_repo := None; azure_work_item_type := None |}.

Definition azure_flow_env : Env unit :=
  {| proc := proc_ok "https://dev.azure.com/acme/proj/_git/widgets";
     environ := no_environ; clock := midnight;
     serve := fun req st =>
       if String.eqb (url req)
            "https://dev.azure.com/acme/proj/_apis/wit/wiql?api-version=7.1-preview.2"
       then (Replied (JObj [("queryType", JStr "flat");
                            ("workItems", JArr [JObj [("id", JNum 42)]])]), st)
       else if String.eqb (url req)
                 "https://dev.azure.com/acme/proj/_apis/git/repositories/widgets/pullrequests?api-version=7.1-preview.1"
       then (Replied (JObj [("pullRequestId", JNum 9);
                            ("url", JStr "https://dev.azure.com/acme/_apis/git/pullRequests/9");
                            ("title", JStr "ACF-1: Hello, World!! Foo")]), st)
       else (Replied JNull, st) |}.

(** The same run for the project [my proj], named on the command line. *)
Definition spaced_args : Args :=
  {| story_id := "ACF-1"; stories_dir := "artifacts/stories"; provider := "azuredevops";
     base_branch := "main"; draft := true; dry_run := false; allow_untracked := false;
     commit := false; push := true; require_integration := false;
     github_token := None; github_repo := None; github_api_url := None;
     azure_pat := Some "pat"; azure_org_url := Some "https://dev.azure.com/acme";
     azure_project := Some "my proj"; azure_repo := Some "widgets";
     azure_work_item_type := None |}.

Definition azure_body : string :=
  match _compose_pr_body (repo_root prepared_ctx) "ACF-1" (story_title prepared_ctx)
          (story_file prepared_ctx) (Some "WorkItem 42") (review_pack prepared_ctx) with
  | Ok b => b
  | Err _ => EmptyString
  end.

End Demo.

(* ================================================================== *)
(** ** Vocabulary of the properties                                  *)
(* ================================================================== *)

Definition is_http (e : Event) : bool :=
  match e with Http _ => true | _ => false end.

(** A text made of decimal digits, code point by code point. *)
Fixpoint decimal_run (fuel : nat) (s : string) : bool :=
  match s with
  | EmptyString => true
  | String _ _ =>
      match fuel, Str.decode s with
      | Datatypes.S k, Some (n, s') => Str.is_decimal n && decimal_run k s'
      | _, _ => false
      end
  end.

Definition all_decimal (s : string) : bool := decimal_run (String.length s) s.

(** From [w] to [w'] nothing was sent: the remote service is as it was and
    the trace has grown by events that are no HTTP requests. *)
Definition offline_step {S} (w w' : World S) : Prop :=
  remote w' = remote w
  /\ exists t, trace w' = trace w ++ t /\ Forall (fun e => is_http e = false) t.

(** From [w] to [w'] no file was lost. *)
Definition keeps_files {S} (w w' : World S) : Prop :=
  (forall p, Fs.exists_ p (texts w) = true -> Fs.exists_ p (texts w') = true)
  /\ (forall p, Fs.exists_ p (jsons w) = true -> Fs.exists_ p (jsons w') = true).

(** From [w] to [w'] the trace has only grown. *)
Definition trace_grows {S} (w w' : World S) : Prop :=
  exists t, trace w' = trace w ++ t.

(** Every run of [m] is related by [R]. *)
Definition respects {S A} (R : World S -> World S -> Prop) (m : M S A) : Prop :=
  forall w, R w (snd (m w)).

Definition ORIGIN_QUERY : list string := ["git"; "remote"; "get-url"; "origin"].

(** The characters of a quoted text: the unreserved ones, [/], and the [%]
    that starts an escape. *)
Definition quoted_char (c : ascii) : bool := url_safe c || Ascii.eqb c "%"%char.

(** The providers the command line accepts. *)
Definition known_provider (p : string) : Prop :=
  p = "auto" \/ p = "github" \/ p = "azuredevops".

(** The state file records no provider: it has no provider block, or the
    block, like the empty one [start] writes first, names no kind. *)
Definition records_no_provider (state_ : json) : Prop :=
  exists d,
    state_ = JObj d
    /\ (Dict.get "provider" d = None
        \/ exists block, Dict.get "provider" d = Some (JObj block)
                         /\ Dict.get "kind" block = None).

(** The three URLs of the comment upsert, as the script writes them. *)
Definition list_url (api repo : string) (pr_number : Z) : string :=
  (api ++ "/repos/" ++ repo ++ "/issues/" ++ str_of_Z pr_number
     ++ "/comments?per_page=100")%string.
Definition create_url (api repo : string) (pr_number : Z) : string :=
  (api ++ "/repos/" ++ repo ++ "/issues/" ++ str_of_Z pr_number ++ "/comments")%string.
Definition update_url (api repo : string) (id : Z) : string :=
  (api ++ "/repos/" ++ repo ++ "/issues/comments/" ++ str_of_Z id)%string.

(** The heading rule in the words of the specification: the heading text
    with the identifier removed and the leading [-] and [:], and the spaces
    among them, stripped. *)
Definition spec_heading_title (heading story_id : string) : string :=
  Str.lstrip (Str.mem " -:") (Str.replace story_id EmptyString heading).

(** The characters of a slug: lower-case letters, digits and the dash. *)
Definition slug_char (c : ascii) : bool :=
  Str.is_lower c || Str.is_digit c || Ascii.eqb c "-"%char.

Definition alnum_or_dash (c : ascii) : bool :=
  Str.is_alnum c || Ascii.eqb c "-"%char.

Definition no_leading_dash (s : string) : bool :=
  negb (Str.startswith "-" s).

(** The characters [_html_escape] rewrites after the ampersand. *)
Definition html_special (c : ascii) : bool :=
  Ascii.eqb c "<" || Ascii.eqb c ">" || Ascii.eqb c "034" || Ascii.eqb c "'".

Definition html_plain (c : ascii) : bool :=
  negb (Ascii.eqb c "&" || html_special c).

(** A line of [git status --porcelain] that keeps [start] from running:
    not blank, and, when untracked files are allowed, not the entry of an
    untracked file. *)
Definition dirty_line (allow_untracked : bool) (l : string) : bool :=
  Str.truthy (Str.strip l) && negb (allow_untracked && Str.startswith "?? " l).

Definition STATUS_QUERY : list string := ["git"; "status"; "--porcelain"].

Definition is_cmd (e : Event) : bool :=
  match e with Cmd _ => true | _ => false end.

(** The live subprocesses of a trace ([_run_live], [_git_live]), in order. *)
Fixpoint commands (t : list Event) : list (list string) :=
  match t with
  | [] => []
  | Cmd argv :: t' => argv :: commands t'
  | _ :: t' => commands t'
  end.

(** Every failure of [m] is one of [P]. *)
Definition fails_within {S A} (P : Error -> bool) (m : M S A) : Prop :=
  forall w e, fst (m w) = Err e -> P e = true.

Definition ROOT_QUERY : list string := ["git"; "rev-parse"; "--show-toplevel"].

(** What a request asks to merge: [head] in the body of a GitHub pull
    request, [sourceRefName] in the body of an Azure DevOps one.  A request
    with neither field creates no pull request; one that has the field
    must name the branch [b]. *)
Definition merges_only (b : string) (req : Request) : bool :=
  match body req with
  | Some (JObj d) =>
      match Dict.get "head" d, Dict.get "sourceRefName" d with
      | Some h, _ => is_str b h
      | None, Some r => is_str ("refs/heads/" ++ b) r
      | None, None => true
      end
  | _ => true
  end.

(** From [w] to [w'] the trace has grown, and every request sent meanwhile
    that creates a pull request creates it from the branch [b]. *)
Definition branch_step {S} (b : string) (w w' : World S) : Prop :=
  exists t,
    trace w' = trace w ++ t
    /\ Forall (fun e => match e with Http r => merges_only b r = true | _ => True end) t.

(** A relative path written as [pathlib] prints it: components separated by
    single [/], none of them empty, [.] or [..].  Joined to a directory
    such a path gives the one name of the file it reaches. *)
Definition plain_part (x : string) : bool :=
  negb (Str.is_empty x) && negb (String.eqb x ".") && negb (String.eqb x "..").

Definition plain_path (p : string) : bool :=
  List.forallb plain_part (split_char "/" p).

(** The failures of a dry run of [start]. *)
Definition dry_start_failure (e : Error) : bool :=
  match e with
  | CommandFailed argv => Demo.argv_eqb argv ROOT_QUERY
  | InvalidIdentifier | NotFound | PathError | MissingCredentials | UnknownProvider => true
  | _ => false
  end.

(** The evidence comment posted once for each text of a list, one run after
    the other. *)
Fixpoint upsert_each {S} (env : Env S) (api token repo : string) (pr_number : Z)
    (marker : string) (bodies : list string) : M S unit :=
  match bodies with
  | [] => ret tt
  | b :: rest =>
      _github_upsert_pr_comment env api token repo pr_number marker b false ;;
      upsert_each env api token repo pr_number marker rest
  end.

(** The [items] of a search reply and the [workItems] of a WIQL reply, as
    the script reads them. *)
Definition reply_list (key : string) (res : json) : json :=
  match res with
  | JObj d => match Dict.get key d with Some v => v | None => JArr [] end
  | _ => JArr []
  end.

Definition search_url (api repo story_id_ : string) : string :=
  (api ++ "/search/issues?q="
     ++ quote ("repo:" ++ repo ++ " " ++ story_id_ ++ " in:title type:issue"))%string.


(** [(?:\.git)?$], the end of the two GitHub patterns. *)
Definition GIT_SUFFIX : Re.regex := Re.Seq (Re.Opt true (Re.Lit ".git")) Re.Eol.

(** The thread comment posted once for each text of a list. *)
Fixpoint azure_post_each {S} (env : Env S) (org project repo pat : string) (pr_id : Z)
    (bodies : list string) : M S unit :=
  match bodies with
  | [] => ret tt
  | b :: rest =>
      _azure_post_pr_comment env org project repo pat pr_id b false ;;
      azure_post_each env org project repo pat pr_id rest
  end.


(** A provider block without a pull request to comment on: the number 0
    that a dry run of [start] records. *)
Definition no_pull_request (block : list (string * json)) : Prop :=
  (Dict.get "kind" block = Some (JStr "github")
   /\ exists p, Dict.get "pr" block = Some (JObj p)
                /\ Dict.get "number" p = Some (JNum 0))
  \/ (Dict.get "kind" block = Some (JStr "azuredevops")
      /\ Dict.get "prId" block = Some (JNum 0)).

(** From [w] to [w'] no live subprocess was run. *)
Definition same_commands {S} (w w' : World S) : Prop :=
  commands (trace w') = commands (trace w).

(** The local validations of [evidence --run-local], in the order of the
    script. *)
Definition validation_commands (args : EvArgs) : list (list string) :=
  [["git"; "status"];
   ["bash"; "scripts/validate-project.sh"];
   ["bash"; "scripts/validate-documentation.sh"];
   ["bash"; "scripts/validate-rnd-policy.sh"];
   ["python3"; "scripts/traceability/traceability.py"; "validate";
    "--stories-dir"; ev_stories_dir args; "--tests-root"; ev_tests_root args;
    "--skip-commits"]]
  ++ (if ev_full_verify args then [["bash"; "scripts/scaffold-and-verify.sh"]] else []).

(** The reference to the work item in the body of the pull request. *)
Definition issue_reference (number : json) : option string :=
  if json_truthy number then Some ("#" ++ py_str number)%string else None.

(** The WIQL endpoint and the pull request endpoint of Azure DevOps, as the
    script addresses them. *)
Definition wiql_url (org project : string) : string :=
  (org ++ "/" ++ project ++ "/_apis/wit/wiql?api-version=7.1-preview.2")%string.

Definition azure_pr_url (org project repo : string) : string :=
  (org ++ "/" ++ project ++ "/_apis/git/repositories/" ++ quote repo
     ++ "/pullrequests?api-version=7.1-preview.1")%string.

Definition work_item_url (org project : string) (id : Z) : string :=
  (org ++ "/" ++ project ++ "/_apis/wit/workitems/" ++ str_of_Z id
     ++ "?api-version=7.1-preview.3")%string.

(* ================================================================== *)
(** ** Properties                                                      *)
(* ================================================================== *)

Unset Implicit Arguments.

(** *** Strings *)

Lemma take_length : forall n s, String.length (Str.take n s) <= n.
Proof.
  induction n as [|n IH]; intros s; simpl.
  - lia.
  - destruct s as [|c s]; simpl; [lia|]. specialize (IH s). lia.
Qed.

Lemma forallb_lstrip : forall p q s,
  Str.forallb p s = true -> Str.forallb p (Str.lstrip q s) = true.
Proof.
  intros p q s. induction s as [|c s IH]; simpl; intros H; [reflexivity|].
  apply andb_true_iff in H. destruct H as [Hc Hs].
  destruct (q c); [auto|]. simpl. now rewrite Hc, Hs.
Qed.

Lemma forallb_rstrip : forall p q s,
  Str.forallb p s = true -> Str.forallb p (Str.rstrip q s) = true.
Proof.
  intros p q s. induction s as [|c s IH]; simpl; intros H; [reflexivity|].
  apply andb_true_iff in H. destruct H as [Hc Hs].
  destruct (Str.is_empty (Str.rstrip q s) && q c); [reflexivity|].
  simpl. now rewrite Hc, IH.
Qed.

(** *** The matcher on a run of characters of one class *)

Lemma star_loop_succ : forall step g n s cs,
  Re.star_loop step g (Datatypes.S n) s cs =
  let more :=
    flat_map
      (fun x : Re.partial =>
         if String.length (snd x) <? String.length s
         then Re.star_loop step g n (snd x) (fst x) else [])
      (step s cs) in
  if g then more ++ [(cs, s)] else (cs, s) :: more.
Proof. reflexivity. Qed.

Lemma matches_class_cons : forall p c s cs,
  Re.matches (Re.Class p) (String c s) cs = if p c then [(cs, s)] else [].
Proof. reflexivity. Qed.

Lemma star_class_all : forall p s n cs,
  String.length s <= n ->
  Str.forallb p s = true ->
  exists rest,
    Re.star_loop (Re.matches (Re.Class p)) true n s cs = (cs, EmptyString) :: rest.
Proof.
  intros p s. induction s as [|c s IH]; intros n cs Hn Hall.
  - destruct n; [eexists; reflexivity|].
    rewrite star_loop_succ. simpl. eexists; reflexivity.
  - simpl in Hn, Hall. apply andb_true_iff in Hall. destruct Hall as [Hc Hs].
    destruct n as [|n]; [lia|].
    rewrite star_loop_succ, matches_class_cons, Hc.
    cbn [flat_map snd fst String.length].
    assert (Hlt : (String.length s <? Datatypes.S (String.length s)) = true)
      by (apply Nat.ltb_lt; lia).
    rewrite Hlt. destruct (IH n cs ltac:(lia) Hs) as [rest Hrest].
    rewrite Hrest. cbn [app]. eexists; reflexivity.
Qed.

Lemma sub_from_skip_all : forall r repl s k,
  String.length s <= k -> Re.sub_from r repl k s = EmptyString.
Proof.
  intros r repl s. induction s as [|c s IH]; intros k Hk; simpl; [reflexivity|].
  simpl in Hk. destruct k as [|k]; [lia|]. apply IH. lia.
Qed.

(** A text without letters and digits is one run for [[^a-zA-Z0-9]+]. *)
Lemma matches_plus_class_cons : forall p c s cs,
  Re.matches (Re.Plus true (Re.Class p)) (String c s) cs =
  if p c then Re.star_loop (Re.matches (Re.Class p)) true (String.length s) s cs else [].
Proof.
  intros p c s cs. unfold Re.Plus.
  change (Re.matches (Re.Seq (Re.Class p) (Re.Star true (Re.Class p))) (String c s) cs)
    with (flat_map
            (fun x : Re.partial =>
               Re.star_loop (Re.matches (Re.Class p)) true (String.length (snd x))
                 (snd x) (fst x))
            (Re.matches (Re.Class p) (String c s) cs)).
  rewrite matches_class_cons. destruct (p c); [|reflexivity].
  cbn [flat_map snd fst]. apply app_nil_r.
Qed.

Lemma sub_from_zero_cons : forall r repl c s,
  Re.sub_from r repl 0 (String c s) =
  match Re.matches r (String c s) [] with
  | x :: _ =>
      match String.length (String c s) - String.length (snd x) with
      | O => String c (Re.sub_from r repl 0 s)
      | Datatypes.S k => (repl ++ Re.sub_from r repl k s)%string
      end
  | [] => String c (Re.sub_from r repl 0 s)
  end.
Proof. reflexivity. Qed.

Lemma sub_non_alnum : forall s,
  Str.forallb (fun c => negb (Str.is_alnum c)) s = true ->
  Re.sub NON_ALNUM_RUN "-" s = (if Str.is_empty s then EmptyString else "-").
Proof.
  intros s H. destruct s as [|c s]; [reflexivity|].
  simpl in H. apply andb_true_iff in H. destruct H as [Hc Hs].
  destruct (star_class_all (fun c => negb (Str.is_alnum c)) s (String.length s) []
              (le_n _) Hs) as [rest Hrest].
  unfold Re.sub, NON_ALNUM_RUN.
  rewrite sub_from_zero_cons, matches_plus_class_cons, Hc, Hrest.
  cbn [snd String.length Nat.sub Str.is_empty].
  rewrite sub_from_skip_all by lia. reflexivity.
Qed.

Lemma slug_of_no_alnum : forall text n,
  Str.existsb Str.is_alnum text = false -> slug_of text n = EmptyString.
Proof.
  intros text n H.
  assert (Hall : Str.forallb (fun c => negb (Str.is_alnum c)) text = true).
  { induction text as [|c t IH]; simpl in *; [reflexivity|].
    apply orb_false_iff in H. destruct H as [Hc Ht]. now rewrite Hc, IH. }
  unfold slug_of.
  assert (Hs : Str.forallb (fun c => negb (Str.is_alnum c)) (Str.strip text) = true).
  { unfold Str.strip, Str.strip_by. now apply forallb_rstrip, forallb_lstrip. }
  rewrite (sub_non_alnum _ Hs).
  destruct (Str.is_empty (Str.strip text)); destruct n; reflexivity.
Qed.

(** C6. Slugification: the title "Hello, World!! Foo" gives
    "hello-world-foo"; the slug never has more than 40 characters; and an
    input whose slug comes out empty (in particular every input without an
    ASCII letter or digit) gives the literal "work". *)
Theorem slugify_spec :
  _slugify "Hello, World!! Foo" = "hello-world-foo"
  /\ (forall text, String.length (_slugify text) <= 40)
  /\ (forall text, slug_of text 40 = EmptyString -> _slugify text = "work")
  /\ (forall text, Str.existsb Str.is_alnum text = false -> _slugify text = "work").
Proof.
  split; [reflexivity|]. split; [|split].
  - intros text. unfold _slugify, _slugify_len, Str.or_else.
    destruct (Str.truthy (slug_of text 40)).
    + unfold slug_of. apply take_length.
    + simpl. lia.
  - intros text H. unfold _slugify, _slugify_len. now rewrite H.
  - intros text H. unfold _slugify, _slugify_len.
    now rewrite (slug_of_no_alnum text 40 H).
Qed.

Lemma slugify_spec_witness :
  slug_of "?! ... !?" 40 = EmptyString /\ _slugify "?! ... !?" = "work".
Proof.
  split; [reflexivity|].
  apply (proj1 (proj2 (proj2 slugify_spec)) "?! ... !?"). reflexivity.
Defined.

(** *** Origin remotes *)


Lemma origin_url_of : forall S (env : Env S) out,
  proc env ORIGIN_QUERY = (0%Z, out) ->
  Str.strip out <> EmptyString ->
  origin_url env = Some (Str.strip out).
Proof.
  intros S env out H Hne. unfold origin_url, _git, _run.
  change ("git" :: ["remote"; "get-url"; "origin"]) with ORIGIN_QUERY.
  rewrite H. simpl. destruct (Str.strip out); [contradiction|reflexivity].
Qed.

(** C7. When [git remote get-url origin] prints
    [git@github.com:acme/widgets.git] or [https://github.com/acme/widgets.git],
    the GitHub repository is "acme/widgets"; when it prints
    [https://dev.azure.com/acme/proj/_git/widgets], the Azure coordinates are
    the organisation URL [https://dev.azure.com/acme], the project [proj] and
    the repository [widgets]. *)
Theorem origin_remote_parsing : forall S (env : Env S) out,
  proc env ORIGIN_QUERY = (0%Z, out) ->
  (Str.strip out = "git@github.com:acme/widgets.git" ->
   _github_repo_from_origin env = Some "acme/widgets")
  /\ (Str.strip out = "https://github.com/acme/widgets.git" ->
      _github_repo_from_origin env = Some "acme/widgets")
  /\ (Str.strip out = "https://dev.azure.com/acme/proj/_git/widgets" ->
      _azure_repo_from_origin env =
      Some ("https://dev.azure.com/acme", "proj", "widgets")).
Proof.
  intros S env out H.
  repeat split; intros Hu;
    unfold _github_repo_from_origin, _azure_repo_from_origin;
    rewrite (origin_url_of S env out H) by (rewrite Hu; discriminate);
    rewrite Hu; reflexivity.
Qed.

Lemma origin_remote_parsing_witness :
  _github_repo_from_origin Demo.github_env = Some "acme/widgets"
  /\ _github_repo_from_origin Demo.github_https_env = Some "acme/widgets"
  /\ _azure_repo_from_origin Demo.azure_env =
     Some ("https://dev.azure.com/acme", "proj", "widgets").
Proof.
  split; [|split].
  - apply (proj1 (origin_remote_parsing unit Demo.github_env
                    ("git@github.com:acme/widgets.git" ++ nl) eq_refl)).
    reflexivity.
  - apply (proj1 (proj2 (origin_remote_parsing unit Demo.github_https_env
                           ("https://github.com/acme/widgets.git" ++ nl) eq_refl))).
    reflexivity.
  - apply (proj2 (proj2 (origin_remote_parsing unit Demo.azure_env
                           ("https://dev.azure.com/acme/proj/_git/widgets" ++ nl) eq_refl))).
    reflexivity.
Defined.

(** *** Percent-encoding *)


Lemma hex_digit_safe : forall c,
  url_safe (hex_digit (Str.code c / 16)) = true
  /\ url_safe (hex_digit (Str.code c mod 16)) = true.
Proof.
  intros c. destruct c as [[] [] [] [] [] [] [] []]; split; reflexivity.
Qed.

(** Quoting leaves a safe character alone and writes any other byte as [%]
    and its two upper-case hexadecimal digits. *)
Lemma quote_cons : forall c s,
  quote (String c s) =
  if url_safe c then String c (quote s)
  else String "%" (String (hex_digit (Str.code c / 16))
                     (String (hex_digit (Str.code c mod 16)) (quote s))).
Proof. intros c s. simpl. destruct (url_safe c); reflexivity. Qed.

Lemma quote_chars : forall s, Str.forallb quoted_char (quote s) = true.
Proof.
  induction s as [|c s IH]; [reflexivity|]. rewrite quote_cons.
  destruct (url_safe c) eqn:Hc; cbn [Str.forallb]; rewrite IH.
  - unfold quoted_char. now rewrite Hc.
  - destruct (hex_digit_safe c) as [H1 H2].
    unfold quoted_char. now rewrite H1, H2.
Qed.

(** C8. Linking an Azure DevOps work item to a pull request (no dry run,
    both ids non-zero) makes one PATCH request, written out below.  Its
    body is a JSON patch that adds the relation [ArtifactLink] with the URL
    [vstfs:///Git/PullRequestId/<project>%2F<repo>%2F<prId>], the project
    and the repository percent-encoded by [quote], whose output holds
    nothing but unreserved characters, [/] and [%XX] escapes.  The address
    of the request carries the project as it is given: when the client
    refuses it, nothing is sent and the run fails with that refusal;
    otherwise the request is sent, once. *)
Theorem azure_artifact_link :
  forall S (env : Env S) org_url project pat (work_item_id pr_id : Z) repo (w : World S),
    work_item_id <> 0%Z ->
    pr_id <> 0%Z ->
    let req :=
      {| method := "PATCH";
         url := (org_url ++ "/" ++ project ++ "/_apis/wit/workitems/"
                   ++ str_of_Z work_item_id ++ "?api-version=7.1-preview.3")%string;
         headers :=
           [("Authorization", ("Basic " ++ b64encode (":" ++ pat))%string);
            ("Accept", "application/json");
            ("User-Agent", "ai-coding-factory-autopilot");
            ("Content-Type", "application/json-patch+json")];
         body :=
           Some (JArr
                   [JObj [("op", JStr "add");
                          ("path", JStr "/relations/-");
                          ("value",
                           JObj [("rel", JStr "ArtifactLink");
                                 ("url",
                                  JStr ("vstfs:///Git/PullRequestId/" ++ quote project
                                          ++ "%2F" ++ quote repo ++ "%2F"
                                          ++ str_of_Z pr_id)%string);
                                 ("attributes",
                                  JObj [("name", JStr "Pull Request")])])]]) |} in
    let run :=
      _azure_link_work_item_to_pr env org_url project pat work_item_id pr_id repo false w in
    (fst (serve env req (remote w)) = Refused -> run = (Err InvalidURL, w))
    /\ (fst (serve env req (remote w)) <> Refused ->
        trace (snd run) = trace w ++ [Http req]
        /\ remote (snd run) = snd (serve env req (remote w)))
    /\ (forall j, fst (serve env req (remote w)) = Replied j -> fst run = Ok tt)
    /\ Str.forallb quoted_char (quote project) = true
    /\ Str.forallb quoted_char (quote repo) = true.
Proof.
  intros S env org_url project pat wi pr_id repo w Hwi Hpr req run.
  assert (Hrun : run =
                 match serve env req (remote w) with
                 | (Replied _, r') =>
                     (Ok tt, {| texts := texts w; jsons := jsons w; remote := r';
                                ticks := ticks w; trace := trace w ++ [Http req] |})
                 | (HttpFailed status, r') =>
                     (Err (HttpError status),
                      {| texts := texts w; jsons := jsons w; remote := r';
                         ticks := ticks w; trace := trace w ++ [Http req] |})
                 | (Unreachable, r') =>
                     (Err NetworkError,
                      {| texts := texts w; jsons := jsons w; remote := r';
                         ticks := ticks w; trace := trace w ++ [Http req] |})
                 | (Refused, _) => (Err InvalidURL, w)
                 | (Dropped, r') =>
                     (Err ConnectionLost,
                      {| texts := texts w; jsons := jsons w; remote := r';
                         ticks := ticks w; trace := trace w ++ [Http req] |})
                 end).
  { subst run. unfold _azure_link_work_item_to_pr.
    apply Z.eqb_neq in Hwi. apply Z.eqb_neq in Hpr. rewrite Hwi, Hpr. cbn [orb].
    unfold bind, _http_json.
    match goal with
    | |- context [serve env ?r (remote w)] => change r with req
    end.
    destruct (serve env req (remote w)) as [[j|status| | |] r']; reflexivity. }
  rewrite Hrun. clear Hrun.
  destruct (serve env req (remote w)) as [[j|status| | |] r']; cbn [fst snd trace remote];
    (split; [intros H; try discriminate H; reflexivity|]);
    (split; [intros H; try (now contradiction H); split; reflexivity|]);
    (split; [intros j' H; try discriminate H; reflexivity|]);
    split; apply quote_chars.
Qed.

(** Project [R&D], repository [my repo], pull request 42: the link is sent
    with both names percent-encoded.  For a project with a space in its
    name the client refuses the address and no link is made. *)
Lemma azure_artifact_link_witness :
  trace (snd (_azure_link_work_item_to_pr Demo.checked_env "https://dev.azure.com/acme"
                "R&D" "pat" 7 42 "my repo" false Demo.world))
  = [Http {| method := "PATCH";
             url := "https://dev.azure.com/acme/R&D/_apis/wit/workitems/7?api-version=7.1-preview.3";
             headers :=
               [("Authorization", "Basic OnBhdA==");
                ("Accept", "application/json");
                ("User-Agent", "ai-coding-factory-autopilot");
                ("Content-Type", "application/json-patch+json")];
             body :=
               Some (JArr
                       [JObj [("op", JStr "add");
                              ("path", JStr "/relations/-");
                              ("value",
                               JObj [("rel", JStr "ArtifactLink");
                                     ("url",
                                      JStr "vstfs:///Git/PullRequestId/R%26D%2Fmy%20repo%2F42");
                                     ("attributes",
                                      JObj [("name", JStr "Pull Request")])])]]) |}]
  /\ _azure_link_work_item_to_pr Demo.checked_env "https://dev.azure.com/acme"
       "my proj" "pat" 7 42 "widgets" false Demo.world
     = (Err InvalidURL, Demo.world).
Proof.
  split.
  - pose proof (azure_artifact_link unit Demo.checked_env "https://dev.azure.com/acme"
                  "R&D" "pat" 7 42 "my repo" Demo.world) as H.
    cbv zeta in H.
    destruct H as [_ [H _]]; [discriminate|discriminate|].
    destruct H as [H _]; [vm_compute; discriminate|].
    rewrite H. vm_compute. reflexivity.
  - pose proof (azure_artifact_link unit Demo.checked_env "https://dev.azure.com/acme"
                  "my proj" "pat" 7 42 "widgets" Demo.world) as H.
    cbv zeta in H.
    destruct H as [H _]; [discriminate|discriminate|].
    apply H. vm_compute. reflexivity.
Defined.

(** *** Runs of the monad *)

Lemma bind_ok : forall S A B (m : M S A) (k : A -> M S B) w a w',
  m w = (Ok a, w') -> bind m k w = k a w'.
Proof. intros. unfold bind. now rewrite H. Qed.

Lemma bind_err : forall S A B (m : M S A) (k : A -> M S B) w e w',
  m w = (Err e, w') -> bind m k w = (Err e, w').
Proof. intros. unfold bind. now rewrite H. Qed.



Section Respects.

Context {S : Type} (R : World S -> World S -> Prop).
Hypothesis R_refl : forall w, R w w.
Hypothesis R_trans : forall w1 w2 w3, R w1 w2 -> R w2 w3 -> R w1 w3.

Lemma respects_ret : forall A (a : A), respects R (ret a).
Proof. intros A a w. apply R_refl. Qed.

Lemma respects_fail : forall A e, respects R (@fail S A e).
Proof. intros A e w. apply R_refl. Qed.

Lemma respects_lift : forall A (r : Result A), respects R (lift r).
Proof. intros A r w. apply R_refl. Qed.

Lemma respects_lift_opt : forall A e (o : option A), respects R (lift_opt e o).
Proof. intros A e [a|] w; apply R_refl. Qed.

Lemma respects_bind : forall A B (m : M S A) (k : A -> M S B),
  respects R m -> (forall a, respects R (k a)) -> respects R (bind m k).
Proof.
  intros A B m k Hm Hk w. unfold bind.
  specialize (Hm w). destruct (m w) as [[a|e] w1]; simpl in *.
  - eapply R_trans; [exact Hm|apply Hk].
  - exact Hm.
Qed.

Lemma respects_when : forall b (m : M S unit),
  respects R m -> respects R (when b m).
Proof. intros [|] m Hm; [exact Hm|apply respects_ret]. Qed.

End Respects.

Lemma offline_refl : forall S (w : World S), offline_step w w.
Proof.
  intros S w. split; [reflexivity|]. exists []. split; [now rewrite app_nil_r|constructor].
Qed.

Lemma offline_trans : forall S (w1 w2 w3 : World S),
  offline_step w1 w2 -> offline_step w2 w3 -> offline_step w1 w3.
Proof.
  intros S w1 w2 w3 [Hr1 [t1 [Ht1 Hf1]]] [Hr2 [t2 [Ht2 Hf2]]]. split.
  - congruence.
  - exists (t1 ++ t2). split.
    + now rewrite Ht2, Ht1, app_assoc.
    + apply Forall_app. now split.
Qed.

Lemma keeps_refl : forall S (w : World S), keeps_files w w.
Proof. intros S w. split; auto. Qed.

Lemma keeps_trans : forall S (w1 w2 w3 : World S),
  keeps_files w1 w2 -> keeps_files w2 w3 -> keeps_files w1 w3.
Proof. intros S w1 w2 w3 [H1 H2] [H3 H4]. split; auto. Qed.

Lemma exists_write_same : forall A p (v : A) fs, Fs.exists_ p (Fs.write p v fs) = true.
Proof.
  intros A p v fs. unfold Fs.exists_. induction fs as [|[q x] fs IH]; simpl.
  - now rewrite String.eqb_refl.
  - destruct (String.eqb p q) eqn:E; simpl.
    + now rewrite String.eqb_refl.
    + now rewrite E.
Qed.

Lemma exists_write_other : forall A p q (v : A) fs,
  Fs.exists_ q fs = true -> Fs.exists_ q (Fs.write p v fs) = true.
Proof.
  intros A p q v fs. unfold Fs.exists_. induction fs as [|[r x] fs IH]; simpl.
  - discriminate.
  - destruct (String.eqb p r) eqn:E; simpl.
    + apply String.eqb_eq in E. subst r. destruct (String.eqb q p); auto.
    + destruct (String.eqb q r); auto.
Qed.

(** The two relations through the monad. *)
Section Offline.

Context {S : Type}.

Lemma offline_ret : forall A (a : A), respects (@offline_step S) (ret a).
Proof. intros. apply respects_ret, offline_refl. Qed.

Lemma offline_fail : forall A e, respects (@offline_step S) (@fail S A e).
Proof. intros. apply respects_fail, offline_refl. Qed.

Lemma offline_lift : forall A (r : Result A), respects (@offline_step S) (lift r).
Proof. intros. apply respects_lift, offline_refl. Qed.

Lemma offline_lift_opt : forall A e (o : option A),
  respects (@offline_step S) (lift_opt e o).
Proof. intros. apply respects_lift_opt, offline_refl. Qed.

Lemma offline_bind : forall A B (m : M S A) (k : A -> M S B),
  respects offline_step m -> (forall a, respects offline_step (k a)) ->
  respects offline_step (bind m k).
Proof. intros. apply respects_bind; auto. apply offline_trans. Qed.

Lemma offline_when : forall b (m : M S unit),
  respects offline_step m -> respects offline_step (when b m).
Proof. intros. apply respects_when; auto. apply offline_refl. Qed.

Lemma keeps_ret : forall A (a : A), respects (@keeps_files S) (ret a).
Proof. intros. apply respects_ret, keeps_refl. Qed.

Lemma keeps_fail : forall A e, respects (@keeps_files S) (@fail S A e).
Proof. intros. apply respects_fail, keeps_refl. Qed.

Lemma keeps_lift : forall A (r : Result A), respects (@keeps_files S) (lift r).
Proof. intros. apply respects_lift, keeps_refl. Qed.

Lemma keeps_lift_opt : forall A e (o : option A),
  respects (@keeps_files S) (lift_opt e o).
Proof. intros. apply respects_lift_opt, keeps_refl. Qed.

Lemma keeps_bind : forall A B (m : M S A) (k : A -> M S B),
  respects keeps_files m -> (forall a, respects keeps_files (k a)) ->
  respects keeps_files (bind m k).
Proof. intros. apply respects_bind; auto. apply keeps_trans. Qed.

Lemma keeps_when : forall b (m : M S unit),
  respects keeps_files m -> respects keeps_files (when b m).
Proof. intros. apply respects_when; auto. apply keeps_refl. Qed.

End Offline.

(** The two relations on the primitives. *)
Section Primitives.

Context {S : Type} (env : Env S).

Lemma offline_emit : forall e, is_http e = false -> respects offline_step (@emit S e).
Proof.
  intros e He w. split; [reflexivity|]. exists [e]. split; [reflexivity|].
  constructor; [exact He|constructor].
Qed.

Lemma keeps_emit : forall e, respects keeps_files (@emit S e).
Proof. intros e w. split; simpl; auto. Qed.

Lemma offline_print : forall l, respects offline_step (@print S l).
Proof. intros l. now apply offline_emit. Qed.

Lemma keeps_print : forall l, respects keeps_files (@print S l).
Proof. intros l. apply keeps_emit. Qed.

Lemma offline_ensure_dir : forall p, respects offline_step (@_ensure_dir S p).
Proof. intros p. now apply offline_emit. Qed.

Lemma keeps_ensure_dir : forall p, respects keeps_files (@_ensure_dir S p).
Proof. intros p. apply keeps_emit. Qed.

Lemma offline_now : respects offline_step (_now_utc_iso env).
Proof.
  intros w. split; [reflexivity|]. exists []. split; [simpl; now rewrite app_nil_r|constructor].
Qed.

Lemma keeps_now : respects keeps_files (_now_utc_iso env).
Proof. intros w. split; simpl; auto. Qed.

Lemma offline_get_texts : respects offline_step (@get_texts S).
Proof. intros w. apply offline_refl. Qed.

Lemma offline_get_jsons : respects offline_step (@get_jsons S).
Proof. intros w. apply offline_refl. Qed.

Lemma keeps_get_texts : respects keeps_files (@get_texts S).
Proof. intros w. apply keeps_refl. Qed.

Lemma keeps_get_jsons : respects keeps_files (@get_jsons S).
Proof. intros w. apply keeps_refl. Qed.

Lemma offline_run_live : forall cmd check, respects offline_step (_run_live env cmd check).
Proof.
  intros cmd check. unfold _run_live. apply offline_bind.
  - now apply offline_emit.
  - intros _. destruct (_ && _); [apply offline_fail|apply offline_ret].
Qed.

Lemma keeps_run_live : forall cmd check, respects keeps_files (_run_live env cmd check).
Proof.
  intros cmd check. unfold _run_live. apply keeps_bind.
  - apply keeps_emit.
  - intros _. destruct (_ && _); [apply keeps_fail|apply keeps_ret].
Qed.

Lemma offline_git_live : forall a check, respects offline_step (_git_live env a check).
Proof. intros. apply offline_run_live. Qed.

Lemma keeps_git_live : forall a check, respects keeps_files (_git_live env a check).
Proof. intros. apply keeps_run_live. Qed.

Lemma offline_write_text : forall p c, respects offline_step (@write_text S p c).
Proof.
  intros p c. unfold write_text. apply offline_bind.
  - now apply offline_emit.
  - intros _ w. split; [reflexivity|]. exists []. simpl. split; [now rewrite app_nil_r|constructor].
Qed.

Lemma keeps_write_text : forall p c, respects keeps_files (@write_text S p c).
Proof.
  intros p c. unfold write_text. apply keeps_bind.
  - apply keeps_emit.
  - intros _ w. split; simpl; intros q Hq; [now apply exists_write_other|exact Hq].
Qed.

Lemma offline_write_json : forall p d, respects offline_step (@_write_json S p d).
Proof.
  intros p d. unfold _write_json. apply offline_bind.
  - apply offline_ensure_dir.
  - intros _. apply offline_bind.
    + now apply offline_emit.
    + intros _ w. split; [reflexivity|]. exists []. simpl.
      split; [now rewrite app_nil_r|constructor].
Qed.

Lemma keeps_write_json : forall p d, respects keeps_files (@_write_json S p d).
Proof.
  intros p d. unfold _write_json. apply keeps_bind.
  - apply keeps_ensure_dir.
  - intros _. apply keeps_bind.
    + apply keeps_emit.
    + intros _ w. split; simpl; intros q Hq; [exact Hq|now apply exists_write_other].
Qed.

Lemma keeps_http_json : forall m u h b a, respects keeps_files (_http_json env m u h b a).
Proof.
  intros m u h b a w. unfold _http_json.
  destruct (serve env _ (remote w)) as [reply r']. destruct reply; split; simpl; auto.
Qed.

End Primitives.

Create HintDb offline.
#[export] Hint Resolve offline_ret offline_fail offline_lift offline_lift_opt
  offline_when offline_print offline_ensure_dir offline_now offline_get_texts
  offline_get_jsons offline_run_live offline_git_live offline_write_text
  offline_write_json : offline.

Create HintDb keeps.
#[export] Hint Resolve keeps_ret keeps_fail keeps_lift keeps_lift_opt keeps_when
  keeps_print keeps_ensure_dir keeps_now keeps_get_texts keeps_get_jsons
  keeps_run_live keeps_git_live keeps_write_text keeps_write_json
  keeps_http_json : keeps.

(** One step through a program of the monad: a bind, a branch, or a
    primitive from the hint base. *)
Ltac step_offline :=
  lazymatch goal with
  | |- respects offline_step (bind _ _) => apply offline_bind; [|intros]
  | |- respects offline_step (when _ _) => apply offline_when
  | |- respects offline_step (if ?b then _ else _) => destruct b eqn:?; try discriminate
  | |- respects offline_step (match ?x with _ => _ end) => destruct x eqn:?
  | |- respects offline_step _ => solve [auto with offline]
  end.

Ltac step_keeps :=
  lazymatch goal with
  | |- respects keeps_files (bind _ _) => apply keeps_bind; [|intros]
  | |- respects keeps_files (when _ _) => apply keeps_when
  | |- respects keeps_files (if ?b then _ else _) => destruct b eqn:?; try discriminate
  | |- respects keeps_files (match ?x with _ => _ end) => destruct x eqn:?
  | |- respects keeps_files _ => solve [auto with keeps]
  end.


Section StartRuns.

Context {S : Type} (env : Env S).

Lemma offline_write_review_pack : forall root id title file,
  respects offline_step (_write_review_pack env root id title file).
Proof. intros. unfold _write_review_pack. repeat step_offline. Qed.

Lemma keeps_write_review_pack : forall root id title file,
  respects keeps_files (_write_review_pack env root id title file).
Proof. intros. unfold _write_review_pack. repeat step_keeps. Qed.

(** The local part of [start] sends nothing. *)
Lemma offline_start_prepare : forall args,
  respects offline_step (start_prepare env args).
Proof.
  intros args. unfold start_prepare.
  repeat (step_offline || apply offline_write_review_pack).
Qed.

Lemma keeps_start_prepare : forall args,
  respects keeps_files (start_prepare env args).
Proof.
  intros args. unfold start_prepare.
  repeat (step_keeps || apply keeps_write_review_pack).
Qed.

(** In a dry run the helpers that talk to the provider send nothing. *)
Lemma offline_dry_github_issue : forall api token repo id title content,
  respects offline_step
    (_github_find_or_create_issue env api token repo id title content true).
Proof. intros. unfold _github_find_or_create_issue. auto with offline. Qed.

Lemma offline_dry_github_pr : forall api token repo base head title body_ draft_,
  respects offline_step
    (_github_create_pr env api token repo base head title body_ draft_ true).
Proof. intros. unfold _github_create_pr. auto with offline. Qed.

Lemma offline_dry_upsert : forall api token repo n marker body_,
  respects offline_step (_github_upsert_pr_comment env api token repo n marker body_ true).
Proof. intros. unfold _github_upsert_pr_comment. auto with offline. Qed.

Lemma offline_dry_wiql : forall org project pat id,
  respects offline_step (_azure_wiql_find_work_item env org project pat id true).
Proof. intros. unfold _azure_wiql_find_work_item. auto with offline. Qed.

Lemma offline_dry_create_wi : forall org project pat ty id title content,
  respects offline_step (_azure_create_work_item env org project pat ty id title content true).
Proof. intros. unfold _azure_create_work_item. auto with offline. Qed.

Lemma offline_dry_azure_pr : forall org project repo pat src tgt title desc is_draft,
  respects offline_step
    (_azure_create_pr env org project repo pat src tgt title desc is_draft true).
Proof. intros. unfold _azure_create_pr. auto with offline. Qed.

Lemma offline_dry_link : forall org project pat wi n repo,
  respects offline_step (_azure_link_work_item_to_pr env org project pat wi n repo true).
Proof. intros. unfold _azure_link_work_item_to_pr. cbn [orb]. auto with offline. Qed.

Lemma offline_dry_post : forall org project repo pat n body_,
  respects offline_step (_azure_post_pr_comment env org project repo pat n body_ true).
Proof. intros. unfold _azure_post_pr_comment. cbn [orb]. auto with offline. Qed.

#[local] Hint Resolve offline_dry_github_issue offline_dry_github_pr offline_dry_upsert
  offline_dry_wiql offline_dry_create_wi offline_dry_azure_pr offline_dry_link
  offline_dry_post : offline.

(** The provider path sends nothing in a dry run, and nothing either when
    the branch is not to be pushed. *)
Lemma offline_start_integrate : forall args c,
  dry_run args = true \/ push args = false ->
  respects offline_step (start_integrate env args c).
Proof.
  intros args c H. unfold start_integrate, start_github, start_azure.
  destruct (dry_run args) eqn:Hd.
  - repeat step_offline.
  - destruct H as [H|H]; [discriminate|]. rewrite H. cbn [negb andb].
    repeat step_offline.
Qed.

Lemma offline_start_finish : forall args c r,
  respects offline_step (start_finish env args c r).
Proof. intros args c [pref st]. unfold start_finish. repeat step_offline. Qed.

Lemma offline_cmd_start : forall args,
  dry_run args = true \/ push args = false ->
  respects offline_step (cmd_start env args).
Proof.
  intros args H. unfold cmd_start.
  apply offline_bind; [apply offline_start_prepare|intros c].
  apply offline_bind; [now apply offline_start_integrate|intros r].
  apply offline_start_finish.
Qed.

(** No run of [start] loses a file. *)
Lemma keeps_start_integrate : forall args c,
  respects keeps_files (start_integrate env args c).
Proof.
  intros args c.
  unfold start_integrate, start_github, start_azure, _github_find_or_create_issue,
    _github_create_pr, _azure_wiql_find_work_item, _azure_create_work_item,
    _azure_create_pr, _azure_link_work_item_to_pr.
  repeat step_keeps.
Qed.

Lemma keeps_start_finish : forall args c r,
  respects keeps_files (start_finish env args c r).
Proof. intros args c [pref st]. unfold start_finish. repeat step_keeps. Qed.

Lemma keeps_cmd_start : forall args, respects keeps_files (cmd_start env args).
Proof.
  intros args. unfold cmd_start.
  apply keeps_bind; [apply keeps_start_prepare|intros c].
  apply keeps_bind; [apply keeps_start_integrate|intros r].
  apply keeps_start_finish.
Qed.

End StartRuns.

(** *** Paths of the artifacts *)

Lemma str_app_assoc : forall a b c : string, ((a ++ b) ++ c = a ++ (b ++ c))%string.
Proof. induction a as [|x a IH]; intros; simpl; [reflexivity|now rewrite IH]. Qed.

Lemma startswith_app : forall a b, Str.startswith a (a ++ b)%string = true.
Proof.
  induction a as [|x a IH]; intros b; simpl; [reflexivity|].
  now rewrite Ascii.eqb_refl, IH.
Qed.

Lemma relative_to_under : forall root x,
  exists r, relative_to root (root ++ "/" ++ x)%string = Some r.
Proof.
  intros root x. unfold relative_to.
  destruct (String.eqb (root ++ "/" ++ x) root); [eauto|].
  replace (root ++ "/" ++ x)%string with ((root ++ "/") ++ x)%string
    by apply str_app_assoc.
  rewrite startswith_app. eauto.
Qed.

Lemma matches_chr_cons : forall a c s cs,
  Re.matches (Re.Chr a) (String c s) cs = if Ascii.eqb a c then [(cs, s)] else [].
Proof. reflexivity. Qed.

Lemma matches_seq : forall r1 r2 s cs,
  Re.matches (Re.Seq r1 r2) s cs =
  flat_map (fun x : Re.partial => Re.matches r2 (snd x) (fst x)) (Re.matches r1 s cs).
Proof. reflexivity. Qed.

Lemma valid_id_head : forall id,
  Re.fullmatch STORY_ID_RE id = true -> exists rest, id = String "A" rest.
Proof.
  intros id H. destruct id as [|c rest]; [discriminate|].
  unfold Re.fullmatch, STORY_ID_RE in H.
  change (Re.Lit "ACF-") with (Re.Seq (Re.Chr "A") (Re.Lit "CF-")) in H.
  rewrite !matches_seq, matches_chr_cons in H.
  destruct (Ascii.eqb "A" c) eqn:E.
  - apply Ascii.eqb_eq in E. subst c. eauto.
  - discriminate.
Qed.

Lemma parse_story_valid : forall fs dir id r,
  _parse_story fs dir id = Ok r -> Re.fullmatch STORY_ID_RE id = true.
Proof.
  intros fs dir id r H. unfold _parse_story in H.
  destruct (Re.fullmatch STORY_ID_RE id); [reflexivity|discriminate].
Qed.

Lemma artifact_paths_relative : forall root id,
  Re.fullmatch STORY_ID_RE id = true ->
  (exists r, relative_to root (_review_pack_path root id) = Some r)
  /\ (exists r, relative_to root (_state_path root id) = Some r).
Proof.
  intros root id H. destruct (valid_id_head id H) as [rest ->].
  unfold _review_pack_path, _state_path, path_join. cbn [Str.startswith Ascii.eqb Bool.eqb andb append].
  split.
  - rewrite !str_app_assoc. apply relative_to_under.
  - rewrite !str_app_assoc. apply relative_to_under.
Qed.

(** *** The local part of [start] *)

Section StartLocal.

Context {S : Type} (env : Env S).

(** In a dry run the local part succeeds as soon as the story is found
    under the repository: it writes the review pack and the state file and
    runs no command. *)
Lemma start_prepare_dry : forall args (w : World S) root file title content rel,
  dry_run args = true ->
  _repo_root env = Ok root ->
  _parse_story (texts w) (path_join root (stories_dir args)) (story_id args)
    = Ok (file, title, content) ->
  relative_to root file = Some rel ->
  exists c w1,
    start_prepare env args w = (Ok c, w1)
    /\ repo_root c = root
    /\ story_file c = file
    /\ story_title c = title
    /\ branch c = ("feature/" ++ story_id args ++ "-" ++ _slugify title)%string
    /\ review_pack c = _review_pack_path root (story_id args)
    /\ state_file c = _state_path root (story_id args)
    /\ effective_provider c = resolve_provider env (provider args)
    /\ Fs.exists_ (_review_pack_path root (story_id args)) (texts w1) = true
    /\ Fs.exists_ (_state_path root (story_id args)) (jsons w1) = true.
Proof.
  intros args w root file title content rel Hd Hroot Hparse Hrel.
  unfold start_prepare. rewrite Hd.
  cbv [bind lift lift_opt ret when negb andb get_texts _write_review_pack _ensure_dir
       write_text emit _now_utc_iso _write_json].
  rewrite Hroot. cbv iota beta. rewrite Hparse. cbv iota beta.
  rewrite Hrel. cbv iota beta.
  cbn [fst snd texts jsons remote ticks trace].
  eexists. eexists. split; [reflexivity|].
  cbn [repo_root story_file story_title branch review_pack state_file
       effective_provider texts jsons].
  repeat split; apply exists_write_same.
Qed.

End StartLocal.

(** *** Successful runs, read backwards *)

Lemma bind_inv : forall S A B (m : M S A) (k : A -> M S B) w b w',
  bind m k w = (Ok b, w') ->
  exists a w1, m w = (Ok a, w1) /\ k a w1 = (Ok b, w').
Proof.
  intros S A B m k w b w' H. unfold bind in H.
  destruct (m w) as [[a|e] w1]; [eauto|discriminate].
Qed.

Lemma lift_inv : forall S A (r : Result A) (w : World S) a w',
  lift r w = (Ok a, w') -> r = Ok a /\ w' = w.
Proof. intros S A r w a w' H. unfold lift in H. inversion H. auto. Qed.

Lemma lift_opt_inv : forall S A e (o : option A) (w : World S) a w',
  lift_opt e o w = (Ok a, w') -> o = Some a /\ w' = w.
Proof.
  intros S A e o w a w' H. destruct o; simpl in H; inversion H; auto.
Qed.

Lemma ret_inv : forall S A (x : A) (w : World S) a w',
  ret x w = (Ok a, w') -> a = x /\ w' = w.
Proof. intros S A x w a w' H. inversion H. auto. Qed.

Lemma run_keeps : forall S A (m : M S A) w r w',
  respects keeps_files m -> m w = (r, w') -> keeps_files w w'.
Proof. intros S A m w r w' Hm H. specialize (Hm w). now rewrite H in Hm. Qed.

Section StartFacts.
Context {S : Type} (env : Env S).

Lemma write_review_pack_ok : forall root id title file (w : World S) out w',
  _write_review_pack env root id title file w = (Ok out, w') ->
  out = _review_pack_path root id
  /\ (exists rel, relative_to root file = Some rel)
  /\ Fs.exists_ out (texts w') = true.
Proof.
  intros root id title file w out w' H. unfold _write_review_pack in H.
  apply bind_inv in H. destruct H as [? [w1 [_ H]]].
  apply bind_inv in H. destruct H as [rel [w2 [Hrel H]]].
  apply lift_opt_inv in Hrel. destruct Hrel as [Hrel _].
  apply bind_inv in H. destruct H as [g [w3 [_ H]]].
  apply bind_inv in H. destruct H as [? [w4 [Hw H]]].
  apply ret_inv in H. destruct H as [-> ->].
  split; [reflexivity|]. split; [eauto|].
  unfold write_text, bind, emit in Hw. inversion Hw. simpl. apply exists_write_same.
Qed.

Lemma write_json_ok : forall p d (w : World S) u w',
  _write_json p d w = (Ok u, w') -> Fs.exists_ p (jsons w') = true.
Proof.
  intros p d w u w' H. unfold _write_json, _ensure_dir, bind, emit in H.
  inversion H. simpl. apply exists_write_same.
Qed.

Lemma start_prepare_ok : forall args (w : World S) c w1,
  start_prepare env args w = (Ok c, w1) ->
  _repo_root env = Ok (repo_root c)
  /\ _parse_story (texts w) (path_join (repo_root c) (stories_dir args)) (story_id args)
     = Ok (story_file c, story_title c, story_content c)
  /\ (exists rel, relative_to (repo_root c) (story_file c) = Some rel)
  /\ branch c = ("feature/" ++ story_id args ++ "-" ++ _slugify (story_title c))%string
  /\ review_pack c = _review_pack_path (repo_root c) (story_id args)
  /\ state_file c = _state_path (repo_root c) (story_id args)
  /\ effective_provider c = resolve_provider env (provider args)
  /\ (exists d, state c = JObj d /\ Dict.get "provider" d = Some (JObj []))
  /\ Fs.exists_ (review_pack c) (texts w1) = true
  /\ Fs.exists_ (state_file c) (jsons w1) = true.
Proof.
  intros args w c w1 H. unfold start_prepare in H.
  apply bind_inv in H. destruct H as [root [w2 [Hroot H]]].
  apply lift_inv in Hroot. destruct Hroot as [Hroot ->].
  apply bind_inv in H. destruct H as [fs [w2 [Hfs H]]].
  inversion Hfs; subst fs w2; clear Hfs.
  apply bind_inv in H. destruct H as [[[file title] content] [w2 [Hparse H]]].
  apply lift_inv in Hparse. destruct Hparse as [Hparse ->].
  apply bind_inv in H. destruct H as [? [w2 [_ H]]].
  apply bind_inv in H. destruct H as [? [w3 [_ H]]].
  apply bind_inv in H. destruct H as [pack [w4 [Hpack H]]].
  apply write_review_pack_ok in Hpack. destruct Hpack as [-> [Hrel Hpack]].
  apply bind_inv in H. destruct H as [rel [w5 [Hrel' H]]].
  apply lift_opt_inv in Hrel'. destruct Hrel' as [_ ->].
  apply bind_inv in H. destruct H as [created [w5 [Hnow H]]].
  apply bind_inv in H. destruct H as [? [w6 [Hjson H]]].
  apply bind_inv in H. destruct H as [? [w7 [Hcommit H]]].
  apply ret_inv in H. destruct H as [-> ->].
  cbn [repo_root story_file story_title story_content branch review_pack state
       state_file effective_provider].
  repeat split; auto.
  - eexists. split; reflexivity.
  - assert (K5 : keeps_files w4 w5) by (eapply run_keeps; [apply keeps_now|exact Hnow]).
    assert (K6 : keeps_files w5 w6) by (eapply run_keeps; [apply keeps_write_json|exact Hjson]).
    assert (K7 : keeps_files w6 w7).
    { eapply run_keeps; [|exact Hcommit]. repeat step_keeps. }
    apply K7, K6, K5, Hpack.
  - apply write_json_ok in Hjson.
    assert (K7 : keeps_files w6 w7).
    { eapply run_keeps; [|exact Hcommit]. repeat step_keeps. }
    apply K7, Hjson.
Qed.
End StartFacts.

(** *** The provider path of [start] *)


Section StartProvider.

Context {S : Type} (env : Env S).

Lemma resolve_provider_known : forall p,
  known_provider p ->
  resolve_provider env p = "github" \/ resolve_provider env p = "azuredevops".
Proof.
  intros p [-> | [-> | ->]]; unfold resolve_provider; simpl; auto.
  destruct (_azure_repo_from_origin env); auto.
Qed.

(** Without credentials or coordinates the provider path is skipped, or
    fails when the integration is required; either way nothing else
    happens. *)
Lemma start_integrate_not_ready : forall args c (w : World S),
  effective_provider c = "github" \/ effective_provider c = "azuredevops" ->
  integration_ready env args (effective_provider c) = false ->
  start_integrate env args c w =
  if require_integration args then (Err MissingCredentials, w)
  else (Ok ({| kind := effective_provider c; issue := None; pr := None |}, state c), w).
Proof.
  intros args c w Hp Hr. unfold start_integrate, integration_ready in *.
  destruct Hp as [Hp|Hp]; rewrite Hp in *; cbn [String.eqb Ascii.eqb Bool.eqb] in *.
  - unfold start_github.
    destruct (opt_truthy (github_token_of env (github_token args)));
      destruct (opt_truthy (github_repo_of env args)); try discriminate;
      cbn [negb orb]; destruct (require_integration args); reflexivity.
  - unfold start_azure. destruct (azure_coordinates env args) as [[o p] r].
    destruct (opt_truthy (azure_pat_of env (azure_pat args)));
      destruct (opt_truthy o); destruct (opt_truthy p); destruct (opt_truthy r);
      try discriminate; cbn [negb orb]; destruct (require_integration args); reflexivity.
Qed.

(** With credentials, a run that is neither a dry run nor pushes the branch
    stops at once. *)
Lemma start_integrate_push_required : forall args c (w : World S),
  integration_ready env args (effective_provider c) = true ->
  dry_run args = false ->
  push args = false ->
  start_integrate env args c w = (Err PushRequired, w).
Proof.
  intros args c w Hr Hd Hp. unfold start_integrate, integration_ready in *.
  destruct (String.eqb (effective_provider c) "github").
  - unfold start_github. apply andb_true_iff in Hr. destruct Hr as [-> ->].
    rewrite Hd, Hp. reflexivity.
  - destruct (String.eqb (effective_provider c) "azuredevops"); [|discriminate].
    unfold start_azure. destruct (azure_coordinates env args) as [[o p] r].
    repeat (apply andb_true_iff in Hr; destruct Hr as [Hr ->]). rewrite Hr, Hd, Hp.
    reflexivity.
Qed.

(** With credentials, a dry run goes through the provider path without
    touching the world. *)
Lemma start_integrate_dry_ready : forall args c (w : World S) rel1 rel2,
  integration_ready env args (effective_provider c) = true ->
  dry_run args = true ->
  relative_to (repo_root c) (story_file c) = Some rel1 ->
  relative_to (repo_root c) (review_pack c) = Some rel2 ->
  exists r, start_integrate env args c w = (Ok r, w).
Proof.
  intros args c w rel1 rel2 Hr Hd H1 H2. unfold start_integrate, integration_ready in *.
  destruct (String.eqb (effective_provider c) "github").
  - unfold start_github. apply andb_true_iff in Hr. destruct Hr as [-> ->].
    rewrite Hd. unfold _github_find_or_create_issue, _github_create_pr, _compose_pr_body.
    rewrite H1, H2. destruct (push args).
    all: cbv [bind ret lift negb orb andb]; eexists; reflexivity.
  - destruct (String.eqb (effective_provider c) "azuredevops"); [|discriminate].
    unfold start_azure. destruct (azure_coordinates env args) as [[o p] r].
    repeat (apply andb_true_iff in Hr; destruct Hr as [Hr ->]). rewrite Hr, Hd.
    unfold _azure_wiql_find_work_item, _azure_create_work_item, _azure_create_pr,
      _azure_link_work_item_to_pr, _compose_pr_body.
    rewrite H1, H2. destruct (push args).
    all: cbv [bind ret lift negb orb andb]; cbn; eexists; reflexivity.
Qed.

Lemma in_trace_snoc : forall (e x : Event) t, In e t -> In e (t ++ [x]).
Proof. intros. apply in_or_app. now left. Qed.

Lemma in_trace_last : forall (e : Event) t, In e (t ++ [e]).
Proof. intros. apply in_or_app. right. now left. Qed.

(** The end of a dry run: the state file again, then the summary. *)
Lemma start_finish_dry : forall args c r (w : World S) rel1 rel2,
  dry_run args = true ->
  relative_to (repo_root c) (review_pack c) = Some rel1 ->
  relative_to (repo_root c) (state_file c) = Some rel2 ->
  exists w',
    start_finish env args c r w = (Ok 0%Z, w')
    /\ In (Print ("Branch: " ++ branch c)) (trace w').
Proof.
  intros args c [pref st] w rel1 rel2 Hd H1 H2. unfold start_finish.
  rewrite Hd, H1, H2.
  cbv [bind ret lift lift_opt when negb andb _write_json _ensure_dir emit print].
  cbn [fst snd texts jsons remote ticks trace].
  destruct (opt_json_truthy (issue pref)); destruct (opt_json_truthy (pr pref));
    cbn [fst snd texts jsons remote ticks trace];
    eexists; (split; [reflexivity|]); cbn [trace];
    repeat first [apply in_trace_last | apply in_trace_snoc].
Qed.

End StartProvider.

(** *** [start] as a whole *)

(** C1 (amended). For a valid identifier whose story file is found under the
    repository, [start --dry-run] sends no HTTP request and writes both the
    review pack and the state file; it ends with the summary, which names the
    branch [feature/<id>-<slug>], unless the integration is required while
    credentials or coordinates are missing, in which case it fails with
    MissingCredentials.  In a dry run the helpers that would reach the
    provider return at once: the issue and pull-request helpers a record with
    id 0 and the URL "(dry-run)", the work-item helpers the id 0, the link
    and comment helpers nothing. *)
Theorem start_dry_run :
  forall S (env : Env S) (args : Args) (w : World S) root file title content rel,
    dry_run args = true ->
    known_provider (provider args) ->
    _repo_root env = Ok root ->
    _parse_story (texts w) (path_join root (stories_dir args)) (story_id args)
      = Ok (file, title, content) ->
    relative_to root file = Some rel ->
    (offline_step w (snd (cmd_start env args w))
     /\ Fs.exists_ (_review_pack_path root (story_id args))
          (texts (snd (cmd_start env args w))) = true
     /\ Fs.exists_ (_state_path root (story_id args))
          (jsons (snd (cmd_start env args w))) = true
     /\ (if require_integration args
            && negb (integration_ready env args (resolve_provider env (provider args)))
         then fst (cmd_start env args w) = Err MissingCredentials
         else fst (cmd_start env args w) = Ok 0%Z
              /\ In (Print ("Branch: feature/" ++ story_id args ++ "-" ++ _slugify title))
                   (trace (snd (cmd_start env args w)))))
    /\ (forall api token repo id t content_ base head body_ d n marker v,
          _github_find_or_create_issue env api token repo id t content_ true v
          = (Ok (JObj [("number", JNum 0); ("html_url", JStr "(dry-run)");
                       ("title", JStr (id ++ ": " ++ t))]), v)
          /\ _github_create_pr env api token repo base head t body_ d true v
             = (Ok (JObj [("number", JNum 0); ("html_url", JStr "(dry-run)");
                          ("title", JStr t)]), v)
          /\ _github_upsert_pr_comment env api token repo n marker body_ true v
             = (Ok tt, v))
    /\ (forall org project repo pat id t content_ ty src tgt desc d n m body_ v,
          _azure_wiql_find_work_item env org project pat id true v = (Ok (Some 0%Z), v)
          /\ _azure_create_work_item env org project pat ty id t content_ true v
             = (Ok 0%Z, v)
          /\ _azure_create_pr env org project repo pat src tgt t desc d true v
             = (Ok (JObj [("pullRequestId", JNum 0); ("url", JStr "(dry-run)");
                          ("title", JStr t)]), v)
          /\ _azure_link_work_item_to_pr env org project pat n m repo true v = (Ok tt, v)
          /\ _azure_post_pr_comment env org project repo pat m body_ true v = (Ok tt, v)).
Proof.
  intros S env args w root file title content rel Hd Hk Hroot Hparse Hrel.
  split; [|split; intros; repeat split; reflexivity].
  destruct (start_prepare_dry env args w root file title content rel Hd Hroot Hparse Hrel)
    as [c [w1 [Hprep [Hc1 [Hc2 [Hc3 [Hc4 [Hc5 [Hc6 [Hc7 [Hpack Hstate]]]]]]]]]]].
  pose proof (parse_story_valid _ _ _ _ Hparse) as Hvalid.
  destruct (artifact_paths_relative root (story_id args) Hvalid) as [[r1 Hr1] [r2 Hr2]].
  assert (Hpr : effective_provider c = "github" \/ effective_provider c = "azuredevops")
    by (rewrite Hc7; now apply resolve_provider_known).
  assert (Hfin : forall r w2,
             exists w', start_finish env args c r w2 = (Ok 0%Z, w')
                        /\ In (Print ("Branch: " ++ branch c)) (trace w')).
  { intros r w2. apply (start_finish_dry env args c r w2 r1 r2 Hd).
    - now rewrite Hc1, Hc5.
    - now rewrite Hc1, Hc6. }
  split; [apply offline_cmd_start; now left|].
  assert (Hkeep : keeps_files w1 (snd (cmd_start env args w))).
  { unfold cmd_start. rewrite (bind_ok _ _ _ _ _ _ _ _ Hprep).
    apply keeps_bind; [apply keeps_start_integrate|intros r; apply keeps_start_finish]. }
  split; [now apply (proj1 Hkeep)|]. split; [now apply (proj2 Hkeep)|].
  unfold cmd_start. rewrite (bind_ok _ _ _ _ _ _ _ _ Hprep). rewrite <- Hc7.
  destruct (integration_ready env args (effective_provider c)) eqn:Hready.
  - rewrite andb_false_r.
    destruct (start_integrate_dry_ready env args c w1 rel r1 Hready Hd) as [r Hint].
    + now rewrite Hc1, Hc2.
    + now rewrite Hc1, Hc5.
    + rewrite (bind_ok _ _ _ _ _ _ _ _ Hint).
      destruct (Hfin r w1) as [w' [Hf Hin]]. rewrite Hf. split; [reflexivity|].
      cbn [snd]. rewrite Hc4 in Hin. exact Hin.
  - rewrite andb_true_r. cbn [negb].
    pose proof (start_integrate_not_ready env args c w1 Hpr Hready) as Hint.
    destruct (require_integration args).
    + now rewrite (bind_err _ _ _ _ _ _ _ _ Hint).
    + rewrite (bind_ok _ _ _ _ _ _ _ _ Hint).
      destruct (Hfin ({| kind := effective_provider c; issue := None; pr := None |},
                      state c) w1) as [w' [Hf Hin]].
      rewrite Hf. split; [reflexivity|]. cbn [snd]. rewrite Hc4 in Hin. exact Hin.
Qed.

Lemma start_dry_run_witness :
  offline_step Demo.world
    (snd (cmd_start Demo.github_env (Demo.set_dry_run Demo.start_args) Demo.world))
  /\ Fs.exists_ (_review_pack_path "/r" "ACF-1")
       (texts (snd (cmd_start Demo.github_env (Demo.set_dry_run Demo.start_args) Demo.world)))
     = true
  /\ Fs.exists_ (_state_path "/r" "ACF-1")
       (jsons (snd (cmd_start Demo.github_env (Demo.set_dry_run Demo.start_args) Demo.world)))
     = true
  /\ (if require_integration (Demo.set_dry_run Demo.start_args)
         && negb (integration_ready Demo.github_env (Demo.set_dry_run Demo.start_args)
                    (resolve_provider Demo.github_env "auto"))
      then fst (cmd_start Demo.github_env (Demo.set_dry_run Demo.start_args) Demo.world)
           = Err MissingCredentials
      else fst (cmd_start Demo.github_env (Demo.set_dry_run Demo.start_args) Demo.world)
           = Ok 0%Z
           /\ In (Print ("Branch: feature/" ++ "ACF-1" ++ "-" ++ _slugify "Hello, World!! Foo"))
                (trace (snd (cmd_start Demo.github_env (Demo.set_dry_run Demo.start_args)
                               Demo.world)))).
Proof.
  apply (start_dry_run unit Demo.github_env (Demo.set_dry_run Demo.start_args) Demo.world
           "/r" "/r/artifacts/stories/ACF-1.md" "Hello, World!! Foo" Demo.story
           "artifacts/stories/ACF-1.md").
  - reflexivity.
  - left; reflexivity.
  - vm_compute; reflexivity.
  - vm_compute; reflexivity.
  - vm_compute; reflexivity.
Defined.

(** C1, as it is stated, fails in two ways, each at a valid identifier and
    in a dry run.  [start ACF-404 --dry-run], where no story file has the
    identifier, fails with NotFound and writes nothing.
    [start ACF-1 --dry-run --require-integration], without credentials,
    writes both files and then fails with MissingCredentials: no summary is
    printed. *)
Lemma start_dry_run_counterexample :
  (Re.fullmatch STORY_ID_RE (story_id Demo.missing_story_args) = true
   /\ dry_run Demo.missing_story_args = true
   /\ cmd_start Demo.github_env Demo.missing_story_args Demo.world
      = (Err NotFound, Demo.world))
  /\ (Re.fullmatch STORY_ID_RE (story_id Demo.dry_required_args) = true
      /\ dry_run Demo.dry_required_args = true
      /\ fst (cmd_start Demo.github_env Demo.dry_required_args Demo.world)
         = Err MissingCredentials
      /\ forall line,
           ~ In (Print line)
               (trace (snd (cmd_start Demo.github_env Demo.dry_required_args Demo.world)))).
Proof.
  split; [split; [|split]|split; [|split; [|split]]]; try (vm_compute; reflexivity).
  intros line H. vm_compute in H.
  repeat (destruct H as [H|H]; [discriminate|]). exact H.
Qed.

Lemma lookup_write_same : forall A p (v : A) fs, Fs.lookup p (Fs.write p v fs) = Some v.
Proof.
  intros A p v fs. induction fs as [|[q x] fs IH]; simpl.
  - now rewrite String.eqb_refl.
  - destruct (String.eqb p q) eqn:E; simpl.
    + now rewrite String.eqb_refl.
    + now rewrite E.
Qed.

Section StartEnd.

Context {S : Type} (env : Env S).

(** The end of a run whose provider path was skipped: the state file is
    written again as it was, nothing is committed, the summary is printed. *)
Lemma start_finish_unlinked : forall args c pref d (w : World S) rel1 rel2,
  state c = JObj d ->
  Dict.get "provider" d = Some (JObj []) ->
  relative_to (repo_root c) (review_pack c) = Some rel1 ->
  relative_to (repo_root c) (state_file c) = Some rel2 ->
  exists w',
    start_finish env args c (pref, state c) w = (Ok 0%Z, w')
    /\ Fs.lookup (state_file c) (jsons w') = Some (state c).
Proof.
  intros args c pref d w rel1 rel2 Hs Hp H1 H2. unfold start_finish.
  rewrite Hs, Hp, H1, H2. cbn [opt_json_truthy json_truthy]. rewrite andb_false_r.
  cbv [bind ret lift lift_opt when negb andb _write_json _ensure_dir emit print].
  cbn [fst snd texts jsons remote ticks trace].
  destruct (opt_json_truthy (issue pref)); destruct (opt_json_truthy (pr pref));
    cbn [fst snd texts jsons remote ticks trace];
    eexists; (split; [reflexivity|]); cbn [jsons]; apply lookup_write_same.
Qed.

End StartEnd.

(** C3 (amended).  For an identifier that does not match [^ACF-\d+$],
    [start] leaves the world as it found it: no file is written, no request
    is sent, no live command is run and nothing is printed.  All that
    precedes the check of the identifier is [git rev-parse --show-toplevel]:
    when it succeeds the run fails with InvalidIdentifier, and when it
    fails the run fails with the CalledProcessError of that command. *)
Theorem invalid_identifier_rejected :
  forall S (env : Env S) (args : Args) (w : World S),
    Re.fullmatch STORY_ID_RE (story_id args) = false ->
    (fst (proc env ROOT_QUERY) = 0%Z ->
     cmd_start env args w = (Err InvalidIdentifier, w)
     /\ main env (Start args) w = (Err InvalidIdentifier, w))
    /\ (fst (proc env ROOT_QUERY) <> 0%Z ->
        cmd_start env args w = (Err (CommandFailed ROOT_QUERY), w)
        /\ main env (Start args) w = (Err (CommandFailed ROOT_QUERY), w)).
Proof.
  assert (Hstart : forall S (env : Env S) (args : Args) (w : World S),
            Re.fullmatch STORY_ID_RE (story_id args) = false ->
            cmd_start env args w =
            if (fst (proc env ROOT_QUERY) =? 0)%Z
            then (Err InvalidIdentifier, w)
            else (Err (CommandFailed ROOT_QUERY), w)).
  { intros S env args w H. unfold cmd_start, start_prepare.
    cbv [bind lift get_texts _repo_root _git _run].
    change ("git" :: ["rev-parse"; "--show-toplevel"]) with ROOT_QUERY.
    destruct (fst (proc env ROOT_QUERY) =? 0)%Z; cbn [andb negb].
    - unfold _parse_story. rewrite H. reflexivity.
    - reflexivity. }
  intros S env args w H.
  assert (Hmain : main env (Start args) w =
                  if (fst (proc env ROOT_QUERY) =? 0)%Z
                  then (Err InvalidIdentifier, w)
                  else (Err (CommandFailed ROOT_QUERY), w)).
  { cbn [main]. destruct (push args); apply Hstart; exact H. }
  rewrite Hmain, (Hstart S env args w H). split; intros Hrc.
  - apply Z.eqb_eq in Hrc. rewrite Hrc. split; reflexivity.
  - apply Z.eqb_neq in Hrc. rewrite Hrc. split; reflexivity.
Qed.

Lemma invalid_identifier_rejected_witness :
  cmd_start Demo.github_env (Demo.set_story_id "ACF-12a" Demo.start_args) Demo.world
  = (Err InvalidIdentifier, Demo.world).
Proof.
  refine (proj1 (proj1 (invalid_identifier_rejected unit Demo.github_env
                          (Demo.set_story_id "ACF-12a" Demo.start_args) Demo.world _) _));
    vm_compute; reflexivity.
Defined.

(** C3, as it is stated, fails on the code: outside a git work tree the
    identifier is never looked at, and [start] fails with the error of
    [git rev-parse --show-toplevel], not with InvalidIdentifier. *)
Lemma invalid_identifier_counterexample :
  Re.fullmatch STORY_ID_RE "ACF-12a" = false
  /\ cmd_start Demo.outside_env (Demo.set_story_id "ACF-12a" Demo.start_args) Demo.world
     = (Err (CommandFailed ["git"; "rev-parse"; "--show-toplevel"]), Demo.world)
  /\ fst (cmd_start Demo.outside_env (Demo.set_story_id "ACF-12a" Demo.start_args)
            Demo.world)
     <> Err InvalidIdentifier.
Proof.
  split; [|split]; try (vm_compute; reflexivity). vm_compute. discriminate.
Qed.

(** C10. With the Azure DevOps provider the organisation URL, the project
    and the repository are taken from the origin remote only when none of
    the three is given by an argument or an environment variable.  When one
    is given and another is missing, the given values stand as they are;
    the run then sends no request and, past the local steps, fails with
    MissingCredentials if the integration is required and otherwise ends
    normally with an empty provider block in the state file. *)
Theorem azure_inference_all_or_nothing :
  forall S (env : Env S) (args : Args) org_url project repo,
    azure_given env args = (org_url, project, repo) ->
    (opt_truthy org_url || opt_truthy project || opt_truthy repo = true ->
     azure_coordinates env args = (org_url, project, repo))
    /\ (opt_truthy org_url || opt_truthy project || opt_truthy repo = false ->
        forall i_org i_project i_repo,
          _azure_repo_from_origin env = Some (i_org, i_project, i_repo) ->
          azure_coordinates env args = (Some i_org, Some i_project, Some i_repo))
    /\ (opt_truthy org_url || opt_truthy project || opt_truthy repo = true ->
        opt_truthy org_url && opt_truthy project && opt_truthy repo = false ->
        forall (w : World S) c w1,
          start_prepare env args w = (Ok c, w1) ->
          effective_provider c = "azuredevops" ->
          offline_step w (snd (cmd_start env args w))
          /\ (if require_integration args
              then cmd_start env args w = (Err MissingCredentials, w1)
              else fst (cmd_start env args w) = Ok 0%Z
                   /\ exists d,
                        Fs.lookup (state_file c) (jsons (snd (cmd_start env args w)))
                        = Some (JObj d)
                        /\ Dict.get "provider" d = Some (JObj []))).
Proof.
  intros S env args o p r Hg.
  assert (Hsome : opt_truthy o || opt_truthy p || opt_truthy r = true ->
                  azure_coordinates env args = (o, p, r)).
  { intros H. unfold azure_coordinates. rewrite Hg.
    destruct (opt_truthy o), (opt_truthy p), (opt_truthy r); try discriminate;
      cbn [negb orb andb]; try reflexivity;
      destruct (_azure_repo_from_origin env) as [[[? ?] ?]|]; reflexivity. }
  split; [exact Hsome|]. split.
  - intros H io ip ir Hi. unfold azure_coordinates. rewrite Hg, Hi.
    destruct (opt_truthy o), (opt_truthy p), (opt_truthy r); try discriminate.
    reflexivity.
  - intros H Hall w c w1 Hprep Hprov.
    assert (Hready : integration_ready env args (effective_provider c) = false).
    { unfold integration_ready. rewrite Hprov. cbn [String.eqb Ascii.eqb Bool.eqb].
      rewrite (Hsome H).
      destruct (opt_truthy o), (opt_truthy p), (opt_truthy r); try discriminate;
        now rewrite ?andb_false_r. }
    pose proof (start_integrate_not_ready env args c w1 (or_intror Hprov) Hready) as Hint.
    destruct (start_prepare_ok env args w c w1 Hprep)
      as [Hroot [Hparse [_ [_ [Hpack [Hstate [_ [[d [Hd Hpd]] _]]]]]]]].
    pose proof (parse_story_valid _ _ _ _ Hparse) as Hvalid.
    destruct (artifact_paths_relative (repo_root c) (story_id args) Hvalid)
      as [[r1 Hr1] [r2 Hr2]].
    rewrite <- Hpack in Hr1. rewrite <- Hstate in Hr2.
    split.
    + unfold cmd_start. rewrite (bind_ok _ _ _ _ _ _ _ _ Hprep).
      apply (offline_trans _ w w1).
      * pose proof (offline_start_prepare env args w) as Hp. now rewrite Hprep in Hp.
      * unfold bind. rewrite Hint. destruct (require_integration args); cbn [snd].
        -- apply offline_refl.
        -- apply offline_start_finish.
    + unfold cmd_start. rewrite (bind_ok _ _ _ _ _ _ _ _ Hprep).
      destruct (require_integration args).
      * now rewrite (bind_err _ _ _ _ _ _ _ _ Hint).
      * rewrite (bind_ok _ _ _ _ _ _ _ _ Hint).
        destruct (start_finish_unlinked env args c
                    {| kind := effective_provider c; issue := None; pr := None |}
                    d w1 r1 r2 Hd Hpd Hr1 Hr2) as [w' [Hf Hl]].
        rewrite Hf. split; [reflexivity|]. exists d. cbn [snd]. rewrite Hl, Hd. auto.
Qed.

Lemma azure_inference_all_or_nothing_witness :
  azure_coordinates Demo.azure_env Demo.partial_azure_args = (None, Some "proj", None)
  /\ fst (cmd_start Demo.azure_env Demo.partial_azure_args Demo.world) = Ok 0%Z.
Proof.
  destruct (azure_inference_all_or_nothing unit Demo.azure_env Demo.partial_azure_args
              None (Some "proj") None eq_refl) as [H1 [_ H3]].
  split.
  - apply H1. reflexivity.
  - destruct (H3 eq_refl eq_refl Demo.world Demo.partial_azure_ctx
                (snd (start_prepare Demo.azure_env Demo.partial_azure_args Demo.world)))
      as [_ H].
    + vm_compute; reflexivity.
    + vm_compute; reflexivity.
    + exact (proj1 H).
Defined.

(** *** Runs of [evidence] *)


Section EvidenceRuns.

Context {S : Type} (env : Env S).

Lemma offline_run_local_checks : forall args,
  respects offline_step (run_local_checks env args).
Proof. intros args. unfold run_local_checks. repeat step_offline. Qed.

(** The local validations never fail: every command is run unchecked. *)
Lemma run_local_checks_ok : forall args (w : World S),
  fst (run_local_checks env args w) = Ok tt.
Proof.
  intros args w. unfold run_local_checks, _git_live, _run_live.
  cbv [bind emit ret when andb]. cbn [fst snd].
  destruct (ev_full_verify args); reflexivity.
Qed.

End EvidenceRuns.

(** C9. [evidence] on a work item whose state file records no provider
    fails with NoProviderConfigured and sends no HTTP request. *)
Theorem evidence_without_provider :
  forall S (env : Env S) (args : EvArgs) (w : World S) root state_,
    _repo_root env = Ok root ->
    Fs.lookup (_state_path root (ev_story_id args)) (jsons w) = Some state_ ->
    records_no_provider state_ ->
    fst (cmd_evidence env args w) = Err NoProviderConfigured
    /\ offline_step w (snd (cmd_evidence env args w)).
Proof.
  intros S env args w root st Hroot Hst [d [-> Hd]].
  assert (Hprov : exists block,
             get_default "provider" (JObj []) (JObj d) = Ok (JObj block)
             /\ Dict.get "kind" block = None).
  { destruct Hd as [Hd | [block [Hd Hk]]]; cbn [get_default]; rewrite Hd.
    - exists []. auto.
    - exists block. auto. }
  destruct Hprov as [block [Hprov Hkind]].
  unfold cmd_evidence.
  cbv [bind lift get_jsons]. rewrite Hroot. cbv iota beta. rewrite Hst.
  destruct (get_default "storyTitle" (JStr "Untitled") (JObj d)) as [title|e] eqn:Ht;
    [|cbn [get_default] in Ht; destruct (Dict.get "storyTitle" d); discriminate].
  pose proof (run_local_checks_ok env args w) as Hok.
  pose proof (offline_run_local_checks env args w) as Hoff.
  unfold when.
  destruct (ev_run_local args).
  - destruct (run_local_checks env args w) as [[[]|e] w1]; [|discriminate].
    cbn [snd] in Hoff. cbv [_local_evidence_summary bind _now_utc_iso ret].
    rewrite Hprov. cbn [get_opt]. rewrite Hkind. cbn [is_str fail fst snd].
    split; [reflexivity|].
    eapply offline_trans; [exact Hoff|].
    split; [reflexivity|]. exists []. cbn [trace]. split; [now rewrite app_nil_r|constructor].
  - cbv [_local_evidence_summary bind _now_utc_iso ret].
    rewrite Hprov. cbn [get_opt]. rewrite Hkind. cbn [is_str fail fst snd].
    split; [reflexivity|].
    split; [reflexivity|]. exists []. cbn [trace]. split; [now rewrite app_nil_r|constructor].
Qed.

Lemma evidence_without_provider_witness :
  fst (cmd_evidence Demo.github_env Demo.evidence_args Demo.started)
  = Err NoProviderConfigured
  /\ offline_step Demo.started
       (snd (cmd_evidence Demo.github_env Demo.evidence_args Demo.started)).
Proof.
  apply (evidence_without_provider unit Demo.github_env Demo.evidence_args Demo.started
           "/r" Demo.started_state).
  - vm_compute; reflexivity.
  - vm_compute; reflexivity.
  - eexists. split; [vm_compute; reflexivity|].
    right. exists []. split; reflexivity.
Defined.

(** *** The evidence comment on GitHub *)

Lemma str_of_Z_inj : forall a b, str_of_Z a = str_of_Z b -> a = b.
Proof.
  intros a b H. unfold str_of_Z in H. apply DecimalZ.to_int_inj.
  assert (Hisi : forall z,
             NilZero.int_of_string (NilZero.string_of_int (Z.to_int z)) = Some (Z.to_int z)).
  { intros z. apply NilZero.isi; destruct z; simpl; try discriminate;
      intros E; injection E as E; now apply DecimalPos.Unsigned.to_uint_nonnil in E. }
  pose proof (f_equal NilZero.int_of_string H) as E. rewrite !Hisi in E.
  now injection E.
Qed.

Lemma contains_prefix : forall m s, Str.contains m (m ++ s)%string = true.
Proof.
  intros m s. destruct (m ++ s)%string eqn:E; simpl;
    rewrite <- E, startswith_app; reflexivity.
Qed.

Lemma drop_app : forall a b, Str.drop (String.length a) (a ++ b)%string = b.
Proof. induction a as [|c a IH]; intros b; simpl; auto. Qed.

Section Upsert.

Variables (api repo : string) (pr_number : Z).

Lemma serve_list : forall h b st,
  GitHubSim.serve api repo pr_number
    {| method := "GET"; url := list_url api repo pr_number; headers := h; body := b |} st
  = (Replied (JArr (List.map GitHubSim.comment_json (firstn 100 (GitHubSim.comments st)))),
     st).
Proof.
  intros h b st. unfold GitHubSim.serve. cbn [method url String.eqb Ascii.eqb Bool.eqb andb].
  replace (((api ++ "/repos/" ++ repo ++ "/issues/") ++ str_of_Z pr_number ++ "/comments")
             ++ "?per_page=100")%string with (list_url api repo pr_number).
  - now rewrite String.eqb_refl.
  - unfold list_url. rewrite !str_app_assoc. reflexivity.
Qed.

Lemma serve_create : forall h text st,
  GitHubSim.serve api repo pr_number
    {| method := "POST"; url := create_url api repo pr_number; headers := h;
       body := Some (JObj [("body", JStr text)]) |} st
  = (Replied (GitHubSim.comment_json (GitHubSim.next_id st, text)),
     {| GitHubSim.comments := GitHubSim.comments st ++ [(GitHubSim.next_id st, text)];
        GitHubSim.next_id := GitHubSim.next_id st + 1 |}).
Proof.
  intros h text st. unfold GitHubSim.serve.
  cbn [method url String.eqb Ascii.eqb Bool.eqb andb].
  replace ((api ++ "/repos/" ++ repo ++ "/issues/") ++ str_of_Z pr_number ++ "/comments")%string
    with (create_url api repo pr_number).
  - rewrite String.eqb_refl. reflexivity.
  - unfold create_url. rewrite !str_app_assoc. reflexivity.
Qed.

Lemma serve_update : forall h id text st,
  GitHubSim.serve api repo pr_number
    {| method := "PATCH"; url := update_url api repo id; headers := h;
       body := Some (JObj [("body", JStr text)]) |} st
  = match GitHubSim.update (str_of_Z id) text (GitHubSim.comments st) with
    | Some cs => (Replied JNull, {| GitHubSim.comments := cs;
                                    GitHubSim.next_id := GitHubSim.next_id st |})
    | None => (HttpFailed 404, st)
    end.
Proof.
  intros h id text st. unfold GitHubSim.serve.
  cbn [method url String.eqb Ascii.eqb Bool.eqb andb].
  replace (update_url api repo id)
    with (((api ++ "/repos/" ++ repo ++ "/issues/") ++ "comments/") ++ str_of_Z id)%string.
  - rewrite startswith_app, drop_app. reflexivity.
  - unfold update_url. rewrite !str_app_assoc. reflexivity.
Qed.

End Upsert.

Section UpsertRuns.

Context (env : Env GitHubSim.Remote) (api repo : string) (pr_number : Z).
Hypothesis served : serve env = GitHubSim.serve api repo pr_number.

Lemma body_has_marker_comment : forall marker c,
  body_has_marker marker (GitHubSim.comment_json c) = Ok (Str.contains marker (snd c)).
Proof.
  intros marker [i b]. unfold body_has_marker, GitHubSim.comment_json.
  cbn [get_opt Dict.get String.eqb Ascii.eqb Bool.eqb fst snd json_truthy].
  destruct b; reflexivity.
Qed.

Lemma find_existing_none : forall marker cs,
  (forall c, In c cs -> Str.contains marker (snd c) = false) ->
  find_existing marker (List.map GitHubSim.comment_json cs) = Ok None.
Proof.
  intros marker cs. induction cs as [|c cs IH]; intros H; [reflexivity|].
  cbn [List.map find_existing]. rewrite body_has_marker_comment, (H c (or_introl eq_refl)).
  apply IH. intros c' Hc'. apply H. now right.
Qed.

Lemma find_existing_last : forall marker cs c,
  (forall c', In c' cs -> Str.contains marker (snd c') = false) ->
  Str.contains marker (snd c) = true ->
  find_existing marker (List.map GitHubSim.comment_json (cs ++ [c]))
  = Ok (Some (GitHubSim.comment_json c)).
Proof.
  intros marker cs c. induction cs as [|c0 cs IH]; intros H Hc.
  - cbn [app List.map find_existing]. now rewrite body_has_marker_comment, Hc.
  - cbn [app List.map find_existing].
    rewrite body_has_marker_comment, (H c0 (or_introl eq_refl)).
    apply IH; [|exact Hc]. intros c' Hc'. apply H. now right.
Qed.

Lemma update_last : forall i old new cs,
  (forall c, In c cs -> fst c <> i) ->
  GitHubSim.update (str_of_Z i) new (cs ++ [(i, old)]) = Some (cs ++ [(i, new)]).
Proof.
  intros i old new cs. induction cs as [|c cs IH]; intros H.
  - cbn [app GitHubSim.update fst]. now rewrite String.eqb_refl.
  - cbn [app GitHubSim.update].
    destruct (String.eqb (str_of_Z (fst c)) (str_of_Z i)) eqn:E.
    + apply String.eqb_eq, str_of_Z_inj in E. now apply H in E; [|left].
    + rewrite IH; [reflexivity|]. intros c' Hc'. apply H. now right.
Qed.

(** With no marked comment on the first page, the upsert creates one. *)
Lemma upsert_creates : forall token marker text (w : World GitHubSim.Remote),
  (forall c, In c (firstn 100 (GitHubSim.comments (remote w))) ->
             Str.contains marker (snd c) = false) ->
  exists w',
    _github_upsert_pr_comment env api token repo pr_number marker text false w = (Ok tt, w')
    /\ remote w' =
       {| GitHubSim.comments :=
            GitHubSim.comments (remote w)
            ++ [(GitHubSim.next_id (remote w), (marker ++ nl ++ text)%string)];
          GitHubSim.next_id := GitHubSim.next_id (remote w) + 1 |}.
Proof.
  intros token marker text w H. unfold _github_upsert_pr_comment, _http_json.
  cbv [bind]. rewrite served.
  change (api ++ "/repos/" ++ repo ++ "/issues/" ++ str_of_Z pr_number
            ++ "/comments?per_page=100")%string with (list_url api repo pr_number).
  rewrite serve_list.
  set (page := firstn 100 (GitHubSim.comments (remote w))) in *.
  assert (Hret : forall v : World GitHubSim.Remote,
             (if negb (json_truthy (JArr (List.map GitHubSim.comment_json page)))
              then ret []
              else ret (List.map GitHubSim.comment_json page)) v
             = (Ok (List.map GitHubSim.comment_json page), v)).
  { intros v. destruct page; reflexivity. }
  rewrite Hret. cbv [lift]. rewrite (find_existing_none marker page H).
  cbv iota beta. cbn [remote].
  change (api ++ "/repos/" ++ repo ++ "/issues/" ++ str_of_Z pr_number ++ "/comments")%string
    with (create_url api repo pr_number).
  rewrite serve_create. cbv iota beta. eexists. split; reflexivity.
Qed.

(** With the marked comment last on the first page, the upsert rewrites
    it. *)
Lemma upsert_updates : forall token marker text cs i old next (w : World GitHubSim.Remote),
  remote w = {| GitHubSim.comments := cs ++ [(i, old)]; GitHubSim.next_id := next |} ->
  List.length cs < 100 ->
  (forall c, In c cs -> Str.contains marker (snd c) = false) ->
  (forall c, In c cs -> fst c <> i) ->
  Str.contains marker old = true ->
  exists w',
    _github_upsert_pr_comment env api token repo pr_number marker text false w = (Ok tt, w')
    /\ remote w' =
       {| GitHubSim.comments := cs ++ [(i, (marker ++ nl ++ text)%string)];
          GitHubSim.next_id := next |}.
Proof.
  intros token marker text cs i old next w Hr Hlen Hcs Hid Hold.
  unfold _github_upsert_pr_comment, _http_json.
  cbv [bind]. rewrite served.
  change (api ++ "/repos/" ++ repo ++ "/issues/" ++ str_of_Z pr_number
            ++ "/comments?per_page=100")%string with (list_url api repo pr_number).
  rewrite serve_list, Hr. cbn [GitHubSim.comments].
  rewrite firstn_all2 by (rewrite length_app; simpl; lia).
  assert (Hret : forall v : World GitHubSim.Remote,
             (if negb (json_truthy (JArr (List.map GitHubSim.comment_json (cs ++ [(i, old)]))))
              then ret []
              else ret (List.map GitHubSim.comment_json (cs ++ [(i, old)]))) v
             = (Ok (List.map GitHubSim.comment_json (cs ++ [(i, old)])), v)).
  { intros v. destruct cs; reflexivity. }
  rewrite Hret. cbv [lift].
  rewrite (find_existing_last marker cs (i, old) Hcs Hold).
  cbv iota beta. cbn [getitem GitHubSim.comment_json Dict.get String.eqb Ascii.eqb Bool.eqb
                        fst snd py_str remote].
  change (api ++ "/repos/" ++ repo ++ "/issues/comments/" ++ py_repr (JNum i))%string
    with (update_url api repo i).
  rewrite serve_update. cbn [GitHubSim.comments GitHubSim.next_id].
  rewrite (update_last i old _ cs Hid). cbv iota beta. eexists. split; reflexivity.
Qed.

End UpsertRuns.

Lemma marked_unmarked : forall marker cs next,
  (forall c, In c cs -> Str.contains marker (snd c) = false) ->
  GitHubSim.marked marker {| GitHubSim.comments := cs; GitHubSim.next_id := next |} = [].
Proof.
  intros marker cs next H. unfold GitHubSim.marked. cbn [GitHubSim.comments].
  induction cs as [|c cs IH]; [reflexivity|]. cbn [filter].
  rewrite (H c (or_introl eq_refl)). apply IH. intros c' Hc'. apply H. now right.
Qed.

Lemma marked_app : forall marker cs extra next,
  (forall c, In c cs -> Str.contains marker (snd c) = false) ->
  GitHubSim.marked marker {| GitHubSim.comments := cs ++ extra; GitHubSim.next_id := next |}
  = List.filter (fun c => Str.contains marker (snd c)) extra.
Proof.
  intros marker cs extra next H. unfold GitHubSim.marked. cbn [GitHubSim.comments].
  rewrite filter_app.
  pose proof (marked_unmarked marker cs next H) as E. unfold GitHubSim.marked in E.
  cbn [GitHubSim.comments] in E. now rewrite E.
Qed.

(** On a pull request whose comments fit on one page and carry no marker,
    two upserts leave exactly one marked comment: the second run rewrites
    the comment the first run created. *)
Lemma upsert_twice_one_page :
  forall (env : Env GitHubSim.Remote) api repo pr_number token marker text1 text2
         (w : World GitHubSim.Remote),
    serve env = GitHubSim.serve api repo pr_number ->
    List.length (GitHubSim.comments (remote w)) < 100 ->
    (forall c, In c (GitHubSim.comments (remote w)) -> Str.contains marker (snd c) = false) ->
    (forall c, In c (GitHubSim.comments (remote w)) -> fst c <> GitHubSim.next_id (remote w)) ->
    exists w1 w2,
      _github_upsert_pr_comment env api token repo pr_number marker text1 false w
      = (Ok tt, w1)
      /\ _github_upsert_pr_comment env api token repo pr_number marker text2 false w1
         = (Ok tt, w2)
      /\ GitHubSim.comments (remote w2)
         = GitHubSim.comments (remote w)
           ++ [(GitHubSim.next_id (remote w), (marker ++ nl ++ text2)%string)]
      /\ GitHubSim.marked marker (remote w2)
         = [(GitHubSim.next_id (remote w), (marker ++ nl ++ text2)%string)].
Proof.
  intros env api repo pr token marker t1 t2 w Hs Hlen Hun Hid.
  destruct (upsert_creates env api repo pr Hs token marker t1 w) as [w1 [H1 Hr1]].
  { intros c Hc. apply Hun. now rewrite firstn_all2 in Hc by lia. }
  destruct (upsert_updates env api repo pr Hs token marker t2
              (GitHubSim.comments (remote w)) (GitHubSim.next_id (remote w))
              (marker ++ nl ++ t1)%string (GitHubSim.next_id (remote w) + 1) w1
              Hr1 Hlen Hun Hid (contains_prefix _ _)) as [w2 [H2 Hr2]].
  exists w1, w2. split; [exact H1|]. split; [exact H2|]. rewrite Hr2. split; [reflexivity|].
  rewrite (marked_app marker _ _ _ Hun). cbn [filter snd].
  now rewrite contains_prefix.
Qed.

(** Past the first page the marked comment is never seen again: when the
    pull request has a hundred comments or more before the first run, every
    run adds a comment. *)
Lemma upsert_twice_past_first_page :
  forall (env : Env GitHubSim.Remote) api repo pr_number token marker text1 text2
         (w : World GitHubSim.Remote),
    serve env = GitHubSim.serve api repo pr_number ->
    100 <= List.length (GitHubSim.comments (remote w)) ->
    (forall c, In c (firstn 100 (GitHubSim.comments (remote w))) ->
               Str.contains marker (snd c) = false) ->
    exists w1 w2,
      _github_upsert_pr_comment env api token repo pr_number marker text1 false w
      = (Ok tt, w1)
      /\ _github_upsert_pr_comment env api token repo pr_number marker text2 false w1
         = (Ok tt, w2)
      /\ GitHubSim.comments (remote w2)
         = GitHubSim.comments (remote w)
           ++ [(GitHubSim.next_id (remote w), (marker ++ nl ++ text1)%string);
               (GitHubSim.next_id (remote w) + 1, (marker ++ nl ++ text2)%string)]%Z.
Proof.
  intros env api repo pr token marker t1 t2 w Hs Hlen Hun.
  destruct (upsert_creates env api repo pr Hs token marker t1 w Hun) as [w1 [H1 Hr1]].
  destruct (upsert_creates env api repo pr Hs token marker t2 w1) as [w2 [H2 Hr2]].
  { rewrite Hr1. cbn [GitHubSim.comments]. rewrite firstn_app.
    replace (100 - List.length (GitHubSim.comments (remote w))) with 0 by lia.
    cbn [firstn]. now rewrite app_nil_r. }
  exists w1, w2. split; [exact H1|]. split; [exact H2|].
  rewrite Hr2, Hr1. cbn [GitHubSim.comments GitHubSim.next_id].
  now rewrite <- app_assoc.
Qed.

(** [evidence] run twice on a pull request with two earlier comments: one
    marked comment, the one of the first run, with the text of the second. *)
Lemma evidence_twice_small :
  List.length (GitHubSim.comments (remote (Demo.evidence_twice 2))) = 3
  /\ List.map fst (GitHubSim.marked EVIDENCE_MARKER (remote (Demo.evidence_twice 2)))
     = [3%Z].
Proof. split; vm_compute; reflexivity. Qed.

(** C4 fails on the code.  [evidence] run twice on a pull request that
    already has a hundred comments leaves two comments with the marker, the
    comments 101 and 102: the listing asks for one page of a hundred and the
    comment of the first run is not on it. *)
Theorem evidence_twice_duplicates :
  fst (cmd_evidence Demo.gh_env Demo.evidence_args (Demo.linked_world 100)) = Ok 0%Z
  /\ List.length (GitHubSim.comments (remote (Demo.linked_world 100))) = 100
  /\ GitHubSim.marked EVIDENCE_MARKER (remote (Demo.linked_world 100)) = []
  /\ List.map fst (GitHubSim.marked EVIDENCE_MARKER (remote (Demo.evidence_twice 100)))
     = [101%Z; 102%Z].
Proof. split; [|split; [|split]]; vm_compute; reflexivity. Qed.

(** *** The story title *)


Lemma lower_char_head : forall c x,
  Str.lower_char c = x ->
  Str.is_lower x = true ->
  Str.is_space c = false /\ Ascii.eqb c ":" = false /\ Ascii.eqb c "-" = false.
Proof.
  intros c x <-.
  destruct c as [[] [] [] [] [] [] [] []]; intros H; try discriminate H;
    repeat split; reflexivity.
Qed.

(** A line [key: value] whose key is [title] in any case. *)
Lemma title_line : forall key value,
  Str.lower key = "title" ->
  String.eqb (Str.strip (key ++ ":" ++ value)) "---" = false
  /\ Str.startswith "title:" (Str.lower (key ++ ":" ++ value)) = true
  /\ Str.after_first ":" (key ++ ":" ++ value) = Some value.
Proof.
  intros key value H.
  destruct key as [|c1 [|c2 [|c3 [|c4 [|c5 [|c6 key]]]]]]; try discriminate H.
  unfold Str.lower in H. cbn [Str.map] in H.
  injection H as H1 H2 H3 H4 H5.
  destruct (lower_char_head c1 _ H1 eq_refl) as [S1 [C1 D1]].
  destruct (lower_char_head c2 _ H2 eq_refl) as [_ [C2 _]].
  destruct (lower_char_head c3 _ H3 eq_refl) as [_ [C3 _]].
  destruct (lower_char_head c4 _ H4 eq_refl) as [_ [C4 _]].
  destruct (lower_char_head c5 _ H5 eq_refl) as [_ [C5 _]].
  split; [|split].
  - unfold Str.strip, Str.strip_by. cbn [append Str.lstrip]. rewrite S1.
    cbn [Str.rstrip]. rewrite S1, andb_false_r.
    cbn [String.eqb]. rewrite D1. reflexivity.
  - unfold Str.lower. cbn [append Str.map Str.startswith].
    rewrite H1, H2, H3, H4, H5. reflexivity.
  - cbn [append Str.after_first]. rewrite C1, C2, C3, C4, C5.
    now rewrite Ascii.eqb_refl.
Qed.

Lemma scan_frontmatter_skip : forall pre rest,
  (forall l, In l pre ->
             String.eqb (Str.strip l) "---" = false
             /\ Str.startswith "title:" (Str.lower l) = false) ->
  scan_frontmatter (pre ++ rest) = scan_frontmatter rest.
Proof.
  intros pre rest. induction pre as [|l pre IH]; intros H; [reflexivity|].
  cbn [app scan_frontmatter]. destruct (H l (or_introl eq_refl)) as [-> ->].
  apply IH. intros l' Hl'. apply H. now right.
Qed.

Lemma scan_heading_skip : forall pre rest,
  (forall l, In l pre -> Re.rmatch HEADING_RE (Str.strip l) = None) ->
  scan_heading (pre ++ rest) = scan_heading rest.
Proof.
  intros pre rest. induction pre as [|l pre IH]; intros H; [reflexivity|].
  cbn [app scan_heading]. rewrite (H l (or_introl eq_refl)).
  apply IH. intros l' Hl'. apply H. now right.
Qed.

Lemma star_class_run : forall p run rest n cs,
  String.length (run ++ rest) <= n ->
  Str.forallb p run = true ->
  match rest with String c _ => p c = false | EmptyString => True end ->
  exists more,
    Re.star_loop (Re.matches (Re.Class p)) true n (run ++ rest)%string cs
    = (cs, rest) :: more.
Proof.
  intros p run. induction run as [|c run IH]; intros rest n cs Hn Hall Hrest.
  - cbn [append]. destruct n; [eexists; reflexivity|].
    rewrite star_loop_succ. destruct rest as [|d rest].
    + eexists; reflexivity.
    + rewrite matches_class_cons, Hrest. eexists; reflexivity.
  - cbn [append String.length] in *. apply andb_true_iff in Hall. destruct Hall as [Hc Hall].
    destruct n as [|n]; [lia|].
    rewrite star_loop_succ, matches_class_cons, Hc.
    cbn [flat_map snd fst String.length].
    assert (Hlt : (String.length (run ++ rest) <? Datatypes.S (String.length (run ++ rest)))
                  = true) by (apply Nat.ltb_lt; lia).
    rewrite Hlt. destruct (IH rest n cs ltac:(lia) Hall Hrest) as [more Hmore].
    rewrite Hmore. cbn [app]. eexists; reflexivity.
Qed.

Lemma take_all : forall s, Str.take (String.length s - 0) s = s.
Proof.
  intros s. rewrite Nat.sub_0_r. induction s as [|c s IH]; simpl; [reflexivity|now rewrite IH].
Qed.

(** A heading as one writes it: hashes, a space, a text that has no line
    break and starts with no white space.  The pattern captures the text. *)
Lemma heading_line_match : forall hashes c text,
  Str.forallb (Ascii.eqb "#") hashes = true ->
  Str.is_space c = false ->
  Str.forallb Re.dot (String c text) = true ->
  Re.rmatch HEADING_RE (String "#" hashes ++ " " ++ String c text)
  = Some [(1, String c text)].
Proof.
  intros hashes c text Hh Hc Hdot.
  unfold Re.rmatch, HEADING_RE. rewrite matches_seq.
  change (Re.matches (Re.Plus true (Re.Chr "#"))
            (String "#" hashes ++ " " ++ String c text) [])
    with (Re.matches (Re.Plus true (Re.Class (Ascii.eqb "#")))
            (String "#" (hashes ++ String " " (String c text))) []).
  rewrite matches_plus_class_cons. cbn [Ascii.eqb Bool.eqb].
  destruct (star_class_run (Ascii.eqb "#") hashes (String " " (String c text))
              (String.length (hashes ++ String " " (String c text))) []
              (le_n _) Hh eq_refl) as [m1 ->].
  cbn [flat_map snd fst]. rewrite matches_seq, matches_plus_class_cons.
  change (Str.is_space " ") with true. cbv iota.
  destruct (star_class_run Str.is_space EmptyString (String c text)
              (String.length (String c text)) [] (le_n _) eq_refl Hc) as [m2 Hm2].
  cbn [append] in Hm2. rewrite Hm2.
  cbn [flat_map snd fst]. rewrite matches_seq.
  change (Re.matches (Re.Group 1 (Re.Plus true (Re.Class Re.dot))) (String c text) [])
    with (List.map
            (fun x : Re.partial =>
               ((1, Str.take (String.length (String c text) - String.length (snd x))
                      (String c text)) :: fst x, snd x))
            (Re.matches (Re.Plus true (Re.Class Re.dot)) (String c text) [])).
  rewrite matches_plus_class_cons.
  cbn [Str.forallb] in Hdot. apply andb_true_iff in Hdot. destruct Hdot as [Hd Hdot].
  rewrite Hd.
  destruct (star_class_all Re.dot text (String.length text) [] (le_n _) Hdot) as [m3 ->].
  cbn [List.map flat_map snd fst Re.matches app].
  change (String.length EmptyString) with 0.
  rewrite (take_all (String c text)). reflexivity.
Qed.

Lemma firstn_incl : forall A n (l : list A) x, In x (firstn n l) -> In x l.
Proof.
  intros A n. induction n as [|n IH]; intros l x H; [destruct H|].
  destruct l as [|y l]; [destruct H|]. cbn [firstn] in H.
  destruct H as [H|H]; [now left|right; now apply IH].
Qed.




(** *** The identifier pattern *)

Lemma matches_lit : forall l x cs,
  Re.matches (Re.Lit l) (l ++ x)%string cs = [(cs, x)].
Proof.
  induction l as [|c l IH]; intros x cs; [reflexivity|].
  change (Re.Lit (String c l)) with (Re.Seq (Re.Chr c) (Re.Lit l)).
  cbn [append]. rewrite matches_seq, matches_chr_cons, Ascii.eqb_refl.
  cbn [flat_map snd fst]. rewrite IH. reflexivity.
Qed.

Lemma star_class_in : forall p g n s cs cs' r,
  In (cs', r) (Re.star_loop (Re.matches (Re.Class p)) g n s cs) ->
  exists pre, s = (pre ++ r)%string /\ Str.forallb p pre = true.
Proof.
  intros p g n. induction n as [|n IH]; intros s cs cs' r H.
  - cbn [Re.star_loop] in H. destruct H as [H|[]]. injection H as _ <-.
    exists EmptyString. auto.
  - rewrite star_loop_succ in H. cbv zeta in H.
    assert (Hmore : In (cs', r)
                      (flat_map
                         (fun x : Re.partial =>
                            if String.length (snd x) <? String.length s
                            then Re.star_loop (Re.matches (Re.Class p)) g n (snd x) (fst x)
                            else [])
                         (Re.matches (Re.Class p) s cs))
                    \/ (cs', r) = (cs, s)).
    { destruct g.
      - apply in_app_or in H. destruct H as [H|[H|[]]]; auto.
      - destruct H as [H|H]; auto. }
    destruct Hmore as [Hm|He].
    + apply in_flat_map in Hm. destruct Hm as [[cs1 s1] [Hstep Hin]].
      destruct s as [|c s]; [destruct Hstep|]. rewrite matches_class_cons in Hstep.
      destruct (p c) eqn:Hc; [|destruct Hstep]. destruct Hstep as [Hs|[]].
      injection Hs as <- <-. cbn [snd fst] in Hin.
      destruct (String.length s <? String.length (String c s)); [|destruct Hin].
      destruct (IH _ _ _ _ Hin) as [pre [-> Hpre]].
      exists (String c pre). split; [reflexivity|]. cbn [Str.forallb]. now rewrite Hc.
    + injection He as _ <-. exists EmptyString. auto.
Qed.

Lemma extend_shorter : forall acc s n s',
  Str.extend acc s = Some (n, s') -> String.length s = Datatypes.S (String.length s').
Proof.
  intros acc s n s' H. destruct s as [|c s]; [discriminate|].
  cbn [Str.extend] in H. destruct (Str.in_range 128 191 c); [|discriminate].
  injection H as _ <-. reflexivity.
Qed.

(** A code point takes one byte at least. *)
Lemma decode_shorter : forall s n s',
  Str.decode s = Some (n, s') -> String.length s' < String.length s.
Proof.
  intros s n s' H. destruct s as [|c s]; [discriminate|].
  cbn [Str.decode] in H. cbv zeta in H. cbn [String.length].
  destruct (Str.in_range 0 127 c).
  { injection H as _ <-. lia. }
  destruct (Str.in_range 194 223 c).
  { apply extend_shorter in H. lia. }
  destruct (Str.in_range 224 239 c).
  { destruct (Str.extend _ s) as [[y s2]|] eqn:E1; [|discriminate].
    destruct (Str.extend y s2) as [[m s3]|] eqn:E2; [|discriminate].
    apply extend_shorter in E1, E2.
    destruct (_ && _)%bool; [|discriminate]. injection H as _ <-. lia. }
  destruct (Str.in_range 240 244 c); [|discriminate].
  destruct (Str.extend _ s) as [[y s2]|] eqn:E1; [|discriminate].
  destruct (Str.extend y s2) as [[z s3]|] eqn:E2; [|discriminate].
  destruct (Str.extend z s3) as [[m s4]|] eqn:E3; [|discriminate].
  apply extend_shorter in E1, E2, E3.
  destruct (_ && _)%bool; [|discriminate]. injection H as _ <-. lia.
Qed.

Lemma matches_code : forall p s cs,
  Re.matches (Re.Code p) s cs =
  match Str.decode s with
  | Some (n, s') => if p n then [(cs, s')] else []
  | None => []
  end.
Proof. reflexivity. Qed.

Lemma decimal_run_nil : forall k, decimal_run k EmptyString = true.
Proof. intros [|k]; reflexivity. Qed.

Lemma decimal_run_cons : forall k c s,
  decimal_run (Datatypes.S k) (String c s) =
  match Str.decode (String c s) with
  | Some (n, s') => Str.is_decimal n && decimal_run k s'
  | None => false
  end.
Proof. reflexivity. Qed.

(** What the repetition of [\d] has consumed when it reaches the end of the
    text is a run of decimal digits. *)
Lemma star_code_in : forall g n s cs cs' k,
  In (cs', EmptyString) (Re.star_loop (Re.matches (Re.Code Str.is_decimal)) g n s cs) ->
  String.length s <= k ->
  decimal_run k s = true.
Proof.
  intros g n. induction n as [|n IH]; intros s cs cs' k H Hk.
  - cbn [Re.star_loop] in H. destruct H as [H|[]]. injection H as _ ->.
    apply decimal_run_nil.
  - rewrite star_loop_succ in H. cbv zeta in H.
    assert (Hmore : In (cs', EmptyString)
                      (flat_map
                         (fun x : Re.partial =>
                            if String.length (snd x) <? String.length s
                            then Re.star_loop (Re.matches (Re.Code Str.is_decimal)) g n
                                   (snd x) (fst x)
                            else [])
                         (Re.matches (Re.Code Str.is_decimal) s cs))
                    \/ (cs', EmptyString) = (cs, s)).
    { destruct g.
      - apply in_app_or in H. destruct H as [H|[H|[]]]; auto.
      - destruct H as [H|H]; auto. }
    destruct Hmore as [Hm|He].
    + apply in_flat_map in Hm. destruct Hm as [[cs1 s1] [Hstep Hin]].
      rewrite matches_code in Hstep.
      destruct (Str.decode s) as [[m s2]|] eqn:Hdec; [|destruct Hstep].
      destruct (Str.is_decimal m) eqn:Hm; [|destruct Hstep].
      destruct Hstep as [Hs|[]]. injection Hs as <- <-. cbn [snd fst] in Hin.
      pose proof (decode_shorter _ _ _ Hdec) as Hlt.
      destruct (String.length s2 <? String.length s); [|destruct Hin].
      destruct s as [|c s]; [discriminate|]. cbn [String.length] in Hk, Hlt.
      destruct k as [|k]; [lia|].
      rewrite decimal_run_cons, Hdec, Hm. cbn [andb].
      apply (IH _ _ _ _ Hin). lia.
    + injection He as _ <-. apply decimal_run_nil.
Qed.

(** A run of decimal digits is consumed to its end. *)
Lemma star_code_all : forall n s cs k,
  decimal_run k s = true ->
  String.length s <= n ->
  In (cs, EmptyString) (Re.star_loop (Re.matches (Re.Code Str.is_decimal)) true n s cs).
Proof.
  induction n as [|n IH]; intros s cs k H Hn.
  - destruct s; [|cbn [String.length] in Hn; lia]. now left.
  - rewrite star_loop_succ. cbv zeta. apply in_or_app.
    destruct s as [|c s]; [right; now left|]. left.
    destruct k as [|k]; [discriminate|].
    rewrite decimal_run_cons in H.
    destruct (Str.decode (String c s)) as [[m s2]|] eqn:Hdec; [|discriminate].
    apply andb_true_iff in H. destruct H as [Hm Hrun].
    rewrite matches_code, Hdec, Hm. cbn [flat_map snd fst]. rewrite app_nil_r.
    pose proof (decode_shorter _ _ _ Hdec) as Hlt.
    apply Nat.ltb_lt in Hlt as Hlt'. rewrite Hlt'.
    apply (IH _ _ k Hrun). cbn [String.length] in Hn, Hlt. lia.
Qed.

Lemma decimal_run_more : forall k s k',
  decimal_run k s = true -> k <= k' -> decimal_run k' s = true.
Proof.
  induction k as [|k IH]; intros s k' H Hk.
  - destruct s; [apply decimal_run_nil|discriminate].
  - destruct s as [|c s]; [apply decimal_run_nil|].
    destruct k' as [|k']; [lia|].
    rewrite decimal_run_cons in *.
    destruct (Str.decode (String c s)) as [[m s2]|]; [|discriminate].
    apply andb_true_iff in H. destruct H as [-> H]. cbn [andb].
    apply (IH _ _ H). lia.
Qed.

Lemma append_nil_r : forall s : string, (s ++ EmptyString)%string = s.
Proof. induction s as [|c s IH]; simpl; [reflexivity|now rewrite IH]. Qed.

(** The identifiers [start] accepts are [ACF-] followed by one decimal digit
    or more, and nothing else. *)
Lemma story_id_pattern : forall s,
  Re.fullmatch STORY_ID_RE s = true <->
  exists digits,
    s = ("ACF-" ++ digits)%string
    /\ digits <> EmptyString
    /\ all_decimal digits = true.
Proof.
  intros s. unfold Re.fullmatch, STORY_ID_RE. split.
  - intros H. apply existsb_exists in H. destruct H as [[cs r] [Hin Hr]].
    cbn [snd] in Hr. destruct r; [|discriminate]. clear Hr.
    rewrite matches_seq in Hin. apply in_flat_map in Hin.
    destruct Hin as [[cs1 s1] [Hlit Hrest]]. cbn [snd fst] in Hrest.
    assert (Hs : s = ("ACF-" ++ s1)%string).
    { change (Re.Lit "ACF-")
        with (Re.Seq (Re.Chr "A") (Re.Seq (Re.Chr "C") (Re.Seq (Re.Chr "F")
                (Re.Seq (Re.Chr "-") Re.Eps)))) in Hlit.
      repeat (rewrite matches_seq in Hlit; apply in_flat_map in Hlit;
              destruct Hlit as [[? ?] [Hc Hlit]]; cbn [snd fst] in Hlit;
              destruct s as [|? s]; [destruct Hc|]; rewrite matches_chr_cons in Hc;
              match type of Hc with
              | In _ (if ?b then _ else _) => destruct b eqn:?E; [|destruct Hc]
              end;
              apply Ascii.eqb_eq in E; subst; destruct Hc as [Hc|[]];
              injection Hc as <- <-).
      cbn [Re.matches] in Hlit. destruct Hlit as [Hl|[]]. injection Hl as _ <-.
      reflexivity. }
    exists s1. split; [exact Hs|].
    rewrite matches_seq in Hrest. apply in_flat_map in Hrest.
    destruct Hrest as [[cs2 s2] [Hplus Heol]]. cbn [snd fst] in Heol.
    assert (s2 = EmptyString) as ->.
    { destruct s2 as [|c [|c' s2]]; [reflexivity| |destruct c as [[] [] [] [] [] [] [] []];
                                                      destruct Heol].
      destruct c as [[] [] [] [] [] [] [] []]; try destruct Heol as [Heol|[]];
        try discriminate Heol; destruct Heol. }
    unfold Re.Plus in Hplus. rewrite matches_seq in Hplus. apply in_flat_map in Hplus.
    destruct Hplus as [[cs3 s3] [Hone Hstar]]. cbn [snd fst] in Hstar.
    rewrite matches_code in Hone.
    destruct (Str.decode s1) as [[m s4]|] eqn:Hdec; [|destruct Hone].
    destruct (Str.is_decimal m) eqn:Hm; [|destruct Hone].
    destruct Hone as [Hone|[]]. injection Hone as <- <-.
    pose proof (decode_shorter _ _ _ Hdec) as Hlt.
    destruct s1 as [|d s1]; [discriminate|]. split; [discriminate|].
    unfold all_decimal. cbn [String.length] in *.
    rewrite decimal_run_cons, Hdec, Hm. cbn [andb].
    change (Re.matches (Re.Star true (Re.Code Str.is_decimal)) s4 cs1)
      with (Re.star_loop (Re.matches (Re.Code Str.is_decimal)) true (String.length s4) s4 cs1)
      in Hstar.
    apply (star_code_in _ _ _ _ _ _ Hstar). lia.
  - intros [digits [-> [Hne Hall]]].
    rewrite matches_seq, matches_lit. cbn [flat_map snd fst]. rewrite app_nil_r.
    destruct digits as [|d ds]; [contradiction|].
    unfold all_decimal in Hall. cbn [String.length] in Hall.
    rewrite decimal_run_cons in Hall.
    destruct (Str.decode (String d ds)) as [[m s2]|] eqn:Hdec; [|discriminate].
    apply andb_true_iff in Hall. destruct Hall as [Hm Hrun].
    apply existsb_exists. exists ([], EmptyString). split; [|reflexivity].
    rewrite matches_seq. apply in_flat_map. exists ([], EmptyString). split; [|now left].
    unfold Re.Plus. rewrite matches_seq. apply in_flat_map. exists ([], s2). split.
    + rewrite matches_code, Hdec, Hm. now left.
    + cbn [snd fst].
      change (Re.matches (Re.Star true (Re.Code Str.is_decimal)) s2 [])
        with (Re.star_loop (Re.matches (Re.Code Str.is_decimal)) true (String.length s2) s2 []).
      apply (star_code_all _ _ _ _ Hrun). lia.
Qed.

(** On ASCII the decimal digits are [0] to [9]. *)
Lemma decode_ascii : forall c s,
  Str.in_range 0 127 c = true ->
  Str.decode (String c s) = Some (N.of_nat (Str.code c), s)
  /\ Str.is_decimal (N.of_nat (Str.code c)) = Str.is_digit c.
Proof.
  intros c s H. split.
  - cbn [Str.decode]. cbv zeta. now rewrite H.
  - destruct c as [[] [] [] [] [] [] [] []]; try discriminate H; vm_compute; reflexivity.
Qed.

(** Identifiers the pattern takes and refuses; [text] is the text of a list
    of UTF-8 bytes. *)
Example story_id_samples :
  let text := fun bytes => fold_right (fun n s => String (ascii_of_nat n) s) EmptyString bytes in
  Re.fullmatch STORY_ID_RE "ACF-12" = true
  /\ Re.fullmatch STORY_ID_RE "ACF-12a" = false
  /\ Re.fullmatch STORY_ID_RE "ACF-" = false
  /\ Re.fullmatch STORY_ID_RE ("ACF-12" ++ nl) = false
  (* Arabic-Indic one and two, U+0661 U+0662 *)
  /\ Re.fullmatch STORY_ID_RE ("ACF-" ++ text [217; 161; 217; 162]) = true
  (* Devanagari one, U+0967 *)
  /\ Re.fullmatch STORY_ID_RE ("ACF-" ++ text [224; 165; 167]) = true
  (* fullwidth one, U+FF11, and Arabic-Indic two *)
  /\ Re.fullmatch STORY_ID_RE ("ACF-" ++ text [239; 188; 145; 217; 162]) = true
  (* mathematical bold one, U+1D7CF *)
  /\ Re.fullmatch STORY_ID_RE ("ACF-" ++ text [240; 157; 159; 143]) = true
  (* superscript two, U+00B2, and circled one, U+2460, are no decimal digits *)
  /\ Re.fullmatch STORY_ID_RE ("ACF-" ++ text [194; 178]) = false
  /\ Re.fullmatch STORY_ID_RE ("ACF-" ++ text [226; 145; 160]) = false
  (* e with acute accent, U+00E9 *)
  /\ Re.fullmatch STORY_ID_RE ("ACF-" ++ text [195; 169]) = false.
Proof. cbv zeta. repeat split; vm_compute; reflexivity. Qed.

(** *** Push before pull request *)

Lemma grows_refl : forall S (w : World S), trace_grows w w.
Proof. intros S w. exists []. now rewrite app_nil_r. Qed.

Lemma grows_trans : forall S (w1 w2 w3 : World S),
  trace_grows w1 w2 -> trace_grows w2 w3 -> trace_grows w1 w3.
Proof.
  intros S w1 w2 w3 [t1 H1] [t2 H2]. exists (t1 ++ t2). now rewrite H2, H1, app_assoc.
Qed.

Section Grows.

Context {S : Type} (env : Env S).

Lemma grows_ret : forall A (a : A), respects (@trace_grows S) (ret a).
Proof. intros. apply respects_ret, grows_refl. Qed.

Lemma grows_fail : forall A e, respects (@trace_grows S) (@fail S A e).
Proof. intros. apply respects_fail, grows_refl. Qed.

Lemma grows_lift : forall A (r : Result A), respects (@trace_grows S) (lift r).
Proof. intros. apply respects_lift, grows_refl. Qed.

Lemma grows_lift_opt : forall A e (o : option A), respects (@trace_grows S) (lift_opt e o).
Proof. intros. apply respects_lift_opt, grows_refl. Qed.

Lemma grows_bind : forall A B (m : M S A) (k : A -> M S B),
  respects trace_grows m -> (forall a, respects trace_grows (k a)) ->
  respects trace_grows (bind m k).
Proof. intros. apply respects_bind; auto. apply grows_trans. Qed.

Lemma grows_when : forall b (m : M S unit),
  respects trace_grows m -> respects trace_grows (when b m).
Proof. intros. apply respects_when; auto. apply grows_refl. Qed.

Lemma grows_emit : forall e, respects trace_grows (@emit S e).
Proof. intros e w. exists [e]. reflexivity. Qed.

Lemma grows_print : forall l, respects trace_grows (@print S l).
Proof. intros. apply grows_emit. Qed.

Lemma grows_ensure_dir : forall p, respects trace_grows (@_ensure_dir S p).
Proof. intros. apply grows_emit. Qed.

Lemma grows_now : respects trace_grows (_now_utc_iso env).
Proof. intros w. exists []. simpl. now rewrite app_nil_r. Qed.

Lemma grows_run_live : forall cmd check, respects trace_grows (_run_live env cmd check).
Proof.
  intros cmd check. unfold _run_live. apply grows_bind.
  - apply grows_emit.
  - intros _. destruct (_ && _); [apply grows_fail|apply grows_ret].
Qed.

Lemma grows_git_live : forall a check, respects trace_grows (_git_live env a check).
Proof. intros. apply grows_run_live. Qed.

Lemma grows_write_json : forall p d, respects trace_grows (@_write_json S p d).
Proof.
  intros p d. unfold _write_json. apply grows_bind; [apply grows_ensure_dir|intros _].
  apply grows_bind; [apply grows_emit|intros _ w]. exists []. simpl. now rewrite app_nil_r.
Qed.

Lemma grows_http_json : forall m u h b a, respects trace_grows (_http_json env m u h b a).
Proof.
  intros m u h b a w. unfold _http_json.
  destruct (serve env _ (remote w)) as [reply r'].
  destruct reply; try (eexists; reflexivity).
  exists []. cbn [snd]. now rewrite app_nil_r.
Qed.

End Grows.

Create HintDb grows.
#[export] Hint Resolve grows_ret grows_fail grows_lift grows_lift_opt grows_when
  grows_print grows_ensure_dir grows_now grows_run_live grows_git_live
  grows_write_json grows_http_json : grows.

Ltac step_grows :=
  lazymatch goal with
  | |- respects trace_grows (bind _ _) => apply grows_bind; [|intros]
  | |- respects trace_grows (when _ _) => apply grows_when
  | |- respects trace_grows (if ?b then _ else _) => destruct b eqn:?; try discriminate
  | |- respects trace_grows (match ?x with _ => _ end) => destruct x eqn:?
  | |- respects trace_grows _ => solve [auto with grows]
  end.

Lemma http_after_prefix : forall (tp t' t1 : list Event) e t2,
  Forall (fun x => is_http x = false) tp ->
  is_http e = true ->
  tp ++ t' = t1 ++ e :: t2 ->
  exists t'', t1 = tp ++ t''.
Proof.
  induction tp as [|x tp IH]; intros t' t1 e t2 Hf He H.
  - exists t1. reflexivity.
  - inversion Hf as [|? ? Hx Hf']; subst. destruct t1 as [|y t1].
    + cbn [app] in H. injection H as <- _. congruence.
    + cbn [app] in H. injection H as <- H.
      destruct (IH _ _ _ _ Hf' He H) as [t'' ->]. exists t''. reflexivity.
Qed.

Section PushFirst.

Context {S : Type} (env : Env S).

Lemma grows_start_rest : forall args c,
  respects trace_grows
    (bind (start_integrate env args c) (fun r => start_finish env args c r)).
Proof.
  intros args c. apply grows_bind.
  - unfold start_integrate, start_github, start_azure, _github_find_or_create_issue,
      _github_create_pr, _azure_wiql_find_work_item, _azure_create_work_item,
      _azure_create_pr, _azure_link_work_item_to_pr.
    repeat step_grows.
  - intros [pref st]. unfold start_finish. repeat step_grows.
Qed.

Lemma git_live_ok : forall a (w : World S) u w',
  _git_live env a true w = (Ok u, w') -> trace w' = trace w ++ [Cmd ("git" :: a)].
Proof.
  intros a w u w' H. unfold _git_live, _run_live, bind, emit in H.
  destruct (true && negb (fst (proc env ("git" :: a)) =? 0)%Z); inversion H.
  reflexivity.
Qed.

(** A checked command that comes back has returned 0. *)
Lemma git_live_ok_code : forall a (w : World S) u w',
  _git_live env a true w = (Ok u, w') -> fst (proc env ("git" :: a)) = 0%Z.
Proof.
  intros a w u w' H. unfold _git_live, _run_live, bind, emit in H.
  destruct (fst (proc env ("git" :: a)) =? 0)%Z eqn:E; cbn [andb negb] in H.
  - now apply Z.eqb_eq.
  - discriminate.
Qed.

(** A run of the local part that commits and pushes has pushed the branch
    of the story by the time it is through, and the push has succeeded. *)
Lemma prepared_pushes : forall args (w : World S) c w1,
  start_prepare env args w = (Ok c, w1) ->
  dry_run args = false ->
  commit args = true ->
  push args = true ->
  branch c = ("feature/" ++ story_id args ++ "-" ++ _slugify (story_title c))%string
  /\ In (Cmd ["git"; "push"; "-u"; "origin"; branch c]) (trace w1)
  /\ fst (proc env ["git"; "push"; "-u"; "origin"; branch c]) = 0%Z.
Proof.
  intros args w c w1 H Hd Hc Hp. unfold start_prepare in H. rewrite Hd, Hc, Hp in H.
  cbn [negb andb] in H.
  apply bind_inv in H. destruct H as [root [w2 [_ H]]].
  apply bind_inv in H. destruct H as [fs [w3 [_ H]]].
  apply bind_inv in H. destruct H as [[[file title] content] [w4 [_ H]]].
  apply bind_inv in H. destruct H as [? [w5 [_ H]]].
  apply bind_inv in H. destruct H as [? [w6 [_ H]]].
  apply bind_inv in H. destruct H as [pack [w7 [_ H]]].
  apply bind_inv in H. destruct H as [rel [w8 [_ H]]].
  apply bind_inv in H. destruct H as [created [w9 [_ H]]].
  apply bind_inv in H. destruct H as [? [w10 [_ H]]].
  apply bind_inv in H. destruct H as [? [w11 [Hcommit H]]].
  apply ret_inv in H. destruct H as [-> ->]. cbn [branch story_title].
  unfold when in Hcommit.
  apply bind_inv in Hcommit. destruct Hcommit as [? [v1 [_ Hcommit]]].
  apply bind_inv in Hcommit. destruct Hcommit as [? [v2 [_ Hcommit]]].
  apply bind_inv in Hcommit. destruct Hcommit as [? [v3 [_ Hcommit]]].
  apply bind_inv in Hcommit. destruct Hcommit as [? [v4 [_ Hcommit]]].
  split; [reflexivity|]. split.
  - apply git_live_ok in Hcommit. rewrite Hcommit. apply in_or_app. right. now left.
  - exact (git_live_ok_code _ _ _ _ Hcommit).
Qed.

Lemma branch_refl : forall b (w : World S), branch_step b w w.
Proof. intros b w. exists []. split; [now rewrite app_nil_r|constructor]. Qed.

Lemma branch_trans : forall b (w1 w2 w3 : World S),
  branch_step b w1 w2 -> branch_step b w2 w3 -> branch_step b w1 w3.
Proof.
  intros b w1 w2 w3 [t1 [H1 F1]] [t2 [H2 F2]]. exists (t1 ++ t2). split.
  - now rewrite H2, H1, app_assoc.
  - apply Forall_app. now split.
Qed.

Lemma branch_bind : forall b A B (m : M S A) (k : A -> M S B),
  respects (branch_step b) m -> (forall a, respects (branch_step b) (k a)) ->
  respects (branch_step b) (bind m k).
Proof. intros. apply respects_bind; auto. apply branch_trans. Qed.

Lemma branch_same : forall b A (m : M S A),
  (forall w, trace (snd (m w)) = trace w) -> respects (branch_step b) m.
Proof.
  intros b A m H w. exists []. split; [now rewrite app_nil_r, H|constructor].
Qed.

Lemma branch_emit : forall b e,
  is_http e = false -> respects (branch_step b) (@emit S e).
Proof.
  intros b e He w. exists [e]. split; [reflexivity|].
  constructor; [|constructor]. destruct e; try exact I. discriminate.
Qed.

Lemma branch_run_live : forall b cmd check,
  respects (branch_step b) (_run_live env cmd check).
Proof.
  intros b cmd check. unfold _run_live. apply branch_bind.
  - now apply branch_emit.
  - intros _. destruct (_ && _); apply branch_same; reflexivity.
Qed.

Lemma branch_write_json : forall b p d, respects (branch_step b) (@_write_json S p d).
Proof.
  intros b p d. unfold _write_json, _ensure_dir.
  apply branch_bind; [now apply branch_emit|intros _].
  apply branch_bind; [now apply branch_emit|intros _].
  apply branch_same. reflexivity.
Qed.

Lemma branch_http_json : forall b m u h body_ a,
  merges_only b {| method := m; url := u; headers := h; body := body_ |} = true ->
  respects (branch_step b) (_http_json env m u h body_ a).
Proof.
  intros b m u h body_ a Hb w. unfold _http_json.
  destruct (serve env _ (remote w)) as [reply r'].
  assert (Hsent : branch_step b w
                    {| texts := texts w; jsons := jsons w; remote := r'; ticks := ticks w;
                       trace := trace w ++
                         [Http {| method := m; url := u;
                                  headers :=
                                    match body_ with
                                    | Some _ =>
                                        setdefault "Content-Type" "application/json"
                                          (setdefault "Accept" a h)
                                    | None => setdefault "Accept" a h
                                    end;
                                  body := body_ |}] |}).
  { eexists. split; [reflexivity|]. constructor; [|constructor]. exact Hb. }
  destruct reply; cbn [snd]; try exact Hsent. apply branch_refl.
Qed.

Ltac step_branch :=
  lazymatch goal with
  | |- respects (branch_step _) (bind _ _) => apply branch_bind; [|intros]
  | |- respects (branch_step _) (when _ _) => apply respects_when; [apply branch_refl|]
  | |- respects (branch_step _) (_http_json _ _ _ _ _ _) =>
      apply branch_http_json; cbn [merges_only body Dict.get String.eqb Ascii.eqb Bool.eqb is_str];
      try apply String.eqb_refl; try reflexivity
  | |- respects (branch_step _) (_run_live _ _ _) => apply branch_run_live
  | |- respects (branch_step _) (_git_live _ _ _) => apply branch_run_live
  | |- respects (branch_step _) (_write_json _ _) => apply branch_write_json
  | |- respects (branch_step _) (print _) => apply branch_emit; reflexivity
  | |- respects (branch_step _) (ret _) => apply branch_same; reflexivity
  | |- respects (branch_step _) (fail _) => apply branch_same; reflexivity
  | |- respects (branch_step _) (lift _) => apply branch_same; reflexivity
  | |- respects (branch_step _) (lift_opt _ ?o) => destruct o; apply branch_same; reflexivity
  | |- respects (branch_step _) (if ?b then _ else _) => destruct b eqn:?; try discriminate
  | |- respects (branch_step _) (match ?x with _ => _ end) => destruct x eqn:?
  end.

(** After the local part, every pull request that [start] creates is one
    from the branch of the story. *)
Lemma branch_start_rest : forall args c,
  respects (branch_step (branch c))
    (bind (start_integrate env args c) (fun r => start_finish env args c r)).
Proof.
  intros args c. apply branch_bind.
  - unfold start_integrate, start_github, start_azure, _github_find_or_create_issue,
      _github_create_pr, _azure_wiql_find_work_item, _azure_create_work_item,
      _azure_create_pr, _azure_link_work_item_to_pr.
    repeat step_branch.
  - intros [pref st]. unfold start_finish. repeat step_branch.
Qed.

(** Through [main], a run that is no dry run sends a request only after
    [git push -u origin <branch>] has been run for the branch of the story
    and has succeeded; and a request that creates a pull request creates it
    from that branch. *)
Lemma pr_only_after_push : forall args (w : World S) t1 req t2,
  dry_run args = false ->
  trace w = [] ->
  trace (snd (main env (Start args) w)) = t1 ++ Http req :: t2 ->
  exists c w1,
    push args = true
    /\ start_prepare env (with_commit args) w = (Ok c, w1)
    /\ branch c = ("feature/" ++ story_id args ++ "-" ++ _slugify (story_title c))%string
    /\ In (Cmd ["git"; "push"; "-u"; "origin"; branch c]) t1
    /\ fst (proc env ["git"; "push"; "-u"; "origin"; branch c]) = 0%Z
    /\ merges_only (branch c) req = true.
Proof.
  intros args w t1 req t2 Hd Hw H. cbn [main] in H.
  destruct (push args) eqn:Hp.
  - set (args' := with_commit args) in *.
    unfold cmd_start in H.
    pose proof (offline_start_prepare env args' w) as Hoff.
    destruct (start_prepare env args' w) as [[c|e] w1] eqn:Hprep.
    + rewrite (bind_ok _ _ _ _ _ _ _ _ Hprep) in H.
      destruct (prepared_pushes args' w c w1 Hprep Hd eq_refl Hp) as [Hb [Hpush Hcode]].
      destruct Hoff as [_ [tp [Htp Hf]]]. cbn [snd] in Htp. rewrite Hw in Htp.
      cbn [app] in Htp.
      destruct (branch_start_rest args' c w1) as [t' [Ht' Hall]]. rewrite Ht', Htp in H.
      destruct (http_after_prefix tp t' t1 (Http req) t2 Hf eq_refl H) as [t'' ->].
      exists c, w1. split; [reflexivity|]. split; [reflexivity|].
      split; [exact Hb|]. split; [|split; [exact Hcode|]].
      * apply in_or_app. left. now rewrite <- Htp.
      * rewrite <- app_assoc in H. apply app_inv_head in H.
        rewrite Forall_forall in Hall.
        apply (Hall (Http req)). rewrite H. apply in_or_app. right. now left.
    + rewrite (bind_err _ _ _ _ _ _ _ _ Hprep) in H. cbn [snd] in H.
      destruct Hoff as [_ [tp [Htp Hf]]]. cbn [snd] in Htp. rewrite Hw in Htp.
      cbn [app] in Htp. rewrite Htp in H. rewrite H in Hf.
      apply Forall_app in Hf. destruct Hf as [_ Hf]. inversion Hf. discriminate.
  - destruct (offline_cmd_start env args (or_intror Hp) w) as [_ [t [Ht Hf]]].
    rewrite Hw in Ht. cbn [app] in Ht. rewrite Ht in H. rewrite H in Hf.
    apply Forall_app in Hf. destruct Hf as [_ Hf]. inversion Hf. discriminate.
Qed.

End PushFirst.

(** C2. A pull request is created only after its source branch was pushed.
    In a run that is no dry run, every HTTP request comes after
    [git push -u origin <branch>] was run for the branch of the story,
    [feature/<id>-<slug of the title>], and returned 0; and a request that
    creates a pull request ([head] on GitHub, [sourceRefName] on Azure
    DevOps) creates it from that branch.  When the push flag is not set
    such a run sends no HTTP request at all, and once the local steps are
    through and the credentials of the chosen provider (GitHub or Azure
    DevOps) are there it fails with PushRequired, the world being as the
    local steps left it. *)
Theorem push_required_before_pr :
  forall S (env : Env S) (args : Args) (w : World S),
    dry_run args = false ->
    (trace w = [] ->
     forall t1 req t2,
       trace (snd (main env (Start args) w)) = t1 ++ Http req :: t2 ->
       exists c w1,
         push args = true
         /\ start_prepare env (with_commit args) w = (Ok c, w1)
         /\ branch c
            = ("feature/" ++ story_id args ++ "-" ++ _slugify (story_title c))%string
         /\ In (Cmd ["git"; "push"; "-u"; "origin"; branch c]) t1
         /\ fst (proc env ["git"; "push"; "-u"; "origin"; branch c]) = 0%Z
         /\ merges_only (branch c) req = true)
    /\ (push args = false ->
        offline_step w (snd (cmd_start env args w))
        /\ forall c w1,
             start_prepare env args w = (Ok c, w1) ->
             integration_ready env args (effective_provider c) = true ->
             cmd_start env args w = (Err PushRequired, w1)
             /\ (effective_provider c = "github"
                 \/ effective_provider c = "azuredevops")).
Proof.
  intros S env args w Hd. split.
  - intros Hw t1 req t2 H. exact (pr_only_after_push env args w t1 req t2 Hd Hw H).
  - intros Hp. split.
    + apply offline_cmd_start. now right.
    + intros c w1 Hprep Hready. split.
      * unfold cmd_start. rewrite (bind_ok _ _ _ _ _ _ _ _ Hprep).
        apply bind_err. now apply start_integrate_push_required.
      * unfold integration_ready in Hready.
        destruct (String.eqb (effective_provider c) "github") eqn:E1.
        -- left. now apply String.eqb_eq.
        -- destruct (String.eqb (effective_provider c) "azuredevops") eqn:E2;
             [|discriminate]. right. now apply String.eqb_eq.
Qed.

Lemma push_required_before_pr_witness :
  (cmd_start Demo.github_env Demo.token_args Demo.world
   = (Err PushRequired, snd Demo.prepared)
   /\ (effective_provider Demo.prepared_ctx = "github"
       \/ effective_provider Demo.prepared_ctx = "azuredevops"))
  /\ (exists c w1,
        push Demo.push_args = true
        /\ start_prepare (Demo.search_env [Demo.issue 7]) (with_commit Demo.push_args)
             Demo.world
           = (Ok c, w1)
        /\ branch c
           = ("feature/" ++ story_id Demo.push_args ++ "-" ++ _slugify (story_title c))%string
        /\ In (Cmd ["git"; "push"; "-u"; "origin"; branch c]) Demo.before_pr
        /\ fst (proc (Demo.search_env [Demo.issue 7])
                  ["git"; "push"; "-u"; "origin"; branch c]) = 0%Z
        /\ merges_only (branch c) Demo.pr_request = true)
  /\ (url Demo.pr_request = "https://api.github.com/repos/acme/widgets/pulls"
      /\ match body Demo.pr_request with
         | Some (JObj d) => Dict.get "head" d
         | _ => None
         end = Some (JStr "feature/ACF-1-hello-world-foo")).
Proof.
  split; [|split].
  - apply (proj2 (proj2 (push_required_before_pr unit Demo.github_env Demo.token_args
                           Demo.world eq_refl) eq_refl)).
    + vm_compute; reflexivity.
    + vm_compute; reflexivity.
  - apply (proj1 (push_required_before_pr unit (Demo.search_env [Demo.issue 7])
                    Demo.push_args Demo.world eq_refl) eq_refl
             Demo.before_pr Demo.pr_request Demo.after_pr).
    vm_compute; reflexivity.
  - split; vm_compute; reflexivity.
Defined.

(* ================================================================== *)
(** ** Further properties of the script                                *)
(* ================================================================== *)

(** *** The alphabet of a slug *)

Lemma star_loop_nonempty : forall step g n s cs,
  Re.star_loop step g n s cs <> [].
Proof.
  intros step g [|n] s cs; [discriminate|].
  rewrite star_loop_succ. cbv zeta. destruct g; [|discriminate].
  intros H. apply app_eq_nil in H. destruct H; discriminate.
Qed.

Lemma length_append : forall a b : string,
  String.length (a ++ b) = String.length a + String.length b.
Proof. induction a as [|c a IH]; intros b; simpl; [reflexivity|now rewrite IH]. Qed.

Lemma forallb_append : forall p a b,
  Str.forallb p (a ++ b) = Str.forallb p a && Str.forallb p b.
Proof.
  intros p a b. induction a as [|c a IH]; simpl; [reflexivity|].
  now rewrite IH, andb_assoc.
Qed.

Lemma forallb_weaken : forall (p q : ascii -> bool) s,
  (forall c, p c = true -> q c = true) ->
  Str.forallb p s = true -> Str.forallb q s = true.
Proof.
  intros p q s Hpq. induction s as [|c s IH]; simpl; [reflexivity|].
  intros H. apply andb_true_iff in H. destruct H as [Hc Hs].
  now rewrite (Hpq c Hc), IH.
Qed.

Lemma forallb_take : forall p n s,
  Str.forallb p s = true -> Str.forallb p (Str.take n s) = true.
Proof.
  intros p. induction n as [|n IH]; intros s H; [reflexivity|].
  destruct s as [|c s]; [reflexivity|]. simpl in *.
  apply andb_true_iff in H. destruct H as [Hc Hs]. now rewrite Hc, IH.
Qed.

(** A substitution keeps a property that the text and the replacement have. *)
Lemma forallb_sub_from : forall p r repl s k,
  Str.forallb p repl = true ->
  Str.forallb p s = true ->
  Str.forallb p (Re.sub_from r repl k s) = true.
Proof.
  intros p r repl s. induction s as [|c s IH]; intros k Hrepl H; [reflexivity|].
  simpl in H. apply andb_true_iff in H. destruct H as [Hc Hs].
  destruct k as [|k]; [|now apply IH].
  rewrite sub_from_zero_cons.
  destruct (Re.matches r (String c s) []) as [|x xs].
  - simpl. now rewrite Hc, IH.
  - destruct (String.length (String c s) - String.length (snd x)).
    + simpl. now rewrite Hc, IH.
    + rewrite forallb_append, Hrepl. now apply IH.
Qed.

(** Every character that is no letter and no digit goes. *)
Lemma forallb_sub_non_alnum : forall s k,
  Str.forallb alnum_or_dash (Re.sub_from NON_ALNUM_RUN "-" k s) = true.
Proof.
  induction s as [|c s IH]; intros k; [reflexivity|].
  destruct k as [|k]; [|apply IH].
  rewrite sub_from_zero_cons. unfold NON_ALNUM_RUN at 1.
  rewrite matches_plus_class_cons.
  destruct (negb (Str.is_alnum c)) eqn:Hc.
  - destruct (Re.star_loop
                (Re.matches (Re.Class (fun c0 => negb (Str.is_alnum c0))))
                true (String.length s) s []) as [|[cs r] xs] eqn:Hl.
    + now apply star_loop_nonempty in Hl.
    + assert (Hin : In (cs, r)
                      (Re.star_loop
                         (Re.matches (Re.Class (fun c0 => negb (Str.is_alnum c0))))
                         true (String.length s) s []))
        by (rewrite Hl; now left).
      apply star_class_in in Hin. destruct Hin as [pre [Hs _]].
      cbn [snd String.length].
      assert (Hlen : String.length s = String.length pre + String.length r)
        by (rewrite Hs at 1; apply length_append).
      replace (Datatypes.S (String.length s) - String.length r)
        with (Datatypes.S (String.length pre)) by lia.
      change (Str.forallb alnum_or_dash
                (String "-" (Re.sub_from NON_ALNUM_RUN "-" (String.length pre) s)) = true).
      cbn [Str.forallb]. rewrite IH. reflexivity.
  - cbn [Str.forallb]. rewrite IH.
    apply negb_false_iff in Hc. unfold alnum_or_dash. now rewrite Hc.
Qed.

Lemma slug_char_lower : forall c,
  alnum_or_dash c = true -> slug_char (Str.lower_char c) = true.
Proof.
  intros c. destruct c as [[] [] [] [] [] [] [] []]; vm_compute; auto.
Qed.

Lemma forallb_lower : forall s,
  Str.forallb alnum_or_dash s = true -> Str.forallb slug_char (Str.lower s) = true.
Proof.
  unfold Str.lower. induction s as [|c s IH]; simpl; [reflexivity|]. intros H.
  apply andb_true_iff in H. destruct H as [Hc Hs].
  now rewrite (slug_char_lower c Hc), IH.
Qed.

Lemma slug_of_chars : forall text n,
  Str.forallb slug_char (slug_of text n) = true.
Proof.
  intros text n. unfold slug_of. apply forallb_take.
  apply forallb_sub_from; [reflexivity|].
  apply forallb_lower. unfold Str.strip_chars, Str.strip_by.
  apply forallb_rstrip, forallb_lstrip. apply forallb_sub_non_alnum.
Qed.

(** *** Where a slug starts *)

Lemma lstrip_head : forall p s,
  match Str.lstrip p s with
  | EmptyString => True
  | String c _ => p c = false
  end.
Proof.
  intros p s. induction s as [|c s IH]; simpl; [exact I|].
  destruct (p c) eqn:Hc; [exact IH|exact Hc].
Qed.

Lemma rstrip_head : forall p c s,
  Str.rstrip p (String c s) = EmptyString
  \/ exists r, Str.rstrip p (String c s) = String c r.
Proof.
  intros p c s. simpl.
  destruct (Str.is_empty (Str.rstrip p s) && p c); [now left|right; eauto].
Qed.

Lemma strip_by_head : forall p s,
  match Str.strip_by p s with
  | EmptyString => True
  | String c _ => p c = false
  end.
Proof.
  intros p s. unfold Str.strip_by.
  pose proof (lstrip_head p s) as H.
  destruct (Str.lstrip p s) as [|c l]; [exact I|].
  destruct (rstrip_head p c l) as [->|[r ->]]; [exact I|exact H].
Qed.

Lemma lower_char_dash : forall c,
  Ascii.eqb "-" (Str.lower_char c) = Ascii.eqb "-" c.
Proof. intros c. destruct c as [[] [] [] [] [] [] [] []]; reflexivity. Qed.

Lemma slug_of_head : forall text n, no_leading_dash (slug_of text n) = true.
Proof.
  intros text n. unfold slug_of, Str.strip_chars.
  pose proof (strip_by_head (Str.mem "-") (Re.sub NON_ALNUM_RUN "-" (Str.strip text)))
    as H.
  destruct (Str.strip_by (Str.mem "-") (Re.sub NON_ALNUM_RUN "-" (Str.strip text)))
    as [|c s]; [now destruct n|].
  assert (Hc : Ascii.eqb "-" c = false).
  { unfold Str.mem in H. cbn [Str.existsb] in H. rewrite orb_false_r in H.
    now rewrite Ascii.eqb_sym. }
  cbn [Str.lower Str.map]. fold (Str.lower s). unfold Re.sub.
  rewrite sub_from_zero_cons. unfold DASH_RUN at 1.
  rewrite matches_seq, matches_chr_cons, lower_char_dash, Hc.
  cbn [flat_map]. destruct n as [|n]; [reflexivity|].
  cbn [Str.take]. unfold no_leading_dash. cbn [Str.startswith].
  now rewrite lower_char_dash, Hc.
Qed.

(** X1. The slug of every text is a non-empty word over the lower-case
    letters, the digits and the dash, and it does not start with a dash: so
    is the last component of the branch name [feature/<id>-<slug>]. *)
Theorem slugify_alphabet : forall text,
  _slugify text <> EmptyString
  /\ Str.forallb slug_char (_slugify text) = true
  /\ no_leading_dash (_slugify text) = true.
Proof.
  intros text. unfold _slugify, _slugify_len, Str.or_else.
  destruct (slug_of text 40) as [|c s] eqn:Hs; cbn [Str.truthy Str.is_empty negb].
  - split; [discriminate|]. split; reflexivity.
  - split; [discriminate|]. rewrite <- Hs. split.
    + apply slug_of_chars.
    + apply slug_of_head.
Qed.

(** *** Replacing one character *)

Lemma replace_char_cons : forall c new d s,
  Str.replace_from (String c EmptyString) new 0 (String d s) =
  if Ascii.eqb c d
  then (new ++ Str.replace_from (String c EmptyString) new 0 s)%string
  else String d (Str.replace_from (String c EmptyString) new 0 s).
Proof.
  intros c new d s. cbn [Str.replace_from Str.startswith String.length Nat.sub].
  rewrite andb_true_r. reflexivity.
Qed.

Lemma forallb_replace_char : forall p c new s,
  Str.forallb p new = true ->
  Str.forallb (fun d => Ascii.eqb c d || p d) s = true ->
  Str.forallb p (Str.replace (String c EmptyString) new s) = true.
Proof.
  intros p c new s Hnew. unfold Str.replace. cbn [Str.is_empty].
  induction s as [|d s IH]; intros H; [reflexivity|].
  cbn [Str.forallb] in H. apply andb_true_iff in H. destruct H as [Hd Hs].
  rewrite replace_char_cons. destruct (Ascii.eqb c d).
  - rewrite forallb_append, Hnew. now apply IH.
  - cbn [Str.forallb]. cbn [orb] in Hd. rewrite Hd. now apply IH.
Qed.

Lemma replace_char_absent : forall c new s,
  Str.forallb (fun d => negb (Ascii.eqb c d)) s = true ->
  Str.replace (String c EmptyString) new s = s.
Proof.
  intros c new s. unfold Str.replace. cbn [Str.is_empty].
  induction s as [|d s IH]; intros H; [reflexivity|].
  cbn [Str.forallb] in H. apply andb_true_iff in H. destruct H as [Hd Hs].
  rewrite replace_char_cons. apply negb_true_iff in Hd. rewrite Hd.
  now rewrite IH.
Qed.

Lemma forallb_all : forall (p : ascii -> bool) s,
  (forall c, p c = true) -> Str.forallb p s = true.
Proof.
  intros p s H. induction s as [|c s IH]; simpl; [reflexivity|]. now rewrite H, IH.
Qed.

(** X2. [_html_escape] leaves none of [<], [>], the double and the single
    quote in its result, whatever the text; and a text that has none of these
    and no ampersand is returned as it is. *)
Theorem html_escape_safe : forall s,
  Str.existsb html_special (_html_escape s) = false
  /\ (Str.forallb html_plain s = true -> _html_escape s = s).
Proof.
  intros s. split.
  - assert (H : Str.forallb (fun c => negb (html_special c)) (_html_escape s) = true).
    { unfold _html_escape.
      apply forallb_replace_char; [reflexivity|].
      apply forallb_weaken
        with (p := fun d => negb (Ascii.eqb d "<" || Ascii.eqb d ">" || Ascii.eqb d "034")).
      { intros c. destruct c as [[] [] [] [] [] [] [] []]; vm_compute; auto. }
      apply forallb_replace_char; [reflexivity|].
      apply forallb_weaken
        with (p := fun d => negb (Ascii.eqb d "<" || Ascii.eqb d ">")).
      { intros c. destruct c as [[] [] [] [] [] [] [] []]; vm_compute; auto. }
      apply forallb_replace_char; [reflexivity|].
      apply forallb_weaken with (p := fun d => negb (Ascii.eqb d "<")).
      { intros c. destruct c as [[] [] [] [] [] [] [] []]; vm_compute; auto. }
      apply forallb_replace_char; [reflexivity|].
      apply forallb_all.
      intros c. destruct c as [[] [] [] [] [] [] [] []]; reflexivity. }
    induction (_html_escape s) as [|c t IH]; [reflexivity|].
    cbn [Str.forallb Str.existsb] in *. apply andb_true_iff in H.
    destruct H as [Hc Ht]. apply negb_true_iff in Hc. now rewrite Hc, IH.
  - intros H. unfold _html_escape.
    assert (Hw : forall q : ascii -> bool,
               (forall c, html_plain c = true -> q c = true) ->
               Str.forallb q s = true).
    { intros q Hq. now apply forallb_weaken with (p := html_plain). }
    rewrite (replace_char_absent "&" "&amp;" s).
    2:{ apply Hw. intros c. destruct c as [[] [] [] [] [] [] [] []]; vm_compute; auto. }
    rewrite (replace_char_absent "<" "&lt;" s).
    2:{ apply Hw. intros c. destruct c as [[] [] [] [] [] [] [] []]; vm_compute; auto. }
    rewrite (replace_char_absent ">" "&gt;" s).
    2:{ apply Hw. intros c. destruct c as [[] [] [] [] [] [] [] []]; vm_compute; auto. }
    rewrite (replace_char_absent "034" "&quot;" s).
    2:{ apply Hw. intros c. destruct c as [[] [] [] [] [] [] [] []]; vm_compute; auto. }
    apply replace_char_absent.
    apply Hw. intros c. destruct c as [[] [] [] [] [] [] [] []]; vm_compute; auto.
Qed.

Lemma html_escape_safe_witness :
  _html_escape "a plain line" = "a plain line".
Proof. apply (proj2 (html_escape_safe "a plain line")). reflexivity. Defined.

(** *** Percent-encoding loses nothing *)

Lemma hex_digit_inj : forall n m,
  n < 16 -> m < 16 -> hex_digit n = hex_digit m -> n = m.
Proof.
  intros n m Hn Hm.
  do 16 (destruct n as [|n]; [do 16 (destruct m as [|m]; [vm_compute; congruence|]); lia|]).
  lia.
Qed.

Lemma code_inj : forall c d, Str.code c = Str.code d -> c = d.
Proof.
  intros c d H. unfold Str.code in H.
  rewrite <- (ascii_nat_embedding c), <- (ascii_nat_embedding d). now rewrite H.
Qed.

Lemma code_bound : forall c, Str.code c < 256.
Proof. intros c. unfold Str.code. apply nat_ascii_bounded. Qed.

Lemma hex_pair_inj : forall c d,
  hex_digit (Str.code c / 16) = hex_digit (Str.code d / 16) ->
  hex_digit (Str.code c mod 16) = hex_digit (Str.code d mod 16) ->
  c = d.
Proof.
  intros c d Hq Hr. pose proof (code_bound c). pose proof (code_bound d).
  apply hex_digit_inj in Hq;
    [|apply Nat.Div0.div_lt_upper_bound; lia|apply Nat.Div0.div_lt_upper_bound; lia].
  apply hex_digit_inj in Hr; [|apply Nat.mod_upper_bound; lia|apply Nat.mod_upper_bound; lia].
  apply code_inj.
  rewrite (Nat.div_mod_eq (Str.code c) 16), (Nat.div_mod_eq (Str.code d) 16).
  now rewrite Hq, Hr.
Qed.

Lemma percent_unsafe : url_safe "%" = false.
Proof. reflexivity. Qed.

Lemma quote_inj : forall a b, quote a = quote b -> a = b.
Proof.
  induction a as [|c a IH]; intros b H.
  - destruct b as [|d b]; [reflexivity|]. rewrite quote_cons in H.
    cbn [quote] in H. destruct (url_safe d); discriminate.
  - destruct b as [|d b].
    + rewrite quote_cons in H. cbn [quote] in H. destruct (url_safe c); discriminate.
    + rewrite !quote_cons in H.
      destruct (url_safe c) eqn:Hc; destruct (url_safe d) eqn:Hd.
      * injection H as -> H. now rewrite (IH b H).
      * injection H as -> _. rewrite percent_unsafe in Hc. discriminate.
      * injection H as <- _. rewrite percent_unsafe in Hd. discriminate.
      * injection H as Hq Hr H. rewrite (hex_pair_inj c d Hq Hr).
        now rewrite (IH b H).
Qed.

Lemma quote_safe : forall s, Str.forallb url_safe s = true -> quote s = s.
Proof.
  induction s as [|c s IH]; [reflexivity|]. cbn [Str.forallb]. intros H.
  apply andb_true_iff in H. destruct H as [Hc Hs].
  rewrite quote_cons, Hc. now rewrite IH.
Qed.

(** X3. Percent-encoding is faithful: two texts with the same encoding are
    the same text, so the URLs and the artifact link the script builds from
    a project or a repository name tell the names apart; a text of
    unreserved characters and slashes is its own encoding; and the encoding
    of any text is made of such characters and [%] only. *)
Theorem quote_faithful :
  (forall a b, quote a = quote b -> a = b)
  /\ (forall s, Str.forallb url_safe s = true -> quote s = s)
  /\ (forall s, Str.forallb quoted_char (quote s) = true).
Proof.
  split; [exact quote_inj|]. split; [exact quote_safe|exact quote_chars].
Qed.

Lemma quote_faithful_witness :
  ("a b" = "a b") /\ quote "acme/widgets" = "acme/widgets".
Proof.
  split.
  - apply (proj1 quote_faithful "a b" "a b"). reflexivity.
  - apply (proj1 (proj2 quote_faithful) "acme/widgets"). reflexivity.
Defined.

(** *** Finding the story *)

Lemma lookup_in : forall A p (v : A) fs,
  In (p, v) fs -> exists c, Fs.lookup p fs = Some c.
Proof.
  intros A p v fs. induction fs as [|[q u] fs IH]; intros H; [destruct H|].
  simpl. destruct (String.eqb p q) eqn:E; [eauto|].
  destruct H as [H|H]; [|auto]. injection H as -> _.
  rewrite String.eqb_refl in E. discriminate.
Qed.

Lemma rglob_md_lookup : forall dir fs p,
  In p (Fs.rglob_md dir fs) -> exists c, Fs.lookup p fs = Some c.
Proof.
  intros dir fs p H. unfold Fs.rglob_md in H. apply in_map_iff in H.
  destruct H as [[q v] [Hq H]]. simpl in Hq. subst q.
  apply filter_In in H. destruct H as [H _]. eapply lookup_in; eauto.
Qed.

Lemma or_else_truthy : forall a b, b <> EmptyString -> Str.or_else a b <> EmptyString.
Proof. intros a b Hb. unfold Str.or_else. destruct a; simpl; [exact Hb|discriminate]. Qed.

Lemma effective_title_nonempty : forall content id,
  effective_title content id <> EmptyString.
Proof.
  intros content id. unfold effective_title.
  apply or_else_truthy, or_else_truthy. discriminate.
Qed.

(** X4. How [_parse_story] finds the story of a valid identifier.  The file
    [<stories_dir>/<id>.md] is the story whenever it exists, whatever else
    the directory holds; otherwise the story is a [*.md] file under the
    directory whose text mentions the identifier; NotFound is raised exactly
    when there is neither.  What is returned is the text of the file at the
    returned path, and a title that is never empty. *)
Theorem parse_story_resolution : forall fs dir id,
  Re.fullmatch STORY_ID_RE id = true ->
  let direct := path_join dir (id ++ ".md")%string in
  (forall content,
     Fs.lookup direct fs = Some content ->
     _parse_story fs dir id = Ok (direct, effective_title content id, content))
  /\ (forall path title content,
        _parse_story fs dir id = Ok (path, title, content) ->
        Fs.lookup path fs = Some content
        /\ title = effective_title content id
        /\ title <> EmptyString
        /\ (path = direct
            \/ (Fs.lookup direct fs = None
                /\ In path (Fs.rglob_md dir fs)
                /\ Str.contains id content = true)))
  /\ (_parse_story fs dir id = Err NotFound <->
      Fs.lookup direct fs = None
      /\ forall p c, In p (Fs.rglob_md dir fs) -> Fs.lookup p fs = Some c ->
                     Str.contains id c = false).
Proof.
  intros fs dir id Hid direct. unfold _parse_story. rewrite Hid. cbn [negb].
  fold direct. unfold Fs.exists_.
  split; [|split].
  - intros content H. rewrite H. rewrite H. reflexivity.
  - intros path title content H.
    destruct (Fs.lookup direct fs) as [c0|] eqn:Hdirect.
    + rewrite Hdirect in H. injection H as <- <- <-.
      split; [exact Hdirect|]. split; [reflexivity|].
      split; [apply effective_title_nonempty|now left].
    + destruct (find (fun p => Str.contains id (opt_str (Fs.lookup p fs)))
                  (Fs.rglob_md dir fs)) as [p|] eqn:Hfind.
      * apply find_some in Hfind. destruct Hfind as [Hin Hc].
        destruct (Fs.lookup p fs) as [c|] eqn:Hp; [|discriminate].
        injection H as <- <- <-.
        split; [exact Hp|]. split; [reflexivity|].
        split; [apply effective_title_nonempty|]. right. auto.
      * rewrite Hdirect in H. discriminate.
  - split.
    + intros H. destruct (Fs.lookup direct fs) as [c0|] eqn:Hdirect.
      { rewrite Hdirect in H. discriminate. }
      split; [reflexivity|]. intros p c Hin Hp.
      destruct (find (fun p => Str.contains id (opt_str (Fs.lookup p fs)))
                  (Fs.rglob_md dir fs)) as [q|] eqn:Hfind.
      * apply find_some in Hfind. destruct Hfind as [Hq _].
        apply rglob_md_lookup in Hq. destruct Hq as [c1 Hq]. rewrite Hq in H.
        discriminate.
      * pose proof (find_none _ _ Hfind p Hin) as Hn. cbv beta in Hn.
        now rewrite Hp in Hn.
    + intros [Hdirect Hnone]. rewrite Hdirect.
      destruct (find (fun p => Str.contains id (opt_str (Fs.lookup p fs)))
                  (Fs.rglob_md dir fs)) as [q|] eqn:Hfind.
      * apply find_some in Hfind. destruct Hfind as [Hq Hc].
        destruct (rglob_md_lookup _ _ _ Hq) as [c1 Hq1].
        rewrite Hq1 in Hc. simpl in Hc. rewrite (Hnone q c1 Hq Hq1) in Hc.
        discriminate.
      * now rewrite Hdirect.
Qed.

Lemma parse_story_resolution_witness :
  _parse_story [("/r/s/deep/notes.md", "about ACF-7"); ("/r/s/ACF-7.md", "# ACF-7: Seven")]
    "/r/s" "ACF-7"
  = Ok ("/r/s/ACF-7.md", effective_title "# ACF-7: Seven" "ACF-7", "# ACF-7: Seven").
Proof.
  apply (proj1 (parse_story_resolution
                  [("/r/s/deep/notes.md", "about ACF-7"); ("/r/s/ACF-7.md", "# ACF-7: Seven")]
                  "/r/s" "ACF-7" eq_refl)).
  reflexivity.
Defined.

(** *** The work tree check *)

Lemma filter_nil_existsb : forall A (f : A -> bool) l,
  match filter f l with [] => existsb f l = false | _ :: _ => existsb f l = true end.
Proof.
  intros A f l. induction l as [|x l IH]; simpl; [reflexivity|].
  destruct (f x); [reflexivity|exact IH].
Qed.

Lemma filter_filter : forall A (f g : A -> bool) l,
  filter g (filter f l) = filter (fun x => f x && g x) l.
Proof.
  intros A f g l. induction l as [|x l IH]; simpl; [reflexivity|].
  destruct (f x); simpl; [destruct (g x); now rewrite IH|exact IH].
Qed.

Lemma existsb_dirty_line : forall allow lines,
  existsb (dirty_line allow) lines =
  if allow
  then existsb (fun l => Str.truthy (Str.strip l) && negb (Str.startswith "?? " l)) lines
  else existsb (fun l => Str.truthy (Str.strip l)) lines.
Proof.
  intros allow lines. destruct allow.
  - reflexivity.
  - induction lines as [|l ls IH]; [reflexivity|].
    cbn [existsb]. rewrite IH. unfold dirty_line. cbn [andb negb].
    now rewrite andb_true_r.
Qed.

Lemma existsb_and_false : forall A (f g : A -> bool) l,
  existsb f l = false -> existsb (fun x => f x && g x) l = false.
Proof.
  intros A f g l. induction l as [|x l IH]; simpl; [reflexivity|].
  intros H. apply orb_false_iff in H. destruct H as [Hx Hl].
  now rewrite Hx, IH.
Qed.

Lemma clean_worktree_lines : forall allow lines,
  match filter (fun l => Str.truthy (Str.strip l)) lines with
  | [] => Ok tt
  | _ :: _ =>
      if (allow : bool) then
        match filter (fun l => negb (Str.startswith "?? " l))
                (filter (fun l => Str.truthy (Str.strip l)) lines) with
        | [] => Ok tt
        | _ :: _ => Err DirtyWorktree
        end
      else Err DirtyWorktree
  end
  = if existsb (dirty_line allow) lines then Err DirtyWorktree else Ok tt.
Proof.
  intros allow lines. rewrite filter_filter.
  pose proof (filter_nil_existsb _ (fun l => Str.truthy (Str.strip l)) lines) as H1.
  pose proof (filter_nil_existsb _
                (fun l => Str.truthy (Str.strip l) && negb (Str.startswith "?? " l))
                lines) as H2.
  pose proof (existsb_dirty_line allow lines) as E.
  rewrite E.
  destruct (filter (fun l => Str.truthy (Str.strip l)) lines) as [|a la].
  - destruct allow; [|now rewrite H1].
    now rewrite (existsb_and_false _ _ (fun l => negb (Str.startswith "?? " l)) lines H1).
  - destruct allow; [|now rewrite H1].
    destruct (filter _ lines); now rewrite H2.
Qed.

Lemma require_clean_worktree_eq : forall S (env : Env S) allow out,
  proc env STATUS_QUERY = (0%Z, out) ->
  _require_clean_worktree env allow =
  if existsb (dirty_line allow) (Str.splitlines out) then Err DirtyWorktree else Ok tt.
Proof.
  intros S env allow out H. unfold _require_clean_worktree, _git, _run.
  change ("git" :: ["status"; "--porcelain"]) with STATUS_QUERY. rewrite H.
  cbn [fst snd Z.eqb negb andb]. apply clean_worktree_lines.
Qed.

(** X5. The work tree check.  When [git status --porcelain] succeeds, the
    check fails with DirtyWorktree exactly when its output has a line that
    is not blank and, with [--allow-untracked], is not the [?? ] entry of an
    untracked file; when the command fails, so does the check. *)
Theorem require_clean_worktree_spec : forall S (env : Env S) allow,
  (forall out,
     proc env STATUS_QUERY = (0%Z, out) ->
     _require_clean_worktree env allow =
     if existsb (dirty_line allow) (Str.splitlines out)
     then Err DirtyWorktree else Ok tt)
  /\ (fst (proc env STATUS_QUERY) <> 0%Z ->
      _require_clean_worktree env allow = Err (CommandFailed STATUS_QUERY)).
Proof.
  intros S env allow. split.
  - intros out H. now apply require_clean_worktree_eq.
  - intros H. unfold _require_clean_worktree, _git, _run.
    change ("git" :: ["status"; "--porcelain"]) with STATUS_QUERY.
    apply Z.eqb_neq in H. rewrite H. reflexivity.
Qed.

(** *** [start] before its first effect *)

Section StartEarly.
Context {S : Type} (env : Env S).

Lemma start_prepare_no_story : forall args (w : World S) root e,
  _repo_root env = Ok root ->
  _parse_story (texts w) (path_join root (stories_dir args)) (story_id args) = Err e ->
  start_prepare env args w = (Err e, w).
Proof.
  intros args w root e Hroot Hparse. unfold start_prepare.
  cbv [bind lift get_texts]. rewrite Hroot. cbv iota beta. rewrite Hparse. reflexivity.
Qed.

Lemma start_prepare_dirty : forall args (w : World S) root r e,
  _repo_root env = Ok root ->
  _parse_story (texts w) (path_join root (stories_dir args)) (story_id args) = Ok r ->
  dry_run args = false ->
  _require_clean_worktree env (allow_untracked args) = Err e ->
  start_prepare env args w = (Err e, w).
Proof.
  intros args w root [[file title] content] e Hroot Hparse Hd Hclean.
  unfold start_prepare. rewrite Hd.
  cbv [bind lift get_texts when negb]. rewrite Hroot. cbv iota beta.
  rewrite Hparse. cbv iota beta. rewrite Hclean. reflexivity.
Qed.

End StartEarly.

(** X6. [start] checks before it acts, the stories directory being given
    as a plain relative path ([artifacts/stories], the default, is one).
    When no story is found for the identifier the run fails with NotFound,
    and when the run is no dry run and [git status --porcelain] reports a
    line that counts as dirty it fails with DirtyWorktree; in both cases no
    live command was run, nothing was written and nothing was sent: the
    world is as it was. *)
Theorem start_checks_first : forall S (env : Env S) args (w : World S) root,
  _repo_root env = Ok root ->
  plain_path (stories_dir args) = true ->
  (_parse_story (texts w) (path_join root (stories_dir args)) (story_id args)
     = Err NotFound ->
   cmd_start env args w = (Err NotFound, w))
  /\ (forall r out,
        _parse_story (texts w) (path_join root (stories_dir args)) (story_id args) = Ok r ->
        dry_run args = false ->
        proc env STATUS_QUERY = (0%Z, out) ->
        existsb (dirty_line (allow_untracked args)) (Str.splitlines out) = true ->
        cmd_start env args w = (Err DirtyWorktree, w)).
Proof.
  intros S env args w root Hroot _. split.
  - intros Hparse. unfold cmd_start.
    apply bind_err. eapply start_prepare_no_story; eauto.
  - intros r out Hparse Hd Hstatus Hdirty. unfold cmd_start.
    apply bind_err. eapply start_prepare_dirty; eauto.
    rewrite (require_clean_worktree_eq _ env _ out Hstatus). now rewrite Hdirty.
Qed.

Lemma start_checks_first_witness :
  cmd_start (Demo.status_env 0 Demo.dirty_status)
    (Demo.set_story_id "ACF-404" Demo.start_args) Demo.world
  = (Err NotFound, Demo.world)
  /\ cmd_start (Demo.status_env 0 Demo.dirty_status) Demo.start_args Demo.world
     = (Err DirtyWorktree, Demo.world).
Proof.
  split.
  - refine (proj1 (start_checks_first unit (Demo.status_env 0 Demo.dirty_status)
                     (Demo.set_story_id "ACF-404" Demo.start_args) Demo.world "/r" _ _) _);
      vm_compute; reflexivity.
  - refine (proj2 (start_checks_first unit (Demo.status_env 0 Demo.dirty_status)
                     Demo.start_args Demo.world "/r" _ _)
              ("/r/artifacts/stories/ACF-1.md", "Hello, World!! Foo", Demo.story)
              Demo.dirty_status _ _ _ _);
      vm_compute; reflexivity.
Defined.

(** *** The local steps of a run that is no dry run *)

Lemma commands_app : forall t u, commands (t ++ u) = commands t ++ commands u.
Proof.
  induction t as [|e t IH]; intros u; [reflexivity|].
  destruct e; simpl; now rewrite ?IH.
Qed.

Section StartSteps.
Context {S : Type} (env : Env S).

Lemma start_prepare_branch_exists :
  forall args (w : World S) root file title content,
    dry_run args = false ->
    _repo_root env = Ok root ->
    _parse_story (texts w) (path_join root (stories_dir args)) (story_id args)
    = Ok (file, title, content) ->
    _require_clean_worktree env (allow_untracked args) = Ok tt ->
    fst (proc env ["git"; "checkout"; base_branch args]) = 0%Z ->
    let b := ("feature/" ++ story_id args ++ "-" ++ _slugify title)%string in
    fst (proc env ["git"; "checkout"; "-b"; b]) <> 0%Z ->
    exists w1,
      start_prepare env args w = (Err (CommandFailed ["git"; "checkout"; "-b"; b]), w1)
      /\ texts w1 = texts w /\ jsons w1 = jsons w
      /\ trace w1
         = trace w
           ++ List.map Cmd
                [["git"; "fetch"; "origin"; base_branch args];
                 ["git"; "checkout"; base_branch args];
                 ["git"; "pull"; "--ff-only"];
                 ["git"; "checkout"; "-b"; b]].
Proof.
  intros args w root file title content Hd Hroot Hparse Hclean Hc b Hb.
  apply Z.eqb_neq in Hb. unfold b in *. clear b.
  destruct w as [tx js rm tk tr]. cbn [texts] in Hparse.
  unfold start_prepare. rewrite Hd.
  cbv [bind lift lift_opt ret fail when negb andb get_texts _git_live _run_live emit
       texts jsons remote ticks trace].
  rewrite Hroot. cbv iota beta. rewrite Hparse. cbv iota beta.
  rewrite Hclean. cbv iota beta. rewrite Hc. rewrite Z.eqb_refl. cbv iota beta.
  rewrite Hb. cbv iota beta.
  eexists. split; [reflexivity|]. cbn [texts jsons trace List.map].
  rewrite <- !app_assoc. auto.
Qed.

Lemma start_prepare_branch_made :
  forall args (w : World S) root file title content rel,
    dry_run args = false ->
    _repo_root env = Ok root ->
    _parse_story (texts w) (path_join root (stories_dir args)) (story_id args)
    = Ok (file, title, content) ->
    relative_to root file = Some rel ->
    _require_clean_worktree env (allow_untracked args) = Ok tt ->
    fst (proc env ["git"; "checkout"; base_branch args]) = 0%Z ->
    let b := ("feature/" ++ story_id args ++ "-" ++ _slugify title)%string in
    fst (proc env ["git"; "checkout"; "-b"; b]) = 0%Z ->
    commit args = false ->
    exists c w1,
      start_prepare env args w = (Ok c, w1)
      /\ branch c = b
      /\ commands (trace w1)
         = commands (trace w)
           ++ [["git"; "fetch"; "origin"; base_branch args];
               ["git"; "checkout"; base_branch args];
               ["git"; "pull"; "--ff-only"];
               ["git"; "checkout"; "-b"; b]]
      /\ Fs.exists_ (_review_pack_path root (story_id args)) (texts w1) = true
      /\ Fs.exists_ (_state_path root (story_id args)) (jsons w1) = true.
Proof.
  intros args w root file title content rel Hd Hroot Hparse Hrel Hclean Hc b Hb Hcm.
  unfold b in *. clear b.
  destruct w as [tx js rm tk tr]. cbn [texts] in Hparse.
  unfold start_prepare. rewrite Hd, Hcm.
  cbv [bind lift lift_opt ret fail when negb andb get_texts _git_live _run_live emit
       _write_review_pack _ensure_dir write_text _now_utc_iso _write_json
       texts jsons remote ticks trace].
  rewrite Hroot. cbv iota beta. rewrite Hparse. cbv iota beta.
  rewrite Hclean. cbv iota beta. rewrite Hc. rewrite Z.eqb_refl. cbv iota beta.
  rewrite Hb. rewrite Z.eqb_refl. cbv iota beta.
  rewrite Hrel. cbv iota beta.
  eexists. eexists. split; [reflexivity|].
  cbn [branch texts jsons trace]. split; [reflexivity|]. split.
  - rewrite !commands_app. cbn [commands]. rewrite !app_nil_r, <- !app_assoc. reflexivity.
  - split; apply exists_write_same.
Qed.

End StartSteps.

(** X7. The local steps of a run that is no dry run.  Once the story is
    found and the work tree is clean, [start] runs [git fetch origin <base>],
    [git checkout <base>], [git pull --ff-only] and
    [git checkout -b feature/<id>-<slug>], in this order.  What [fetch] and
    [pull] return does not matter.  When the two checkouts succeed, the
    review pack and the state file are written and (without [--commit]) no
    other live command is run.  When the branch cannot be created, as on a
    second run for the same story, [start] fails with CommandFailed on that
    command after the first three, and has written no file. *)
Theorem start_local_steps :
  forall S (env : Env S) args (w : World S) root file title content rel,
    dry_run args = false ->
    _repo_root env = Ok root ->
    _parse_story (texts w) (path_join root (stories_dir args)) (story_id args)
    = Ok (file, title, content) ->
    relative_to root file = Some rel ->
    _require_clean_worktree env (allow_untracked args) = Ok tt ->
    fst (proc env ["git"; "checkout"; base_branch args]) = 0%Z ->
    let b := ("feature/" ++ story_id args ++ "-" ++ _slugify title)%string in
    let steps :=
      [["git"; "fetch"; "origin"; base_branch args];
       ["git"; "checkout"; base_branch args];
       ["git"; "pull"; "--ff-only"];
       ["git"; "checkout"; "-b"; b]] in
    (fst (proc env ["git"; "checkout"; "-b"; b]) = 0%Z ->
     commit args = false ->
     exists c w1,
       start_prepare env args w = (Ok c, w1)
       /\ branch c = b
       /\ commands (trace w1) = commands (trace w) ++ steps
       /\ Fs.exists_ (_review_pack_path root (story_id args)) (texts w1) = true
       /\ Fs.exists_ (_state_path root (story_id args)) (jsons w1) = true)
    /\ (fst (proc env ["git"; "checkout"; "-b"; b]) <> 0%Z ->
        exists w1,
          cmd_start env args w = (Err (CommandFailed ["git"; "checkout"; "-b"; b]), w1)
          /\ texts w1 = texts w /\ jsons w1 = jsons w
          /\ trace w1 = trace w ++ List.map Cmd steps).
Proof.
  intros S env args w root file title content rel Hd Hroot Hparse Hrel Hclean Hc b steps.
  split.
  - intros Hb Hcm.
    exact (start_prepare_branch_made env args w root file title content rel
             Hd Hroot Hparse Hrel Hclean Hc Hb Hcm).
  - intros Hb.
    destruct (start_prepare_branch_exists env args w root file title content
                Hd Hroot Hparse Hclean Hc Hb) as [w1 [H1 H2]].
    exists w1. split; [|exact H2]. unfold cmd_start. now apply bind_err.
Qed.

Lemma start_local_steps_witness :
  (exists c w1,
     start_prepare Demo.github_env Demo.start_args Demo.world = (Ok c, w1)
     /\ branch c = "feature/ACF-1-hello-world-foo"
     /\ commands (trace w1)
        = commands (trace Demo.world)
          ++ [["git"; "fetch"; "origin"; "main"]; ["git"; "checkout"; "main"];
              ["git"; "pull"; "--ff-only"];
              ["git"; "checkout"; "-b"; "feature/ACF-1-hello-world-foo"]]
     /\ Fs.exists_ (_review_pack_path "/r" "ACF-1") (texts w1) = true
     /\ Fs.exists_ (_state_path "/r" "ACF-1") (jsons w1) = true)
  /\ (exists w1,
        cmd_start Demo.rerun_env Demo.start_args Demo.world
        = (Err (CommandFailed ["git"; "checkout"; "-b"; "feature/ACF-1-hello-world-foo"]), w1)
        /\ texts w1 = texts Demo.world /\ jsons w1 = jsons Demo.world
        /\ trace w1
           = trace Demo.world
             ++ List.map Cmd
                  [["git"; "fetch"; "origin"; "main"]; ["git"; "checkout"; "main"];
                   ["git"; "pull"; "--ff-only"];
                   ["git"; "checkout"; "-b"; "feature/ACF-1-hello-world-foo"]]).
Proof.
  split.
  - refine (proj1 (start_local_steps unit Demo.github_env Demo.start_args Demo.world "/r"
                     "/r/artifacts/stories/ACF-1.md" "Hello, World!! Foo" Demo.story
                     "artifacts/stories/ACF-1.md" _ _ _ _ _ _) _ _);
      vm_compute; reflexivity.
  - refine (proj2 (start_local_steps unit Demo.rerun_env Demo.start_args Demo.world "/r"
                     "/r/artifacts/stories/ACF-1.md" "Hello, World!! Foo" Demo.story
                     "artifacts/stories/ACF-1.md" _ _ _ _ _ _) _);
      vm_compute; try reflexivity; discriminate.
Defined.

(** *** The failures of a run *)

Section Failures.
Context {S : Type} (env : Env S) (P : Error -> bool).

Lemma fw_ret : forall A (a : A), fails_within (S := S) P (ret a).
Proof. intros A a w e H. discriminate. Qed.

Lemma fw_fail : forall A e, P e = true -> fails_within (S := S) (A := A) P (fail e).
Proof. intros A e He w e' H. simpl in H. now injection H as <-. Qed.

Lemma fw_lift : forall A (r : Result A),
  (forall e, r = Err e -> P e = true) -> fails_within (S := S) P (lift r).
Proof. intros A r Hr w e H. simpl in H. auto. Qed.

Lemma fw_lift_shape : forall A (r : Result A),
  P BadShape = true -> (forall e, r = Err e -> e = BadShape) ->
  fails_within (S := S) P (lift r).
Proof. intros A r HP Hr. apply fw_lift. intros e He. now rewrite (Hr e He). Qed.

Lemma fw_lift_opt : forall A e (o : option A),
  P e = true -> fails_within (S := S) P (lift_opt e o).
Proof. intros A e [a|] He; [apply fw_ret|now apply fw_fail]. Qed.

Lemma fw_bind : forall A B (m : M S A) (k : A -> M S B),
  fails_within P m -> (forall a, fails_within P (k a)) -> fails_within P (bind m k).
Proof.
  intros A B m k Hm Hk w e H. unfold bind in H.
  destruct (m w) as [[a|e'] w1] eqn:E.
  - exact (Hk a w1 e H).
  - simpl in H. injection H as <-. apply (Hm w). now rewrite E.
Qed.

Lemma fw_when : forall b (m : M S unit),
  fails_within P m -> fails_within P (when b m).
Proof. intros [] m H; [exact H|apply fw_ret]. Qed.

Lemma fw_emit : forall ev, fails_within (S := S) P (emit ev).
Proof. intros ev w e H. discriminate. Qed.

Lemma fw_print : forall l, fails_within (S := S) P (print l).
Proof. intros l. apply fw_emit. Qed.

Lemma fw_ensure_dir : forall p, fails_within P (_ensure_dir (S := S) p).
Proof. intros p. apply fw_emit. Qed.

Lemma fw_now : fails_within P (_now_utc_iso env).
Proof. intros w e H. discriminate. Qed.

Lemma fw_get_texts : fails_within P (get_texts (S := S)).
Proof. intros w e H. discriminate. Qed.

Lemma fw_get_jsons : fails_within P (get_jsons (S := S)).
Proof. intros w e H. discriminate. Qed.

Lemma fw_write_text : forall p c, fails_within P (write_text (S := S) p c).
Proof. intros p c w e H. discriminate. Qed.

Lemma fw_write_json : forall p d, fails_within P (_write_json (S := S) p d).
Proof. intros p d w e H. discriminate. Qed.

Lemma fw_run_live_unchecked : forall cmd, fails_within P (_run_live env cmd false).
Proof. intros cmd w e H. discriminate. Qed.

Lemma fw_git_live_unchecked : forall a, fails_within P (_git_live env a false).
Proof. intros a. apply fw_run_live_unchecked. Qed.

Lemma fw_write_review_pack : forall root id title file,
  P PathError = true -> fails_within P (_write_review_pack env root id title file).
Proof.
  intros root id title file HP. unfold _write_review_pack.
  apply fw_bind; [apply fw_ensure_dir|intros _].
  apply fw_bind; [now apply fw_lift_opt|intros rel].
  apply fw_bind; [apply fw_now|intros g].
  apply fw_bind; [apply fw_write_text|intros _]. apply fw_ret.
Qed.

End Failures.

Lemma repo_root_err : forall S (env : Env S) e,
  _repo_root env = Err e -> e = CommandFailed ROOT_QUERY.
Proof.
  intros S env e H. unfold _repo_root, _git, _run in H.
  change ("git" :: ["rev-parse"; "--show-toplevel"]) with ROOT_QUERY in H.
  destruct (true && negb (fst (proc env ROOT_QUERY) =? 0)%Z); now inversion H.
Qed.

Lemma getitem_err : forall k j e, getitem k j = Err e -> e = BadShape.
Proof.
  intros k j e H. destruct j; simpl in H; try now inversion H.
  destruct (Dict.get k fields); now inversion H.
Qed.

Lemma get_opt_err : forall k j e, get_opt k j = Err e -> e = BadShape.
Proof.
  intros k j e H. destruct j; simpl in H; try now inversion H.
  destruct (Dict.get k fields); now inversion H.
Qed.

Lemma get_default_err : forall k d j e, get_default k d j = Err e -> e = BadShape.
Proof.
  intros k d j e H. destruct j; simpl in H; try now inversion H.
  destruct (Dict.get k fields); now inversion H.
Qed.

Lemma to_int_err : forall j e, to_int j = Err e -> e = BadShape.
Proof. intros j e H. unfold to_int in H. destruct (py_int j); now inversion H. Qed.

Lemma int_or_0_err : forall j e, int_or_0 j = Err e -> e = BadShape.
Proof.
  intros j e H. unfold int_or_0 in H.
  destruct (json_truthy j); [now apply to_int_err in H|discriminate].
Qed.

Lemma first_item_err : forall j e, first_item j = Err e -> e = BadShape.
Proof.
  intros j e H. destruct j as [| | | |[|x l]|]; simpl in H; now inversion H.
Qed.

Lemma compose_pr_body_err : forall root id title file ref pack e,
  _compose_pr_body root id title file ref pack = Err e -> e = PathError.
Proof.
  intros root id title file ref pack e H. unfold _compose_pr_body in H.
  destruct (relative_to root file); [|now inversion H].
  destruct (relative_to root pack); now inversion H.
Qed.

Ltac fw_step :=
  lazymatch goal with
  | |- fails_within _ (bind _ _) => apply fw_bind; [|intros ?]
  | |- fails_within _ (ret _) => apply fw_ret
  | |- fails_within _ (fail _) => apply fw_fail; reflexivity
  | |- fails_within _ (lift_opt _ _) => apply fw_lift_opt; reflexivity
  | |- fails_within _ (when _ _) => apply fw_when
  | |- fails_within _ (print _) => apply fw_print
  | |- fails_within _ (emit _) => apply fw_emit
  | |- fails_within _ (_ensure_dir _) => apply fw_ensure_dir
  | |- fails_within _ (_now_utc_iso _) => apply fw_now
  | |- fails_within _ get_texts => apply fw_get_texts
  | |- fails_within _ get_jsons => apply fw_get_jsons
  | |- fails_within _ (write_text _ _) => apply fw_write_text
  | |- fails_within _ (_write_json _ _) => apply fw_write_json
  | |- fails_within _ (_run_live _ _ false) => apply fw_run_live_unchecked
  | |- fails_within _ (_git_live _ _ false) => apply fw_git_live_unchecked
  | |- fails_within _ (_write_review_pack _ _ _ _ _) =>
      apply fw_write_review_pack; reflexivity
  | |- fails_within _ (lift (getitem _ _)) =>
      apply fw_lift_shape; [reflexivity|apply getitem_err]
  | |- fails_within _ (lift (get_opt _ _)) =>
      apply fw_lift_shape; [reflexivity|apply get_opt_err]
  | |- fails_within _ (lift (get_default _ _ _)) =>
      apply fw_lift_shape; [reflexivity|apply get_default_err]
  | |- fails_within _ (lift (int_or_0 _)) =>
      apply fw_lift_shape; [reflexivity|apply int_or_0_err]
  | |- fails_within _ (lift (to_int _)) =>
      apply fw_lift_shape; [reflexivity|apply to_int_err]
  | |- fails_within _ (lift (first_item _)) =>
      apply fw_lift_shape; [reflexivity|apply first_item_err]
  | |- fails_within _ (if ?b then _ else _) => destruct b
  | |- fails_within _ (match ?x with _ => _ end) => destruct x
  end.

(** *** The failures of a dry run of [start] *)

Lemma parse_story_err : forall fs dir id e,
  _parse_story fs dir id = Err e -> e = InvalidIdentifier \/ e = NotFound.
Proof.
  intros fs dir id e H. unfold _parse_story in H.
  destruct (negb (Re.fullmatch STORY_ID_RE id)); [left; now inversion H|].
  match type of H with match ?x with _ => _ end = _ => destruct x end;
    [discriminate|right; now inversion H].
Qed.

Section DryFailures.
Context {S : Type} (env : Env S).

Lemma fw_start_prepare_dry : forall args,
  dry_run args = true -> fails_within dry_start_failure (start_prepare env args).
Proof.
  intros args Hd. unfold start_prepare. rewrite Hd. cbn [negb andb when].
  apply fw_bind.
  { apply fw_lift. intros e He. now rewrite (repo_root_err _ env e He). }
  intros root. apply fw_bind; [apply fw_get_texts|intros fs].
  apply fw_bind.
  { apply fw_lift. intros e He. apply parse_story_err in He. now destruct He as [->| ->]. }
  intros [[file title] content]. repeat fw_step.
Qed.

Lemma fw_start_integrate_dry : forall args c,
  dry_run args = true -> fails_within dry_start_failure (start_integrate env args c).
Proof.
  intros args c Hd. unfold start_integrate.
  destruct (String.eqb (effective_provider c) "github");
    [|destruct (String.eqb (effective_provider c) "azuredevops")].
  - unfold start_github. rewrite Hd.
    unfold _github_find_or_create_issue, _github_create_pr.
    match goal with |- fails_within _ (if ?b then _ else _) => destruct b end.
    + destruct (require_integration args); [now apply fw_fail|apply fw_ret].
    + rewrite andb_false_r. repeat fw_step.
      apply fw_lift. intros e He. now rewrite (compose_pr_body_err _ _ _ _ _ _ _ He).
  - unfold start_azure. rewrite Hd.
    destruct (azure_coordinates env args) as [[o p] r].
    unfold _azure_wiql_find_work_item, _azure_create_work_item, _azure_create_pr,
      _azure_link_work_item_to_pr.
    match goal with |- fails_within _ (if ?b then _ else _) => destruct b end.
    + destruct (require_integration args); [now apply fw_fail|apply fw_ret].
    + rewrite andb_false_r. cbn [orb].
      intros w e H. cbv [bind ret lift] in H.
      destruct (_compose_pr_body (repo_root c) (story_id args) (story_title c)
                  (story_file c) (Some ("WorkItem " ++ str_of_Z 0)%string) (review_pack c))
        as [b|e'] eqn:Hb.
      * cbn in H. discriminate.
      * cbn in H. injection H as <-. now rewrite (compose_pr_body_err _ _ _ _ _ _ _ Hb).
  - now apply fw_fail.
Qed.

Lemma fw_start_finish_dry : forall args c r,
  dry_run args = true -> fails_within dry_start_failure (start_finish env args c r).
Proof.
  intros args c [pref st] Hd. unfold start_finish. rewrite Hd. cbn [negb andb when].
  repeat fw_step.
Qed.

End DryFailures.

(** X9. The failures of a dry run of [start]: CommandFailed on
    [git rev-parse --show-toplevel], InvalidIdentifier, NotFound, PathError
    (the story lies outside the repository), MissingCredentials (with
    [--require-integration]) and UnknownProvider.  A dry run never fails
    with DirtyWorktree or PushRequired, nor with the failure of a request or
    of a git command that changes the repository. *)
Theorem dry_start_failure_modes : forall S (env : Env S) args (w : World S) e,
  dry_run args = true ->
  fst (cmd_start env args w) = Err e ->
  dry_start_failure e = true.
Proof.
  intros S env args w e Hd. revert w e.
  change (fails_within dry_start_failure (cmd_start env args)). unfold cmd_start.
  apply fw_bind; [now apply fw_start_prepare_dry|intros c].
  apply fw_bind; [now apply fw_start_integrate_dry|intros r].
  now apply fw_start_finish_dry.
Qed.

Lemma dry_start_failure_modes_witness :
  dry_start_failure MissingCredentials = true.
Proof.
  refine (dry_start_failure_modes unit Demo.github_env Demo.dry_required_args Demo.world
            MissingCredentials _ _);
    vm_compute; reflexivity.
Defined.

(** *** The evidence comment on any pull request *)

Lemma in_firstn : forall A n (l : list A) x, In x (firstn n l) -> In x l.
Proof.
  intros A n. induction n as [|n IH]; intros l x H; [destruct H|].
  destruct l as [|y l]; [destruct H|]. destruct H as [H|H]; [now left|right; auto].
Qed.

Lemma find_existing_find : forall marker cs,
  find_existing marker (List.map GitHubSim.comment_json cs)
  = Ok (option_map GitHubSim.comment_json
          (find (fun c => Str.contains marker (snd c)) cs)).
Proof.
  intros marker cs. induction cs as [|c cs IH]; [reflexivity|].
  cbn [List.map find_existing find].
  assert (E : body_has_marker marker (GitHubSim.comment_json c)
              = Ok (Str.contains marker (snd c))).
  { destruct c as [i b]. unfold body_has_marker, GitHubSim.comment_json.
    cbn [get_opt Dict.get String.eqb Ascii.eqb Bool.eqb fst snd json_truthy].
    destruct b; reflexivity. }
  rewrite E. destruct (Str.contains marker (snd c)); [reflexivity|exact IH].
Qed.

Lemma update_in : forall c new cs,
  NoDup (List.map fst cs) ->
  In c cs ->
  exists cs',
    GitHubSim.update (str_of_Z (fst c)) new cs = Some cs'
    /\ List.length cs' = List.length cs
    /\ In (fst c, new) cs'
    /\ forall c', In c' cs -> c' <> c -> In c' cs'.
Proof.
  intros c new cs. induction cs as [|h cs IH]; intros Hnd Hin; [destruct Hin|].
  cbn [List.map] in Hnd. inversion Hnd as [|x l Hnotin Hnd']; subst.
  cbn [GitHubSim.update].
  destruct (String.eqb (str_of_Z (fst h)) (str_of_Z (fst c))) eqn:E.
  - apply String.eqb_eq, str_of_Z_inj in E.
    assert (Hc : c = h).
    { destruct Hin as [Hin|Hin]; [now symmetry|].
      exfalso. apply Hnotin. rewrite E. apply in_map_iff. exists c. auto. }
    subst c. eexists. split; [reflexivity|]. split; [reflexivity|].
    split; [now left|]. intros c' [Hc'|Hc'] Hne; [now symmetry in Hc'|now right].
  - assert (Hc : In c cs).
    { destruct Hin as [Hin|Hin]; [|exact Hin]. subst h.
      rewrite String.eqb_refl in E. discriminate. }
    destruct (IH Hnd' Hc) as [cs' [Hu [Hlen [Hnew Hkeep]]]].
    rewrite Hu. eexists. split; [reflexivity|]. cbn [List.length].
    split; [now rewrite Hlen|]. split; [now right|].
    intros c' [Hc'|Hc'] Hne; [now left|right; auto].
Qed.

Lemma last_cons_default : forall A (x : A) l d d',
  last (x :: l) d = last (x :: l) d'.
Proof.
  intros A x l. revert x. induction l as [|y l IH]; intros x d d'; [reflexivity|].
  change (last (x :: y :: l) d) with (last (y :: l) d).
  change (last (x :: y :: l) d') with (last (y :: l) d'). apply IH.
Qed.

Lemma last_map_default : forall (f : string -> string) l d,
  last (List.map f l) (f d) = f (last l d).
Proof.
  intros f l d. induction l as [|a l IH]; [reflexivity|].
  destruct l as [|b l]; [reflexivity|]. exact IH.
Qed.

Section UpsertAny.

Context (env : Env GitHubSim.Remote) (api repo : string) (pr_number : Z).
Hypothesis served : serve env = GitHubSim.serve api repo pr_number.

Lemma upsert_rewrites : forall token marker text c (w : World GitHubSim.Remote),
  NoDup (List.map fst (GitHubSim.comments (remote w))) ->
  find (fun c => Str.contains marker (snd c)) (firstn 100 (GitHubSim.comments (remote w)))
  = Some c ->
  exists w' cs',
    _github_upsert_pr_comment env api token repo pr_number marker text false w = (Ok tt, w')
    /\ remote w' = {| GitHubSim.comments := cs';
                      GitHubSim.next_id := GitHubSim.next_id (remote w) |}
    /\ List.length cs' = List.length (GitHubSim.comments (remote w))
    /\ In (fst c, (marker ++ nl ++ text)%string) cs'
    /\ forall c', In c' (GitHubSim.comments (remote w)) -> c' <> c -> In c' cs'.
Proof.
  intros token marker text c w Hnd Hfind.
  pose proof (find_some _ _ Hfind) as [Hpage Hmarked].
  apply in_firstn in Hpage.
  destruct (update_in c (marker ++ nl ++ text)%string _ Hnd Hpage)
    as [cs' [Hu [Hlen [Hnew Hkeep]]]].
  unfold _github_upsert_pr_comment, _http_json.
  cbv [bind]. rewrite served.
  change (api ++ "/repos/" ++ repo ++ "/issues/" ++ str_of_Z pr_number
            ++ "/comments?per_page=100")%string with (list_url api repo pr_number).
  rewrite serve_list.
  set (page := firstn 100 (GitHubSim.comments (remote w))) in *.
  assert (Hret : forall v : World GitHubSim.Remote,
             (if negb (json_truthy (JArr (List.map GitHubSim.comment_json page)))
              then ret []
              else ret (List.map GitHubSim.comment_json page)) v
             = (Ok (List.map GitHubSim.comment_json page), v)).
  { intros v. destruct page; reflexivity. }
  rewrite Hret. cbv [lift]. rewrite find_existing_find, Hfind.
  cbv iota beta. cbn [option_map].
  cbn [getitem GitHubSim.comment_json Dict.get String.eqb Ascii.eqb Bool.eqb
         fst snd py_str remote].
  change (api ++ "/repos/" ++ repo ++ "/issues/comments/" ++ py_repr (JNum (fst c)))%string
    with (update_url api repo (fst c)).
  rewrite serve_update. rewrite Hu. cbv iota beta.
  eexists. exists cs'. split; [reflexivity|]. cbn [remote]. auto.
Qed.

Lemma upsert_each_updates : forall token marker bodies cs i old next
                                   (w : World GitHubSim.Remote),
  remote w = {| GitHubSim.comments := cs ++ [(i, old)]; GitHubSim.next_id := next |} ->
  List.length cs < 100 ->
  (forall c, In c cs -> Str.contains marker (snd c) = false) ->
  (forall c, In c cs -> fst c <> i) ->
  Str.contains marker old = true ->
  exists w',
    upsert_each env api token repo pr_number marker bodies w = (Ok tt, w')
    /\ remote w' =
       {| GitHubSim.comments :=
            cs ++ [(i, last (List.map (fun b => (marker ++ nl ++ b)%string) bodies) old)];
          GitHubSim.next_id := next |}.
Proof.
  intros token marker bodies. induction bodies as [|b rest IH];
    intros cs i old next w Hr Hlen Hun Hid Hold.
  - exists w. split; [reflexivity|exact Hr].
  - destruct (upsert_updates env api repo pr_number served token marker b cs i old next w
                Hr Hlen Hun Hid Hold) as [w1 [H1 Hr1]].
    destruct (IH cs i (marker ++ nl ++ b)%string next w1 Hr1 Hlen Hun Hid
                (contains_prefix _ _)) as [w' [H' Hr']].
    exists w'. split.
    + cbn [upsert_each]. rewrite (bind_ok _ _ _ _ _ _ _ _ H1). exact H'.
    + rewrite Hr'. cbn [List.map]. destruct rest as [|b' rest]; [reflexivity|].
      cbn [List.map].
      change (last ((marker ++ nl ++ b)%string :: (marker ++ nl ++ b')%string
                      :: List.map (fun b0 => (marker ++ nl ++ b0)%string) rest) old)
        with (last ((marker ++ nl ++ b')%string
                      :: List.map (fun b0 => (marker ++ nl ++ b0)%string) rest) old).
      now rewrite (last_cons_default _ _ _ old (marker ++ nl ++ b)%string).
Qed.

End UpsertAny.

(** X10. One evidence run on the comment service of a pull request whose
    comment ids are distinct: the run succeeds; it leaves a comment with the
    marker and the new text; every comment without the marker is still
    there; and the number of comments stays or grows by one. *)
Theorem upsert_keeps_other_comments :
  forall (env : Env GitHubSim.Remote) api repo pr_number token marker text
         (w : World GitHubSim.Remote),
    serve env = GitHubSim.serve api repo pr_number ->
    NoDup (List.map fst (GitHubSim.comments (remote w))) ->
    exists w',
      _github_upsert_pr_comment env api token repo pr_number marker text false w
      = (Ok tt, w')
      /\ (forall c, In c (GitHubSim.comments (remote w)) ->
                    Str.contains marker (snd c) = false ->
                    In c (GitHubSim.comments (remote w')))
      /\ List.length (GitHubSim.comments (remote w))
         <= List.length (GitHubSim.comments (remote w'))
         <= Datatypes.S (List.length (GitHubSim.comments (remote w)))
      /\ exists i, In (i, (marker ++ nl ++ text)%string) (GitHubSim.comments (remote w')).
Proof.
  intros env api repo pr_number token marker text w served Hnd.
  destruct (find (fun c => Str.contains marker (snd c))
              (firstn 100 (GitHubSim.comments (remote w)))) as [c|] eqn:Hfind.
  - destruct (upsert_rewrites env api repo pr_number served token marker text c w Hnd Hfind)
      as [w' [cs' [Hrun [Hr [Hlen [Hnew Hkeep]]]]]].
    exists w'. split; [exact Hrun|]. rewrite Hr. cbn [GitHubSim.comments].
    apply find_some in Hfind. destruct Hfind as [_ Hmarked].
    split; [|split; [lia|eauto]].
    intros c' Hin Hun. apply Hkeep; [exact Hin|].
    intros ->. rewrite Hmarked in Hun. discriminate.
  - destruct (upsert_creates env api repo pr_number served token marker text w)
      as [w' [Hrun Hr]].
    { intros c Hc. exact (find_none _ _ Hfind c Hc). }
    exists w'. split; [exact Hrun|]. rewrite Hr. cbn [GitHubSim.comments].
    split; [intros c Hin _; apply in_or_app; now left|].
    split; [rewrite length_app; simpl; lia|].
    eexists. apply in_or_app. right. now left.
Qed.

(** X11. On a pull request whose comments fit on the first page and carry
    no marker, any number of evidence runs, one or more, leaves exactly one
    comment with the marker: the one the first run created, with the text of
    the last run.  The comments that were there are untouched. *)
Theorem upsert_each_one_comment :
  forall (env : Env GitHubSim.Remote) api repo pr_number token marker first rest
         (w : World GitHubSim.Remote),
    serve env = GitHubSim.serve api repo pr_number ->
    List.length (GitHubSim.comments (remote w)) < 100 ->
    (forall c, In c (GitHubSim.comments (remote w)) -> Str.contains marker (snd c) = false) ->
    (forall c, In c (GitHubSim.comments (remote w)) -> fst c <> GitHubSim.next_id (remote w)) ->
    let final := (marker ++ nl ++ last rest first)%string in
    exists w',
      upsert_each env api token repo pr_number marker (first :: rest) w = (Ok tt, w')
      /\ GitHubSim.comments (remote w')
         = GitHubSim.comments (remote w) ++ [(GitHubSim.next_id (remote w), final)]
      /\ GitHubSim.marked marker (remote w') = [(GitHubSim.next_id (remote w), final)].
Proof.
  intros env api repo pr token marker first rest w Hs Hlen Hun Hid final.
  destruct (upsert_creates env api repo pr Hs token marker first w) as [w1 [H1 Hr1]].
  { intros c Hc. apply Hun. now apply in_firstn in Hc. }
  destruct (upsert_each_updates env api repo pr Hs token marker rest
              (GitHubSim.comments (remote w)) (GitHubSim.next_id (remote w))
              (marker ++ nl ++ first)%string (GitHubSim.next_id (remote w) + 1)%Z w1
              Hr1 Hlen Hun Hid (contains_prefix _ _)) as [w' [H' Hr']].
  assert (Hlast : last (List.map (fun b => (marker ++ nl ++ b)%string) rest)
                    (marker ++ nl ++ first)%string = final).
  { unfold final. exact (last_map_default (fun b => (marker ++ nl ++ b)%string) rest first). }
  exists w'. split.
  - cbn [upsert_each]. rewrite (bind_ok _ _ _ _ _ _ _ _ H1). exact H'.
  - rewrite Hr', Hlast. cbn [GitHubSim.comments]. split; [reflexivity|].
    rewrite (marked_app marker _ _ _ Hun). cbn [filter snd].
    unfold final. now rewrite contains_prefix.
Qed.

(** *** Find or create *)

Section FindOrCreate.
Context {S : Type} (env : Env S).

Lemma github_issue_found :
  forall api token repo id title content (w : World S) res x rest t,
    (forall req, method req = "GET" ->
                 exists r', serve env req (remote w) = (Replied res, r')) ->
    reply_list "items" res = JArr (x :: rest) ->
    issue_triple x = Ok t ->
    exists w' req,
      _github_find_or_create_issue env api token repo id title content false w = (Ok t, w')
      /\ trace w' = trace w ++ [Http req]
      /\ method req = "GET"
      /\ url req = search_url api repo id.
Proof.
  intros api token repo id title content w res x rest t Hget Hitems Ht.
  unfold _github_find_or_create_issue, _http_json. cbv [bind].
  match goal with
  | |- context [serve env ?q (remote w)] =>
      destruct (Hget q eq_refl) as [r' Hq]; set (req := q) in *
  end.
  rewrite Hq.
  fold (reply_list "items" res). rewrite Hitems.
  cbn [json_truthy first_item lift]. rewrite Ht.
  eexists. exists req. split; [reflexivity|]. cbn [trace]. auto.
Qed.

Lemma github_issue_made :
  forall api token repo id title content (w : World S) res made t,
    (forall req, method req = "GET" ->
                 exists r', serve env req (remote w) = (Replied res, r')) ->
    reply_list "items" res = JArr [] ->
    (forall req r, method req = "POST" ->
                   exists r', serve env req r = (Replied made, r')) ->
    issue_triple made = Ok t ->
    exists w' q1 q2,
      _github_find_or_create_issue env api token repo id title content false w = (Ok t, w')
      /\ trace w' = trace w ++ [Http q1; Http q2]
      /\ method q1 = "GET" /\ url q1 = search_url api repo id
      /\ method q2 = "POST" /\ url q2 = (api ++ "/repos/" ++ repo ++ "/issues")%string
      /\ body q2 =
         Some (JObj [("title", JStr (id ++ ": " ++ title));
                     ("body", JStr (github_issue_body id title content));
                     ("labels", JArr [JStr "ai-coding-factory"; JStr "autopilot"])]).
Proof.
  intros api token repo id title content w res made t Hget Hitems Hpost Ht.
  unfold _github_find_or_create_issue, _http_json. cbv [bind].
  match goal with
  | |- context [serve env ?q (remote w)] =>
      destruct (Hget q eq_refl) as [r1 Hq]; set (q1 := q) in *
  end.
  rewrite Hq.
  fold (reply_list "items" res). rewrite Hitems.
  cbn [json_truthy remote].
  match goal with
  | |- context [serve env ?q r1] =>
      destruct (Hpost q r1 eq_refl) as [r2 Hq2]; set (q2 := q) in *
  end.
  rewrite Hq2. cbn [lift]. rewrite Ht.
  eexists. exists q1, q2. split; [reflexivity|]. cbn [trace].
  rewrite <- app_assoc. repeat split.
Qed.

End FindOrCreate.

(** X12. Find or create on GitHub.  When the issue search returns a
    non-empty list, the first item is the work item of the story and the
    search is the only request: no issue is created.  When it returns none,
    one issue is created, titled [<id>: <title>] and labelled
    [ai-coding-factory] and [autopilot]. *)
Theorem github_find_or_create :
  forall S (env : Env S) api token repo id title content (w : World S) res,
    (forall req, method req = "GET" ->
                 exists r', serve env req (remote w) = (Replied res, r')) ->
    (forall x rest t,
       reply_list "items" res = JArr (x :: rest) ->
       issue_triple x = Ok t ->
       exists w' req,
         _github_find_or_create_issue env api token repo id title content false w
         = (Ok t, w')
         /\ trace w' = trace w ++ [Http req]
         /\ method req = "GET"
         /\ url req = search_url api repo id)
    /\ (forall made t,
          reply_list "items" res = JArr [] ->
          (forall req r, method req = "POST" ->
                         exists r', serve env req r = (Replied made, r')) ->
          issue_triple made = Ok t ->
          exists w' q1 q2,
            _github_find_or_create_issue env api token repo id title content false w
            = (Ok t, w')
            /\ trace w' = trace w ++ [Http q1; Http q2]
            /\ method q1 = "GET" /\ url q1 = search_url api repo id
            /\ method q2 = "POST" /\ url q2 = (api ++ "/repos/" ++ repo ++ "/issues")%string
            /\ body q2 =
               Some (JObj [("title", JStr (id ++ ": " ++ title));
                           ("body", JStr (github_issue_body id title content));
                           ("labels", JArr [JStr "ai-coding-factory"; JStr "autopilot"])])).
Proof.
  intros S env api token repo id title content w res Hget. split.
  - intros x rest t Hitems Ht. eapply github_issue_found; eauto.
  - intros made t Hitems Hpost Ht. eapply github_issue_made; eauto.
Qed.

(** *** Threads on Azure DevOps *)

Section AzureThreads.
Context (env : Env (list string)) (org project repo : string) (pr_id : Z).
Hypothesis served : serve env = AzureSim.serve org project repo pr_id.

Lemma azure_post_appends : forall pat text (w : World (list string)),
  pr_id <> 0%Z ->
  exists w',
    _azure_post_pr_comment env org project repo pat pr_id text false w = (Ok tt, w')
    /\ remote w' = remote w ++ [text].
Proof.
  intros pat text w Hn. unfold _azure_post_pr_comment, _http_json.
  apply Z.eqb_neq in Hn. rewrite Hn. cbn [orb]. cbv [bind]. rewrite served.
  unfold AzureSim.serve. cbn [method url body String.eqb Ascii.eqb Bool.eqb andb].
  fold (threads_url org project repo pr_id). rewrite String.eqb_refl.
  cbn [AzureSim.content_of body Dict.get String.eqb Ascii.eqb Bool.eqb].
  eexists. split; reflexivity.
Qed.

End AzureThreads.

(** *** The first match of a pattern *)

Lemma first_seq : forall r1 r2 s cs cs1 s1 m1 y m2,
  Re.matches r1 s cs = (cs1, s1) :: m1 ->
  Re.matches r2 s1 cs1 = y :: m2 ->
  exists m, Re.matches (Re.Seq r1 r2) s cs = y :: m.
Proof.
  intros r1 r2 s cs cs1 s1 m1 y m2 H1 H2.
  rewrite matches_seq, H1. cbn [flat_map snd fst]. rewrite H2.
  eexists. reflexivity.
Qed.

Lemma first_group : forall n r s cs cs1 s1 m,
  Re.matches r s cs = (cs1, s1) :: m ->
  exists m',
    Re.matches (Re.Group n r) s cs
    = ((n, Str.take (String.length s - String.length s1) s) :: cs1, s1) :: m'.
Proof.
  intros n r s cs cs1 s1 m H.
  change (Re.matches (Re.Group n r) s cs)
    with (List.map
            (fun x : Re.partial =>
               ((n, Str.take (String.length s - String.length (snd x)) s) :: fst x, snd x))
            (Re.matches r s cs)).
  rewrite H. eexists. reflexivity.
Qed.

Lemma first_plus_class : forall p c run rest cs,
  p c = true ->
  Str.forallb p run = true ->
  match rest with String d _ => p d = false | EmptyString => True end ->
  exists m,
    Re.matches (Re.Plus true (Re.Class p)) (String c run ++ rest)%string cs
    = (cs, rest) :: m.
Proof.
  intros p c run rest cs Hc Hrun Hrest. cbn [append].
  rewrite matches_plus_class_cons, Hc.
  exact (star_class_run p run rest _ cs (le_n _) Hrun Hrest).
Qed.

Lemma take_prefix : forall a b,
  Str.take (String.length (a ++ b) - String.length b) (a ++ b)%string = a.
Proof.
  intros a b. rewrite length_append.
  replace (String.length a + String.length b - String.length b) with (String.length a)
    by lia.
  induction a as [|c a IH]; [now destruct b|]. cbn [append String.length Str.take].
  now rewrite IH.
Qed.

Lemma rmatch_first : forall r s cs rest m,
  Re.matches r s [] = (cs, rest) :: m -> Re.rmatch r s = Some cs.
Proof. intros r s cs rest m H. unfold Re.rmatch. now rewrite H. Qed.

(** *** Splitting at a separator *)

Lemma split_char_nonempty : forall sep cur s, split_char_from sep cur s <> [].
Proof.
  intros sep cur s. revert cur. induction s as [|c s IH]; intros cur; simpl.
  - discriminate.
  - destruct (Ascii.eqb c sep); [discriminate|apply IH].
Qed.

Lemma join_split_char : forall sep s cur,
  Str.join (String sep EmptyString) (split_char_from sep cur s) = (cur ++ s)%string.
Proof.
  intros sep s. induction s as [|c s IH]; intros cur.
  - cbn [split_char_from Str.join]. now rewrite append_nil_r.
  - cbn [split_char_from]. destruct (Ascii.eqb c sep) eqn:E.
    + apply Ascii.eqb_eq in E. subst c.
      pose proof (split_char_nonempty sep EmptyString s) as Hne.
      specialize (IH EmptyString).
      destruct (split_char_from sep EmptyString s) as [|p ps]; [contradiction|].
      change (Str.join (String sep EmptyString) (cur :: p :: ps))
        with (cur ++ String sep EmptyString
                ++ Str.join (String sep EmptyString) (p :: ps))%string.
      now rewrite IH.
    + rewrite IH, str_app_assoc. reflexivity.
Qed.

Lemma split_char_plain : forall sep p cur,
  Str.forallb (fun c => negb (Ascii.eqb c sep)) p = true ->
  split_char_from sep cur p = [(cur ++ p)%string].
Proof.
  intros sep p. induction p as [|c p IH]; intros cur H.
  - cbn [split_char_from]. now rewrite append_nil_r.
  - cbn [Str.forallb] in H. apply andb_true_iff in H. destruct H as [Hc Hp].
    apply negb_true_iff in Hc. cbn [split_char_from]. rewrite Hc.
    rewrite (IH _ Hp), str_app_assoc. reflexivity.
Qed.

Lemma split_char_last : forall sep a p cur,
  Str.forallb (fun c => negb (Ascii.eqb c sep)) p = true ->
  split_char_from sep cur (a ++ String sep p)
  = split_char_from sep cur a ++ [p].
Proof.
  intros sep a p. induction a as [|c a IH]; intros cur H.
  - cbn [append split_char_from]. rewrite Ascii.eqb_refl.
    now rewrite (split_char_plain sep p EmptyString H).
  - cbn [append split_char_from]. destruct (Ascii.eqb c sep).
    + cbn [app]. now rewrite IH.
    + now apply IH.
Qed.

(** *** Azure Repos remotes *)

Lemma azure_re_first : forall tail org1 org project1 project repo1 repo,
  (tail = EmptyString \/ tail = "s") ->
  Str.forallb Re.not_slash (String org1 org) = true ->
  Str.forallb Re.not_slash (String project1 project) = true ->
  Str.forallb Re.not_slash (String repo1 repo) = true ->
  let prefix :=
    ("http" ++ tail ++ "://dev.azure.com/" ++ String org1 org ++ "/"
       ++ String project1 project)%string in
  Re.rmatch AZURE_RE (prefix ++ "/_git/" ++ String repo1 repo)
  = Some [(2, String repo1 repo); (1, prefix)].
Proof.
  intros tail org1 org project1 project repo1 repo Htail Horg Hproject Hrepo prefix.
  cbn [Str.forallb] in Horg, Hproject, Hrepo.
  apply andb_true_iff in Horg, Hproject, Hrepo.
  destruct Horg as [Ho1 Ho], Hproject as [Hp1 Hp], Hrepo as [Hr1 Hr].
  set (rest := ("/_git/" ++ String repo1 repo)%string).
  (* the organisation and the project *)
  destruct (first_plus_class Re.not_slash project1 project rest [] Hp1 Hp eq_refl)
    as [m1 H1].
  assert (H2 : exists m,
             Re.matches (Re.Seq (Re.Chr "/") (Re.Plus true (Re.Class Re.not_slash)))
               ("/" ++ String project1 project ++ rest)%string []
             = ([], rest) :: m).
  { eapply first_seq; [|exact H1]. reflexivity. }
  destruct H2 as [m2 H2].
  destruct (first_plus_class Re.not_slash org1 org
              ("/" ++ String project1 project ++ rest)%string [] Ho1 Ho eq_refl)
    as [m3 H3].
  destruct (first_seq _ _ _ _ _ _ _ _ _ H3 H2) as [m4 H4].
  assert (H5 : exists m,
             Re.matches
               (Re.Seq (Re.Lit "://dev.azure.com/")
                  (Re.Seq (Re.Plus true (Re.Class Re.not_slash))
                     (Re.Seq (Re.Chr "/") (Re.Plus true (Re.Class Re.not_slash)))))
               ("://dev.azure.com/" ++ String org1 org ++ "/" ++ String project1 project
                  ++ rest)%string []
             = ([], rest) :: m).
  { eapply first_seq; [apply matches_lit|exact H4]. }
  destruct H5 as [m5 H5].
  assert (H6 : exists m,
             Re.matches
               (Re.Seq (Re.Opt true (Re.Chr "s"))
                  (Re.Seq (Re.Lit "://dev.azure.com/")
                     (Re.Seq (Re.Plus true (Re.Class Re.not_slash))
                        (Re.Seq (Re.Chr "/") (Re.Plus true (Re.Class Re.not_slash))))))
               (tail ++ "://dev.azure.com/" ++ String org1 org ++ "/"
                  ++ String project1 project ++ rest)%string []
             = ([], rest) :: m).
  { destruct Htail as [-> | ->]; (eapply first_seq; [reflexivity|exact H5]). }
  destruct H6 as [m6 H6].
  assert (H7 : exists m,
             Re.matches
               (Re.Seq (Re.Lit "http")
                  (Re.Seq (Re.Opt true (Re.Chr "s"))
                     (Re.Seq (Re.Lit "://dev.azure.com/")
                        (Re.Seq (Re.Plus true (Re.Class Re.not_slash))
                           (Re.Seq (Re.Chr "/") (Re.Plus true (Re.Class Re.not_slash)))))))
               ("http" ++ tail ++ "://dev.azure.com/" ++ String org1 org ++ "/"
                  ++ String project1 project ++ rest)%string []
             = ([], rest) :: m).
  { eapply first_seq; [apply matches_lit|exact H6]. }
  destruct H7 as [m7 H7].
  assert (Eurl : ("http" ++ tail ++ "://dev.azure.com/" ++ String org1 org ++ "/"
                    ++ String project1 project ++ rest)%string
                 = (prefix ++ rest)%string).
  { unfold prefix. now rewrite !str_app_assoc. }
  rewrite Eurl in H7.
  destruct (first_group 1 _ _ _ _ _ _ H7) as [m8 H8]. rewrite take_prefix in H8.
  (* the repository *)
  destruct (first_plus_class Re.not_slash repo1 repo EmptyString [(1, prefix)] Hr1 Hr I)
    as [m9 H9].
  rewrite append_nil_r in H9.
  destruct (first_group 2 _ _ _ _ _ _ H9) as [m10 H10].
  rewrite take_all in H10.
  assert (H11 : exists m,
              Re.matches (Re.Seq (Re.Group 2 (Re.Plus true (Re.Class Re.not_slash))) Re.Eol)
                (String repo1 repo) [(1, prefix)]
              = ([(2, String repo1 repo); (1, prefix)], EmptyString) :: m).
  { eapply first_seq; [exact H10|reflexivity]. }
  destruct H11 as [m11 H11].
  assert (H12 : exists m,
              Re.matches
                (Re.Seq (Re.Lit "/_git/")
                   (Re.Seq (Re.Group 2 (Re.Plus true (Re.Class Re.not_slash))) Re.Eol))
                rest [(1, prefix)]
              = ([(2, String repo1 repo); (1, prefix)], EmptyString) :: m).
  { eapply first_seq; [apply matches_lit|exact H11]. }
  destruct H12 as [m12 H12].
  destruct (first_seq _ _ _ _ _ _ _ _ _ H8 H12) as [m13 H13].
  exact (rmatch_first _ _ _ _ _ H13).
Qed.

Lemma not_slash_sep : forall s,
  Str.forallb Re.not_slash s = true ->
  Str.forallb (fun c => negb (Ascii.eqb c "/")) s = true.
Proof. intros s H. exact H. Qed.

Lemma azure_repo_of_url_shape : forall tail org project repo,
  (tail = EmptyString \/ tail = "s") ->
  org <> EmptyString -> project <> EmptyString -> repo <> EmptyString ->
  Str.forallb Re.not_slash org = true ->
  Str.forallb Re.not_slash project = true ->
  Str.forallb Re.not_slash repo = true ->
  azure_repo_of_url
    ("http" ++ tail ++ "://dev.azure.com/" ++ org ++ "/" ++ project ++ "/_git/" ++ repo)
  = Some (("http" ++ tail ++ "://dev.azure.com/" ++ org)%string, project, repo).
Proof.
  intros tail org project repo Htail Ho Hp Hr Horg Hproject Hrepo.
  destruct org as [|o1 org]; [contradiction|].
  destruct project as [|p1 project]; [contradiction|].
  destruct repo as [|r1 repo]; [contradiction|].
  pose proof (azure_re_first tail o1 org p1 project r1 repo Htail Horg Hproject Hrepo) as H.
  cbv zeta in H.
  assert (Eurl : ("http" ++ tail ++ "://dev.azure.com/" ++ String o1 org ++ "/"
                    ++ String p1 project ++ "/_git/" ++ String r1 repo)%string
                 = (("http" ++ tail ++ "://dev.azure.com/" ++ String o1 org ++ "/"
                       ++ String p1 project) ++ "/_git/" ++ String r1 repo)%string).
  { now rewrite !str_app_assoc. }
  unfold azure_repo_of_url. rewrite Eurl, H.
  cbn [Re.group Nat.eqb]. unfold split_char.
  assert (Esplit : ("http" ++ tail ++ "://dev.azure.com/" ++ String o1 org ++ "/"
                      ++ String p1 project)%string
                   = (("http" ++ tail ++ "://dev.azure.com/" ++ String o1 org)
                        ++ String "/" (String p1 project))%string).
  { now rewrite !str_app_assoc. }
  rewrite Esplit, (split_char_last "/" _ _ EmptyString (not_slash_sep _ Hproject)).
  rewrite removelast_last, last_last.
  change (Str.join "/") with (Str.join (String "/" EmptyString)).
  now rewrite join_split_char.
Qed.

(** *** GitHub remotes: the lazy repository name *)

Lemma matches_plus_lazy_cons : forall p c s cs,
  Re.matches (Re.Plus false (Re.Class p)) (String c s) cs =
  if p c then Re.star_loop (Re.matches (Re.Class p)) false (String.length s) s cs else [].
Proof.
  intros p c s cs. unfold Re.Plus.
  change (Re.matches (Re.Seq (Re.Class p) (Re.Star false (Re.Class p))) (String c s) cs)
    with (flat_map
            (fun x : Re.partial =>
               Re.star_loop (Re.matches (Re.Class p)) false (String.length (snd x))
                 (snd x) (fst x))
            (Re.matches (Re.Class p) (String c s) cs)).
  rewrite matches_class_cons. destruct (p c); [|reflexivity].
  cbn [flat_map snd fst]. apply app_nil_r.
Qed.

Lemma flat_map_map : forall A B C (g : A -> B) (f : B -> list C) l,
  flat_map f (List.map g l) = flat_map (fun x => f (g x)) l.
Proof.
  intros A B C g f l. induction l as [|x l IH]; simpl; [reflexivity|now rewrite IH].
Qed.

(** The shortest repetition after which the rest of the pattern matches is
    the one taken. *)
Lemma lazy_first : forall p (H : Re.partial -> list Re.partial) t1 t2 n cs y ys,
  Str.forallb p t1 = true ->
  String.length (t1 ++ t2) <= n ->
  (forall k, k < String.length t1 -> H (cs, Str.drop k (t1 ++ t2)%string) = []) ->
  H (cs, t2) = y :: ys ->
  exists m,
    flat_map H (Re.star_loop (Re.matches (Re.Class p)) false n (t1 ++ t2)%string cs)
    = y :: m.
Proof.
  intros p H t1. induction t1 as [|c t1 IH]; intros t2 n cs y ys Hall Hn Hskip Hy.
  - cbn [append]. destruct n as [|n].
    + cbn [Re.star_loop flat_map]. rewrite Hy. eexists. reflexivity.
    + rewrite star_loop_succ. cbv zeta. cbn [flat_map]. rewrite Hy. eexists. reflexivity.
  - cbn [append String.length Str.forallb] in *.
    apply andb_true_iff in Hall. destruct Hall as [Hc Hall].
    destruct n as [|n]; [lia|].
    rewrite star_loop_succ. cbv zeta. cbn [flat_map].
    pose proof (Hskip 0 ltac:(lia)) as H0. cbn [Str.drop] in H0. rewrite H0. cbn [app].
    rewrite matches_class_cons, Hc. cbn [flat_map snd fst String.length].
    assert (Hlt : (String.length (t1 ++ t2) <? Datatypes.S (String.length (t1 ++ t2)))
                  = true) by (apply Nat.ltb_lt; lia).
    rewrite Hlt, app_nil_r.
    apply (IH t2 n cs y ys Hall ltac:(lia)); [|exact Hy].
    intros k Hk. exact (Hskip (Datatypes.S k) ltac:(lia)).
Qed.

Lemma matches_lit_in : forall l r cs cs' rest,
  In (cs', rest) (Re.matches (Re.Lit l) r cs) -> r = (l ++ rest)%string /\ cs' = cs.
Proof.
  induction l as [|c l IH]; intros r cs cs' rest H.
  - destruct H as [H|[]]. now injection H as <- <-.
  - change (Re.Lit (String c l)) with (Re.Seq (Re.Chr c) (Re.Lit l)) in H.
    rewrite matches_seq in H. apply in_flat_map in H. destruct H as [[cs1 r1] [H1 H2]].
    destruct r as [|d r]; [destruct H1|]. rewrite matches_chr_cons in H1.
    destruct (Ascii.eqb c d) eqn:E; [|destruct H1]. destruct H1 as [H1|[]].
    injection H1 as <- <-. apply Ascii.eqb_eq in E. subst d.
    cbn [snd fst] in H2. destruct (IH _ _ _ _ H2) as [-> ->]. auto.
Qed.

Lemma eol_in : forall r cs x,
  In x (Re.matches Re.Eol r cs) -> r = EmptyString \/ r = String "010" EmptyString.
Proof.
  intros r cs x H. destruct r as [|a r]; [now left|]. right.
  destruct a as [[] [] [] [] [] [] [] []]; cbn in H; try contradiction.
  destruct r; [reflexivity|contradiction].
Qed.

Lemma git_suffix_fails : forall r cs,
  Str.forallb Re.dot r = true ->
  r <> EmptyString -> r <> ".git" ->
  Re.matches GIT_SUFFIX r cs = [].
Proof.
  intros r cs Hdot Hne Hgit.
  destruct (Re.matches GIT_SUFFIX r cs) as [|[cs' rest] xs] eqn:E; [reflexivity|].
  exfalso.
  assert (Hin : In (cs', rest) (Re.matches GIT_SUFFIX r cs)) by (rewrite E; now left).
  unfold GIT_SUFFIX in Hin. rewrite matches_seq in Hin. apply in_flat_map in Hin.
  destruct Hin as [[cs1 r1] [H1 H2]]. cbn [snd fst] in H2.
  pose proof (eol_in _ _ _ H2) as Heol.
  change (Re.matches (Re.Opt true (Re.Lit ".git")) r cs)
    with (Re.matches (Re.Lit ".git") r cs ++ [(cs, r)]) in H1.
  apply in_app_or in H1. destruct H1 as [H1|[H1|[]]].
  - apply matches_lit_in in H1. destruct H1 as [-> _].
    destruct Heol as [-> | ->]; [now apply Hgit|discriminate].
  - injection H1 as _ <-. destruct Heol as [-> | ->]; [now apply Hne|discriminate].
Qed.

Lemma drop_length : forall k s, String.length (Str.drop k s) = String.length s - k.
Proof.
  induction k as [|k IH]; intros s; [simpl; lia|].
  destruct s as [|c s]; [reflexivity|]. simpl. apply IH.
Qed.

Lemma forallb_drop : forall p k s,
  Str.forallb p s = true -> Str.forallb p (Str.drop k s) = true.
Proof.
  intros p. induction k as [|k IH]; intros s H; [exact H|].
  destruct s as [|c s]; [reflexivity|]. simpl in *.
  apply andb_true_iff in H. destruct H as [_ H]. now apply IH.
Qed.

Lemma endswith_drop : forall suf s k,
  suf <> EmptyString ->
  Str.drop k s = suf -> Str.endswith suf s = true.
Proof.
  intros suf s k Hne H. unfold Str.endswith.
  pose proof (drop_length k s) as Hlen. rewrite H in Hlen.
  assert (Hpos : 0 < String.length suf) by (destruct suf; [contradiction|simpl; lia]).
  replace (String.length s - String.length suf) with k by lia.
  rewrite H, String.eqb_refl.
  assert (Hle : (String.length suf <=? String.length s) = true) by (apply Nat.leb_le; lia).
  now rewrite Hle.
Qed.

(** The repository part of a GitHub remote: the name, with one [.git]
    taken off when the URL ends with it. *)
Lemma repo_name_first : forall c name suffix cs,
  Str.forallb Re.dot (String c name) = true ->
  (suffix = ".git" \/ (suffix = EmptyString /\ Str.endswith ".git" (String c name) = false)) ->
  exists m,
    Re.matches (Re.Seq (Re.Group 2 (Re.Plus false (Re.Class Re.dot))) GIT_SUFFIX)
      (String c name ++ suffix)%string cs
    = ((2, String c name) :: cs, EmptyString) :: m.
Proof.
  intros c name suffix cs Hdot Hsuf.
  cbn [Str.forallb] in Hdot. apply andb_true_iff in Hdot. destruct Hdot as [Hc Hname].
  rewrite matches_seq.
  change (Re.matches (Re.Group 2 (Re.Plus false (Re.Class Re.dot)))
            (String c name ++ suffix)%string cs)
    with (List.map
            (fun x : Re.partial =>
               ((2, Str.take (String.length (String c name ++ suffix)
                              - String.length (snd x)) (String c name ++ suffix)%string)
                  :: fst x, snd x))
            (Re.matches (Re.Plus false (Re.Class Re.dot))
               (String c name ++ suffix)%string cs)).
  rewrite flat_map_map. cbn [snd fst].
  change (String c name ++ suffix)%string with (String c (name ++ suffix)) at 3.
  rewrite matches_plus_lazy_cons, Hc.
  assert (Hdots : Str.forallb Re.dot suffix = true)
    by (destruct Hsuf as [-> | [-> _]]; reflexivity).
  eapply lazy_first with (ys := []); [exact Hname|apply le_n| |].
  - intros k Hk. cbv beta. cbn [snd fst]. apply git_suffix_fails.
    + apply forallb_drop. now rewrite forallb_append, Hname, Hdots.
    + intros E. apply (f_equal String.length) in E.
      rewrite drop_length, length_append in E. simpl in E. lia.
    + intros E. destruct Hsuf as [-> | [-> Hend]].
      * apply (f_equal String.length) in E.
        rewrite drop_length, length_append in E. simpl in E. lia.
      * rewrite append_nil_r in E.
        assert (Hd : Str.drop (Datatypes.S k) (String c name) = ".git") by exact E.
        rewrite (endswith_drop ".git" _ _ ltac:(discriminate) Hd) in Hend. discriminate.
  - cbv beta. cbn [snd fst]. rewrite take_prefix. destruct Hsuf as [-> | [-> _]]; reflexivity.
Qed.

Lemma github_re_first : forall o owner c name suffix,
  Str.forallb Re.not_slash (String o owner) = true ->
  Str.forallb Re.dot (String c name) = true ->
  (suffix = ".git" \/ (suffix = EmptyString /\ Str.endswith ".git" (String c name) = false)) ->
  exists m,
    Re.matches
      (Re.Seq (Re.Group 1 (Re.Plus true (Re.Class Re.not_slash)))
         (Re.Seq (Re.Chr "/")
            (Re.Seq (Re.Group 2 (Re.Plus false (Re.Class Re.dot))) GIT_SUFFIX)))
      (String o owner ++ "/" ++ String c name ++ suffix)%string []
    = ([(2, String c name); (1, String o owner)], EmptyString) :: m.
Proof.
  intros o owner c name suffix Howner Hname Hsuf.
  cbn [Str.forallb] in Howner. apply andb_true_iff in Howner. destruct Howner as [Ho Howner].
  destruct (first_plus_class Re.not_slash o owner ("/" ++ String c name ++ suffix)%string
              [] Ho Howner eq_refl) as [m1 H1].
  destruct (first_group 1 _ _ _ _ _ _ H1) as [m2 H2]. rewrite take_prefix in H2.
  destruct (repo_name_first c name suffix [(1, String o owner)] Hname Hsuf) as [m3 H3].
  assert (H4 : exists m,
             Re.matches
               (Re.Seq (Re.Chr "/")
                  (Re.Seq (Re.Group 2 (Re.Plus false (Re.Class Re.dot))) GIT_SUFFIX))
               ("/" ++ String c name ++ suffix)%string [(1, String o owner)]
             = ([(2, String c name); (1, String o owner)], EmptyString) :: m).
  { eapply first_seq; [reflexivity|exact H3]. }
  destruct H4 as [m4 H4].
  exact (first_seq _ _ _ _ _ _ _ _ _ H2 H4).
Qed.

Lemma github_https_first : forall tail rest y m,
  (tail = EmptyString \/ tail = "s") ->
  Re.matches
    (Re.Seq (Re.Group 1 (Re.Plus true (Re.Class Re.not_slash)))
       (Re.Seq (Re.Chr "/")
          (Re.Seq (Re.Group 2 (Re.Plus false (Re.Class Re.dot))) GIT_SUFFIX)))
    rest [] = y :: m ->
  exists m',
    Re.matches GITHUB_HTTPS_RE ("http" ++ tail ++ "://github.com/" ++ rest)%string []
    = y :: m'.
Proof.
  intros tail rest y m Htail H.
  assert (H1 : exists m1,
             Re.matches
               (Re.Seq (Re.Lit "://github.com/")
                  (Re.Seq (Re.Group 1 (Re.Plus true (Re.Class Re.not_slash)))
                     (Re.Seq (Re.Chr "/")
                        (Re.Seq (Re.Group 2 (Re.Plus false (Re.Class Re.dot))) GIT_SUFFIX))))
               ("://github.com/" ++ rest)%string [] = y :: m1).
  { eapply first_seq; [apply matches_lit|exact H]. }
  destruct H1 as [m1 H1].
  assert (H2 : exists m2,
             Re.matches
               (Re.Seq (Re.Opt true (Re.Chr "s"))
                  (Re.Seq (Re.Lit "://github.com/")
                     (Re.Seq (Re.Group 1 (Re.Plus true (Re.Class Re.not_slash)))
                        (Re.Seq (Re.Chr "/")
                           (Re.Seq (Re.Group 2 (Re.Plus false (Re.Class Re.dot)))
                              GIT_SUFFIX)))))
               (tail ++ "://github.com/" ++ rest)%string [] = y :: m2).
  { destruct Htail as [-> | ->]; (eapply first_seq; [reflexivity|exact H1]). }
  destruct H2 as [m2 H2].
  unfold GITHUB_HTTPS_RE. eapply first_seq; [apply matches_lit|exact H2].
Qed.

Lemma github_repo_of_url_shape : forall prefix owner name suffix,
  (prefix = "git@github.com:" \/ prefix = "https://github.com/"
   \/ prefix = "http://github.com/") ->
  owner <> EmptyString -> name <> EmptyString ->
  Str.forallb Re.not_slash owner = true ->
  Str.forallb Re.dot name = true ->
  (suffix = ".git" \/ (suffix = EmptyString /\ Str.endswith ".git" name = false)) ->
  github_repo_of_url (prefix ++ owner ++ "/" ++ name ++ suffix)
  = Some (owner ++ "/" ++ name)%string.
Proof.
  intros prefix owner name suffix Hprefix Ho Hn Howner Hname Hsuf.
  destruct owner as [|o owner]; [contradiction|].
  destruct name as [|c name]; [contradiction|].
  destruct (github_re_first o owner c name suffix Howner Hname Hsuf) as [m H].
  unfold github_repo_of_url.
  destruct Hprefix as [-> | [-> | ->]].
  - assert (Hm : exists m',
               Re.matches GITHUB_SSH_RE
                 ("git@github.com:" ++ String o owner ++ "/" ++ String c name ++ suffix)%string []
               = ([(2, String c name); (1, String o owner)], EmptyString) :: m').
    { unfold GITHUB_SSH_RE. eapply first_seq; [apply matches_lit|exact H]. }
    destruct Hm as [m' Hm]. rewrite (rmatch_first _ _ _ _ _ Hm). reflexivity.
  - assert (Hssh : Re.rmatch GITHUB_SSH_RE
                     ("https://github.com/" ++ String o owner ++ "/" ++ String c name
                        ++ suffix)%string = None) by reflexivity.
    rewrite Hssh.
    destruct (github_https_first "s" _ _ _ (or_intror eq_refl) H) as [m' Hm].
    change ("http" ++ "s" ++ "://github.com/" ++ String o owner ++ "/" ++ String c name
              ++ suffix)%string
      with ("https://github.com/" ++ String o owner ++ "/" ++ String c name ++ suffix)%string
      in Hm.
    rewrite (rmatch_first _ _ _ _ _ Hm). reflexivity.
  - assert (Hssh : Re.rmatch GITHUB_SSH_RE
                     ("http://github.com/" ++ String o owner ++ "/" ++ String c name
                        ++ suffix)%string = None) by reflexivity.
    rewrite Hssh.
    destruct (github_https_first EmptyString _ _ _ (or_introl eq_refl) H) as [m' Hm].
    change ("http" ++ EmptyString ++ "://github.com/" ++ String o owner ++ "/"
              ++ String c name ++ suffix)%string
      with ("http://github.com/" ++ String o owner ++ "/" ++ String c name ++ suffix)%string
      in Hm.
    rewrite (rmatch_first _ _ _ _ _ Hm). reflexivity.
Qed.

(** X13. On Azure DevOps the evidence comment is posted, never updated:
    against the thread service of a pull request, runs with the texts
    [bodies] add one thread for each text, in order, whatever threads are
    there already. *)
Theorem azure_evidence_appends :
  forall (env : Env (list string)) org project repo pr_id pat bodies
         (w : World (list string)),
    serve env = AzureSim.serve org project repo pr_id ->
    pr_id <> 0%Z ->
    exists w',
      azure_post_each env org project repo pat pr_id bodies w = (Ok tt, w')
      /\ remote w' = remote w ++ bodies.
Proof.
  intros env org project repo pr_id pat bodies w served Hn. revert w.
  induction bodies as [|b rest IH]; intros w.
  - exists w. split; [reflexivity|now rewrite app_nil_r].
  - destruct (azure_post_appends env org project repo pr_id served pat b w Hn)
      as [w1 [H1 Hr1]].
    destruct (IH w1) as [w' [H' Hr']].
    exists w'. split.
    + cbn [azure_post_each]. rewrite (bind_ok _ _ _ _ _ _ _ _ H1). exact H'.
    + rewrite Hr', Hr1, <- app_assoc. reflexivity.
Qed.

(** *** Where the state file is *)

Lemma append_inv_head : forall a x y : string, (a ++ x)%string = (a ++ y)%string -> x = y.
Proof.
  induction a as [|c a IH]; intros x y H; [exact H|].
  cbn [append] in H. injection H as H. auto.
Qed.

Lemma append_inv_tail : forall s x y : string, (x ++ s)%string = (y ++ s)%string -> x = y.
Proof.
  intros s x. induction x as [|c x IH]; intros y H.
  - destruct y as [|d y]; [reflexivity|].
    apply (f_equal String.length) in H. rewrite !length_append in H.
    cbn [String.length] in H. lia.
  - destruct y as [|d y].
    + apply (f_equal String.length) in H. rewrite !length_append in H.
      cbn [String.length] in H. lia.
    + cbn [append] in H. injection H as -> H. now rewrite (IH y H).
Qed.

Lemma eqb_append_longer : forall a x,
  x <> EmptyString -> String.eqb (a ++ x) a = false.
Proof.
  intros a x Hx. apply String.eqb_neq. intros E.
  apply (f_equal String.length) in E. rewrite length_append in E.
  destruct x; [contradiction|]. simpl in E. lia.
Qed.

Lemma relative_to_under_eq : forall root x,
  x <> EmptyString ->
  relative_to root (root ++ "/" ++ x)%string = Some x.
Proof.
  intros root x Hx. unfold relative_to.
  rewrite eqb_append_longer by discriminate.
  replace (root ++ "/" ++ x)%string with ((root ++ "/") ++ x)%string
    by apply str_app_assoc.
  rewrite startswith_app.
  replace (String.length root + 1) with (String.length (root ++ "/"))
    by (rewrite length_append; reflexivity).
  now rewrite drop_app.
Qed.

Lemma state_path_valid : forall root id,
  Re.fullmatch STORY_ID_RE id = true ->
  _state_path root id = (root ++ "/" ++ "artifacts/autopilot/" ++ id ++ ".json")%string.
Proof.
  intros root id H. destruct (valid_id_head id H) as [rest ->].
  unfold _state_path, path_join.
  cbn [Str.startswith Ascii.eqb Bool.eqb andb append].
  now rewrite !str_app_assoc.
Qed.

(** X14. The state file of a valid identifier is
    [artifacts/autopilot/<id>.json] under the repository root, and two valid
    identifiers never share it.  [evidence] takes the identifier as it is:
    an identifier that starts with [/] names a state file outside the
    repository. *)
Theorem state_path_spec : forall root,
  (forall id,
     Re.fullmatch STORY_ID_RE id = true ->
     relative_to root (_state_path root id)
     = Some ("artifacts/autopilot/" ++ id ++ ".json")%string)
  /\ (forall id1 id2,
        Re.fullmatch STORY_ID_RE id1 = true ->
        Re.fullmatch STORY_ID_RE id2 = true ->
        _state_path root id1 = _state_path root id2 -> id1 = id2)
  /\ (forall id,
        Str.startswith "/" id = true ->
        _state_path root id = (id ++ ".json")%string).
Proof.
  intros root. split; [|split].
  - intros id H. rewrite (state_path_valid root id H).
    apply relative_to_under_eq. discriminate.
  - intros id1 id2 H1 H2 E.
    rewrite (state_path_valid root id1 H1), (state_path_valid root id2 H2) in E.
    apply append_inv_head in E. apply append_inv_head in E.
    apply (append_inv_head "artifacts/autopilot/") in E.
    now apply append_inv_tail in E.
  - intros id H. unfold _state_path, path_join.
    destruct id as [|c id]; [discriminate|].
    cbn [Str.startswith] in H. rewrite andb_true_r in H.
    cbn [append Str.startswith]. now rewrite H.
Qed.

Lemma state_path_spec_witness :
  relative_to "/r" (_state_path "/r" "ACF-12") = Some "artifacts/autopilot/ACF-12.json"
  /\ "ACF-12" = "ACF-12"
  /\ _state_path "/r" "/tmp/ACF-12" = "/tmp/ACF-12.json".
Proof.
  split; [|split].
  - refine (proj1 (state_path_spec "/r") "ACF-12" _). vm_compute. reflexivity.
  - refine (proj1 (proj2 (state_path_spec "/r")) "ACF-12" "ACF-12" _ _ _);
      vm_compute; reflexivity.
  - refine (proj2 (proj2 (state_path_spec "/r")) "/tmp/ACF-12" _). vm_compute. reflexivity.
Defined.

(** *** The frontmatter is searched in lines 2 to 80 *)

(** X15. The frontmatter title depends on the first eighty lines of the
    story only: a [title:] further down is not seen. *)
Theorem frontmatter_first_80_lines : forall c1 c2,
  Str.startswith "---" c1 = Str.startswith "---" c2 ->
  firstn 80 (Str.splitlines c1) = firstn 80 (Str.splitlines c2) ->
  frontmatter_title c1 = frontmatter_title c2.
Proof.
  intros c1 c2 Hs Hl. unfold frontmatter_title. rewrite Hs.
  destruct (Str.startswith "---" c2); [|reflexivity].
  rewrite !(firstn_skipn_comm 79 1). cbn [Nat.add]. now rewrite Hl.
Qed.


(** *** [evidence] after a dry run of [start] *)

Lemma dict_get_set_same : forall k v d, Dict.get k (Dict.set k v d) = Some v.
Proof.
  intros k v d. induction d as [|[k' v'] d IH]; simpl.
  - now rewrite String.eqb_refl.
  - destruct (String.eqb k k') eqn:E; simpl.
    + now rewrite String.eqb_refl.
    + now rewrite E.
Qed.

Section DryThenEvidence.
Context {S : Type} (env : Env S).

Lemma start_integrate_dry_block : forall args c (w : World S) rel1 rel2,
  integration_ready env args (effective_provider c) = true ->
  dry_run args = true ->
  relative_to (repo_root c) (story_file c) = Some rel1 ->
  relative_to (repo_root c) (review_pack c) = Some rel2 ->
  exists pref block,
    start_integrate env args c w = (Ok (pref, set_provider (JObj block) (state c)), w)
    /\ no_pull_request block.
Proof.
  intros args c w rel1 rel2 Hr Hd H1 H2. unfold start_integrate, integration_ready in *.
  destruct (String.eqb (effective_provider c) "github").
  - unfold start_github. apply andb_true_iff in Hr. destruct Hr as [-> ->].
    rewrite Hd. unfold _github_find_or_create_issue, _github_create_pr, _compose_pr_body.
    rewrite H1, H2. rewrite andb_false_r.
    cbv [bind ret lift negb orb andb].
    eexists. eexists. split; [reflexivity|].
    left. split; [reflexivity|]. eexists. split; reflexivity.
  - destruct (String.eqb (effective_provider c) "azuredevops"); [|discriminate].
    unfold start_azure. destruct (azure_coordinates env args) as [[o p] r].
    repeat (apply andb_true_iff in Hr; destruct Hr as [Hr ->]). rewrite Hr, Hd.
    unfold _azure_wiql_find_work_item, _azure_create_work_item, _azure_create_pr,
      _azure_link_work_item_to_pr, _compose_pr_body.
    rewrite H1, H2. rewrite andb_false_r.
    cbv [bind ret lift negb orb andb get_default get_opt int_or_0 Dict.get String.eqb
         Ascii.eqb Bool.eqb json_truthy Z.eqb opt_Z_or_0].
    eexists. eexists. split; [reflexivity|].
    right. split; reflexivity.
Qed.

Lemma start_finish_dry_state : forall args c pref st (w : World S) rel1 rel2,
  dry_run args = true ->
  relative_to (repo_root c) (review_pack c) = Some rel1 ->
  relative_to (repo_root c) (state_file c) = Some rel2 ->
  exists w',
    start_finish env args c (pref, st) w = (Ok 0%Z, w')
    /\ Fs.lookup (state_file c) (jsons w') = Some st.
Proof.
  intros args c pref st w rel1 rel2 Hd H1 H2. unfold start_finish.
  rewrite Hd, H1, H2. destruct w as [tx js rm tk tr].
  cbv [bind ret lift lift_opt when negb andb _write_json _ensure_dir emit print
       texts jsons remote ticks trace].
  destruct (opt_json_truthy (issue pref)); destruct (opt_json_truthy (pr pref));
    eexists; (split; [reflexivity|]); apply lookup_write_same.
Qed.

Lemma evidence_no_pull_request : forall args (w : World S) root d block,
  _repo_root env = Ok root ->
  Fs.lookup (_state_path root (ev_story_id args)) (jsons w) = Some (JObj d) ->
  Dict.get "provider" d = Some (JObj block) ->
  no_pull_request block ->
  fst (cmd_evidence env args w) = Err MissingProviderInfo
  /\ offline_step w (snd (cmd_evidence env args w)).
Proof.
  intros args w root d block Hroot Hst Hprov Hno.
  unfold cmd_evidence.
  cbv [bind lift get_jsons]. rewrite Hroot. cbv iota beta. rewrite Hst.
  destruct (get_default "storyTitle" (JStr "Untitled") (JObj d)) as [title|e] eqn:Ht;
    [|cbn [get_default] in Ht; destruct (Dict.get "storyTitle" d); discriminate].
  assert (Hrest : forall v : World S,
             fst ((comment <- _local_evidence_summary env (ev_story_id args) (py_str title) ;;
                   prov <- lift (get_default "provider" (JObj []) (JObj d)) ;;
                   provider_ <- lift (get_opt "kind" prov) ;;
                   if is_str "github" provider_
                   then evidence_github env args prov EVIDENCE_MARKER comment
                   else if is_str "azuredevops" provider_
                        then evidence_azure env args prov EVIDENCE_MARKER comment
                        else fail NoProviderConfigured) v) = Err MissingProviderInfo
             /\ offline_step v
                  (snd ((comment <- _local_evidence_summary env (ev_story_id args)
                                      (py_str title) ;;
                         prov <- lift (get_default "provider" (JObj []) (JObj d)) ;;
                         provider_ <- lift (get_opt "kind" prov) ;;
                         if is_str "github" provider_
                         then evidence_github env args prov EVIDENCE_MARKER comment
                         else if is_str "azuredevops" provider_
                              then evidence_azure env args prov EVIDENCE_MARKER comment
                              else fail NoProviderConfigured) v))).
  { intros v.
    cbv [_local_evidence_summary bind _now_utc_iso ret lift].
    cbn [get_default]. rewrite Hprov. cbn [get_opt].
    destruct Hno as [[Hkind [p [Hpr Hnum]]] | [Hkind Hid]]; rewrite Hkind.
    - cbn [is_str String.eqb Ascii.eqb Bool.eqb].
      unfold evidence_github. cbv [bind lift]. cbn [get_opt]. rewrite Hpr.
      destruct (Dict.get "repo" block); destruct (Dict.get "apiUrl" block);
        (assert (Hp : json_truthy (JObj p) = true)
           by (destruct p; [discriminate|reflexivity]));
        rewrite Hp; cbn [get_default]; rewrite Hnum;
        cbn [int_or_0 json_truthy Z.eqb negb]; rewrite !orb_true_r;
        cbn [fail fst snd]; (split; [reflexivity|]);
        (split; [reflexivity|]); exists []; cbn [trace];
        (split; [now rewrite app_nil_r|constructor]).
    - cbn [is_str String.eqb Ascii.eqb Bool.eqb].
      unfold evidence_azure. cbv [bind lift]. cbn [get_opt get_default]. rewrite Hid.
      destruct (Dict.get "orgUrl" block); destruct (Dict.get "project" block);
        destruct (Dict.get "repo" block);
        cbn [int_or_0 json_truthy Z.eqb negb]; rewrite !orb_true_r;
        cbn [fail fst snd]; (split; [reflexivity|]);
        (split; [reflexivity|]); exists []; cbn [trace];
        (split; [now rewrite app_nil_r|constructor]). }
  pose proof (run_local_checks_ok env args w) as Hok.
  pose proof (offline_run_local_checks env args w) as Hoff.
  unfold when. destruct (ev_run_local args).
  - destruct (run_local_checks env args w) as [[[]|e] w1]; [|discriminate].
    cbn [snd] in Hoff. destruct (Hrest w1) as [Hr1 Hr2].
    split; [exact Hr1|]. eapply offline_trans; [exact Hoff|exact Hr2].
  - cbn [ret]. exact (Hrest w).
Qed.

End DryThenEvidence.

(** X16. A dry run of [start] that goes through the provider path, the
    credentials and the coordinates being there, records the pull request
    number 0.  [evidence] for the same story on the state it leaves fails
    with MissingProviderInfo and sends no request, with or without
    [--dry-run]. *)
Theorem evidence_after_dry_start :
  forall S (env : Env S) args ev (w : World S) n w',
    dry_run args = true ->
    integration_ready env args (resolve_provider env (provider args)) = true ->
    cmd_start env args w = (Ok n, w') ->
    ev_story_id ev = story_id args ->
    fst (cmd_evidence env ev w') = Err MissingProviderInfo
    /\ offline_step w' (snd (cmd_evidence env ev w')).
Proof.
  intros S env args ev w n w' Hd Hready Hrun Hid. unfold cmd_start in Hrun.
  apply bind_inv in Hrun. destruct Hrun as [c [w1 [Hprep Hrun]]].
  apply bind_inv in Hrun. destruct Hrun as [r [w2 [Hint Hfin]]].
  destruct (start_prepare_ok env args w c w1 Hprep)
    as [Hroot [Hparse [[rel Hrel] [_ [Hpack [Hfile [Hprov [[d [Hstate Hd0]] _]]]]]]]].
  pose proof (parse_story_valid _ _ _ _ Hparse) as Hvalid.
  destruct (artifact_paths_relative (repo_root c) (story_id args) Hvalid)
    as [[rel1 Hrel1] [rel2 Hrel2]].
  rewrite <- Hpack in Hrel1. rewrite <- Hfile in Hrel2. rewrite <- Hprov in Hready.
  destruct (start_integrate_dry_block env args c w1 rel rel1 Hready Hd Hrel Hrel1)
    as [pref [block [Hint' Hno]]].
  rewrite Hint' in Hint. injection Hint as <- <-.
  destruct (start_finish_dry_state env args c pref (set_provider (JObj block) (state c))
              w1 rel1 rel2 Hd Hrel1 Hrel2) as [w3 [Hfin' Hlook]].
  rewrite Hfin' in Hfin. injection Hfin as _ <-.
  rewrite Hstate in Hlook. cbn [set_provider] in Hlook.
  apply (evidence_no_pull_request env ev w3 (repo_root c)
           (Dict.set "provider" (JObj block) d) block Hroot).
  - rewrite Hid, <- Hfile. exact Hlook.
  - apply dict_get_set_same.
  - exact Hno.
Qed.

(** *** The live subprocesses of a run *)

Lemma quiet_refl : forall S (w : World S), same_commands w w.
Proof. intros S w. reflexivity. Qed.

Lemma quiet_trans : forall S (w1 w2 w3 : World S),
  same_commands w1 w2 -> same_commands w2 w3 -> same_commands w1 w3.
Proof. intros S w1 w2 w3 H1 H2. unfold same_commands in *. congruence. Qed.

Section Quiet.
Context {S : Type} (env : Env S).

Lemma quiet_ret : forall A (a : A), respects (@same_commands S) (ret a).
Proof. intros. apply respects_ret, quiet_refl. Qed.

Lemma quiet_fail : forall A e, respects (@same_commands S) (@fail S A e).
Proof. intros. apply respects_fail, quiet_refl. Qed.

Lemma quiet_lift : forall A (r : Result A), respects (@same_commands S) (lift r).
Proof. intros. apply respects_lift, quiet_refl. Qed.

Lemma quiet_lift_opt : forall A e (o : option A),
  respects (@same_commands S) (lift_opt e o).
Proof. intros. apply respects_lift_opt, quiet_refl. Qed.

Lemma quiet_bind : forall A B (m : M S A) (k : A -> M S B),
  respects same_commands m -> (forall a, respects same_commands (k a)) ->
  respects same_commands (bind m k).
Proof. intros. apply respects_bind; auto. apply quiet_trans. Qed.

Lemma quiet_when : forall b (m : M S unit),
  respects same_commands m -> respects same_commands (when b m).
Proof. intros. apply respects_when; auto. apply quiet_refl. Qed.

Lemma quiet_emit : forall e, is_cmd e = false -> respects same_commands (@emit S e).
Proof.
  intros e He w. unfold same_commands. cbn [emit snd trace].
  rewrite commands_app. destruct e; try discriminate; cbn [commands]; apply app_nil_r.
Qed.

Lemma quiet_print : forall l, respects same_commands (@print S l).
Proof. intros. now apply quiet_emit. Qed.

Lemma quiet_ensure_dir : forall p, respects same_commands (@_ensure_dir S p).
Proof. intros. now apply quiet_emit. Qed.

Lemma quiet_now : respects same_commands (_now_utc_iso env).
Proof. intros w. reflexivity. Qed.

Lemma quiet_get_texts : respects same_commands (@get_texts S).
Proof. intros w. reflexivity. Qed.

Lemma quiet_get_jsons : respects same_commands (@get_jsons S).
Proof. intros w. reflexivity. Qed.

Lemma quiet_write_text : forall p c, respects same_commands (@write_text S p c).
Proof.
  intros p c. unfold write_text. apply quiet_bind; [now apply quiet_emit|intros _ w].
  reflexivity.
Qed.

Lemma quiet_write_json : forall p d, respects same_commands (@_write_json S p d).
Proof.
  intros p d. unfold _write_json. apply quiet_bind; [apply quiet_ensure_dir|intros _].
  apply quiet_bind; [now apply quiet_emit|intros _ w]. reflexivity.
Qed.

Lemma quiet_http_json : forall m u h b a, respects same_commands (_http_json env m u h b a).
Proof.
  intros m u h b a w. unfold _http_json, same_commands.
  destruct (serve env _ (remote w)) as [reply r'].
  destruct reply; cbn [snd trace]; try reflexivity;
    rewrite commands_app; apply app_nil_r.
Qed.

End Quiet.

Create HintDb quiet.
#[export] Hint Resolve quiet_ret quiet_fail quiet_lift quiet_lift_opt quiet_when
  quiet_print quiet_ensure_dir quiet_now quiet_get_texts quiet_get_jsons
  quiet_write_text quiet_write_json quiet_http_json : quiet.

Ltac step_quiet :=
  lazymatch goal with
  | |- respects same_commands (bind _ _) => apply quiet_bind; [|intros]
  | |- respects same_commands (when _ _) => apply quiet_when
  | |- respects same_commands (if ?b then _ else _) => destruct b eqn:?; try discriminate
  | |- respects same_commands (match ?x with _ => _ end) => destruct x eqn:?
  | |- respects same_commands _ => solve [auto with quiet]
  end.

Section QuietRuns.
Context {S : Type} (env : Env S).

Lemma quiet_start_prepare_dry : forall args,
  dry_run args = true -> respects same_commands (start_prepare env args).
Proof.
  intros args Hd. unfold start_prepare, _write_review_pack. rewrite Hd.
  cbn [negb andb when]. repeat step_quiet.
Qed.

Lemma quiet_start_integrate : forall args c,
  respects same_commands (start_integrate env args c).
Proof.
  intros args c.
  unfold start_integrate, start_github, start_azure, _github_find_or_create_issue,
    _github_create_pr, _azure_wiql_find_work_item, _azure_create_work_item,
    _azure_create_pr, _azure_link_work_item_to_pr.
  repeat step_quiet.
Qed.

Lemma quiet_start_finish : forall args c r,
  dry_run args = true \/ commit args = false ->
  respects same_commands (start_finish env args c r).
Proof.
  intros args c [pref st] H. unfold start_finish.
  assert (E : negb (dry_run args) && commit args = false).
  { destruct H as [-> | ->]; [reflexivity|apply andb_false_r]. }
  rewrite E. cbn [andb when]. repeat step_quiet.
Qed.

Lemma quiet_evidence_rest : forall args prov marker comment kind_,
  respects same_commands
    (if is_str "github" kind_ then evidence_github env args prov marker comment
     else if is_str "azuredevops" kind_ then evidence_azure env args prov marker comment
     else fail NoProviderConfigured).
Proof.
  intros args prov marker comment kind_.
  unfold evidence_github, evidence_azure, _github_upsert_pr_comment, _azure_post_pr_comment.
  repeat step_quiet.
Qed.

Lemma run_local_checks_commands : forall args (w : World S),
  commands (trace (snd (run_local_checks env args w)))
  = commands (trace w) ++ validation_commands args.
Proof.
  intros args w. destruct w as [tx js rm tk tr].
  unfold run_local_checks, _git_live, _run_live, validation_commands.
  cbv [bind emit ret when andb texts jsons remote ticks trace].
  destruct (ev_full_verify args); cbn [snd trace];
    rewrite !commands_app; cbn [commands app]; rewrite <- !app_assoc; reflexivity.
Qed.

End QuietRuns.

(** X19. The live subprocesses of [start], the captured queries
    ([git rev-parse], [git status --porcelain], [git remote get-url]) apart.
    A dry run runs none.  A run that is no dry run and has no [--commit] runs
    the four git commands of the local steps and nothing else, whatever the
    provider path does afterwards: it never adds, commits or pushes. *)
Theorem start_commands :
  forall S (env : Env S) args (w : World S),
    (dry_run args = true ->
     commands (trace (snd (cmd_start env args w))) = commands (trace w))
    /\ (forall root file title content rel,
          dry_run args = false ->
          commit args = false ->
          _repo_root env = Ok root ->
          _parse_story (texts w) (path_join root (stories_dir args)) (story_id args)
          = Ok (file, title, content) ->
          relative_to root file = Some rel ->
          _require_clean_worktree env (allow_untracked args) = Ok tt ->
          fst (proc env ["git"; "checkout"; base_branch args]) = 0%Z ->
          let b := ("feature/" ++ story_id args ++ "-" ++ _slugify title)%string in
          fst (proc env ["git"; "checkout"; "-b"; b]) = 0%Z ->
          commands (trace (snd (cmd_start env args w)))
          = commands (trace w)
            ++ [["git"; "fetch"; "origin"; base_branch args];
                ["git"; "checkout"; base_branch args];
                ["git"; "pull"; "--ff-only"];
                ["git"; "checkout"; "-b"; b]]).
Proof.
  intros S env args w. split.
  - intros Hd. revert w. change (respects same_commands (cmd_start env args)).
    unfold cmd_start.
    apply quiet_bind; [now apply quiet_start_prepare_dry|intros c].
    apply quiet_bind; [apply quiet_start_integrate|intros r].
    apply quiet_start_finish. now left.
  - intros root file title content rel Hd Hcm Hroot Hparse Hrel Hclean Hc b Hb.
    destruct (start_prepare_branch_made env args w root file title content rel
                Hd Hroot Hparse Hrel Hclean Hc Hb Hcm) as [c [w1 [Hprep [_ [Hcmds _]]]]].
    unfold cmd_start. rewrite (bind_ok _ _ _ _ _ _ _ _ Hprep).
    assert (Hq : respects same_commands
                   (r <- start_integrate env args c ;; start_finish env args c r)).
    { apply quiet_bind; [apply quiet_start_integrate|intros r].
      apply quiet_start_finish. now right. }
    specialize (Hq w1). unfold same_commands in Hq. rewrite Hq. exact Hcmds.
Qed.

Lemma start_commands_witness :
  commands (trace (snd (cmd_start Demo.github_env Demo.dry_token_args Demo.world)))
  = commands (trace Demo.world)
  /\ commands (trace (snd (cmd_start Demo.github_env Demo.start_args Demo.world)))
     = commands (trace Demo.world)
       ++ [["git"; "fetch"; "origin"; "main"]; ["git"; "checkout"; "main"];
           ["git"; "pull"; "--ff-only"];
           ["git"; "checkout"; "-b"; "feature/ACF-1-hello-world-foo"]].
Proof.
  split.
  - refine (proj1 (start_commands unit Demo.github_env Demo.dry_token_args Demo.world) _).
    reflexivity.
  - refine (proj2 (start_commands unit Demo.github_env Demo.start_args Demo.world)
              "/r" "/r/artifacts/stories/ACF-1.md" "Hello, World!! Foo" Demo.story
              "artifacts/stories/ACF-1.md" _ _ _ _ _ _ _ _);
      vm_compute; reflexivity.
Defined.


(** *** The origin remote, for every name *)

(** X17. Every Azure Repos remote
    [http(s)://dev.azure.com/<org>/<project>/_git/<repo>], the three names
    not empty and without a slash, is recognised: the organisation URL, the
    project and the repository are read off it, and [--provider auto]
    chooses Azure DevOps. *)
Theorem azure_origin_inference :
  forall S (env : Env S) tail org project repo out,
    (tail = EmptyString \/ tail = "s") ->
    org <> EmptyString -> project <> EmptyString -> repo <> EmptyString ->
    Str.forallb Re.not_slash org = true ->
    Str.forallb Re.not_slash project = true ->
    Str.forallb Re.not_slash repo = true ->
    proc env ORIGIN_QUERY = (0%Z, out) ->
    Str.strip out
    = ("http" ++ tail ++ "://dev.azure.com/" ++ org ++ "/" ++ project ++ "/_git/" ++ repo)%string ->
    _azure_repo_from_origin env
    = Some (("http" ++ tail ++ "://dev.azure.com/" ++ org)%string, project, repo)
    /\ resolve_provider env "auto" = "azuredevops".
Proof.
  intros S env tail org project repo out Htail Ho Hp Hr Horg Hproject Hrepo Hproc Hout.
  assert (Hurl : origin_url env = Some (Str.strip out)).
  { apply origin_url_of; [exact Hproc|]. rewrite Hout. discriminate. }
  assert (Hinf : _azure_repo_from_origin env
                 = Some (("http" ++ tail ++ "://dev.azure.com/" ++ org)%string, project, repo)).
  { unfold _azure_repo_from_origin. rewrite Hurl, Hout.
    now apply azure_repo_of_url_shape. }
  split; [exact Hinf|]. unfold resolve_provider. cbn [String.eqb Ascii.eqb Bool.eqb].
  now rewrite Hinf.
Qed.

Lemma azure_origin_inference_witness :
  _azure_repo_from_origin Demo.azure_env
  = Some (("http" ++ "s" ++ "://dev.azure.com/" ++ "acme")%string, "proj", "widgets")
  /\ resolve_provider Demo.azure_env "auto" = "azuredevops".
Proof.
  refine (azure_origin_inference unit Demo.azure_env "s" "acme" "proj" "widgets"
            ("https://dev.azure.com/acme/proj/_git/widgets" ++ nl)%string
            (or_intror eq_refl) _ _ _ _ _ _ _ _);
    try discriminate; vm_compute; reflexivity.
Defined.

(** X18. Every GitHub remote [git@github.com:<owner>/<name>] or
    [http(s)://github.com/<owner>/<name>], with or without a final [.git],
    is recognised as the repository [<owner>/<name>]: the owner is not empty
    and has no slash, the name is not empty, and a name that itself ends with
    [.git] has the suffix after it.  [--provider auto] then chooses
    GitHub. *)
Theorem github_origin_inference :
  forall S (env : Env S) prefix owner name suffix out,
    (prefix = "git@github.com:" \/ prefix = "https://github.com/"
     \/ prefix = "http://github.com/") ->
    owner <> EmptyString -> name <> EmptyString ->
    Str.forallb Re.not_slash owner = true ->
    Str.forallb Re.dot name = true ->
    (suffix = ".git" \/ (suffix = EmptyString /\ Str.endswith ".git" name = false)) ->
    proc env ORIGIN_QUERY = (0%Z, out) ->
    Str.strip out = (prefix ++ owner ++ "/" ++ name ++ suffix)%string ->
    _github_repo_from_origin env = Some (owner ++ "/" ++ name)%string
    /\ resolve_provider env "auto" = "github".
Proof.
  intros S env prefix owner name suffix out Hprefix Ho Hn Howner Hname Hsuf Hproc Hout.
  assert (Hurl : origin_url env = Some (Str.strip out)).
  { apply origin_url_of; [exact Hproc|]. rewrite Hout.
    destruct Hprefix as [-> | [-> | ->]]; discriminate. }
  split.
  - unfold _github_repo_from_origin. rewrite Hurl, Hout.
    now apply github_repo_of_url_shape.
  - unfold resolve_provider, _azure_repo_from_origin.
    cbn [String.eqb Ascii.eqb Bool.eqb]. rewrite Hurl, Hout.
    assert (Hnone : azure_repo_of_url (prefix ++ owner ++ "/" ++ name ++ suffix) = None).
    { destruct Hprefix as [-> | [-> | ->]]; reflexivity. }
    now rewrite Hnone.
Qed.

Lemma github_origin_inference_witness :
  _github_repo_from_origin Demo.github_https_env = Some ("acme" ++ "/" ++ "widgets")%string
  /\ resolve_provider Demo.github_https_env "auto" = "github".
Proof.
  refine (github_origin_inference unit Demo.github_https_env "https://github.com/"
            "acme" "widgets" ".git" ("https://github.com/acme/widgets.git" ++ nl)%string
            (or_intror (or_introl eq_refl)) _ _ _ _ (or_introl eq_refl) _ _);
    try discriminate; vm_compute; reflexivity.
Defined.

(** *** Runs of the extras on the small repository *)

Lemma require_clean_worktree_spec_witness :
  _require_clean_worktree (Demo.status_env 0 Demo.dirty_status) true = Err DirtyWorktree
  /\ _require_clean_worktree (Demo.status_env 1 EmptyString) true
     = Err (CommandFailed STATUS_QUERY).
Proof.
  split.
  - refine (eq_trans
              (proj1 (require_clean_worktree_spec unit
                        (Demo.status_env 0 Demo.dirty_status) true)
                 Demo.dirty_status _) _);
      vm_compute; reflexivity.
  - refine (proj2 (require_clean_worktree_spec unit (Demo.status_env 1 EmptyString) true) _).
    vm_compute. discriminate.
Defined.

Lemma upsert_keeps_other_comments_witness :
  exists w',
    _github_upsert_pr_comment Demo.gh_env "https://api.github.com" "tok" "acme/widgets" 5
      EVIDENCE_MARKER "checks passed" false (Demo.linked_world 2)
    = (Ok tt, w')
    /\ (forall c, In c (GitHubSim.comments (remote (Demo.linked_world 2))) ->
                  Str.contains EVIDENCE_MARKER (snd c) = false ->
                  In c (GitHubSim.comments (remote w')))
    /\ List.length (GitHubSim.comments (remote (Demo.linked_world 2)))
       <= List.length (GitHubSim.comments (remote w'))
       <= Datatypes.S (List.length (GitHubSim.comments (remote (Demo.linked_world 2))))
    /\ exists i,
         In (i, (EVIDENCE_MARKER ++ nl ++ "checks passed")%string)
            (GitHubSim.comments (remote w')).
Proof.
  refine (upsert_keeps_other_comments Demo.gh_env "https://api.github.com" "acme/widgets" 5
            "tok" EVIDENCE_MARKER "checks passed" (Demo.linked_world 2) _ _).
  - reflexivity.
  - vm_compute. repeat constructor; simpl; intuition discriminate.
Defined.

Lemma upsert_each_one_comment_witness :
  exists w',
    upsert_each Demo.gh_env "https://api.github.com" "tok" "acme/widgets" 5 EVIDENCE_MARKER
      ["first"; "second"; "third"] (Demo.linked_world 2)
    = (Ok tt, w')
    /\ GitHubSim.comments (remote w')
       = GitHubSim.comments (remote (Demo.linked_world 2))
         ++ [(GitHubSim.next_id (remote (Demo.linked_world 2)),
              (EVIDENCE_MARKER ++ nl ++ last ["second"; "third"] "first")%string)]
    /\ GitHubSim.marked EVIDENCE_MARKER (remote w')
       = [(GitHubSim.next_id (remote (Demo.linked_world 2)),
           (EVIDENCE_MARKER ++ nl ++ last ["second"; "third"] "first")%string)].
Proof.
  refine (upsert_each_one_comment Demo.gh_env "https://api.github.com" "acme/widgets" 5
            "tok" EVIDENCE_MARKER "first" ["second"; "third"] (Demo.linked_world 2) _ _ _ _).
  - reflexivity.
  - vm_compute. lia.
  - intros c Hc. vm_compute in Hc. destruct Hc as [<-|[<-|[]]]; vm_compute; reflexivity.
  - intros c Hc. vm_compute in Hc. destruct Hc as [<-|[<-|[]]]; vm_compute; discriminate.
Defined.

Lemma github_find_or_create_witness :
  (exists w' req,
     _github_find_or_create_issue (Demo.search_env [Demo.issue 7; Demo.issue 3])
       "https://api.github.com" "tok" "acme/widgets" "ACF-1" "Hello" "text" false Demo.world
     = (Ok (JObj [("number", JNum 7);
                  ("html_url", JStr "https://github.com/acme/widgets/issues/7");
                  ("title", JStr "ACF-1: Hello, World!! Foo")]), w')
     /\ trace w' = trace Demo.world ++ [Http req]
     /\ method req = "GET"
     /\ url req = search_url "https://api.github.com" "acme/widgets" "ACF-1")
  /\ (exists w' q1 q2,
        _github_find_or_create_issue (Demo.search_env [])
          "https://api.github.com" "tok" "acme/widgets" "ACF-1" "Hello" "text" false Demo.world
        = (Ok (JObj [("number", JNum 8);
                     ("html_url", JStr "https://github.com/acme/widgets/issues/8");
                     ("title", JStr "ACF-1: Hello, World!! Foo")]), w')
        /\ trace w' = trace Demo.world ++ [Http q1; Http q2]
        /\ method q1 = "GET"
        /\ url q1 = search_url "https://api.github.com" "acme/widgets" "ACF-1"
        /\ method q2 = "POST"
        /\ url q2 = ("https://api.github.com" ++ "/repos/" ++ "acme/widgets" ++ "/issues")%string
        /\ body q2 =
           Some (JObj [("title", JStr ("ACF-1" ++ ": " ++ "Hello"));
                       ("body", JStr (github_issue_body "ACF-1" "Hello" "text"));
                       ("labels", JArr [JStr "ai-coding-factory"; JStr "autopilot"])])).
Proof.
  split.
  - refine (proj1 (github_find_or_create unit (Demo.search_env [Demo.issue 7; Demo.issue 3])
                     "https://api.github.com" "tok" "acme/widgets" "ACF-1" "Hello" "text"
                     Demo.world
                     (JObj [("total_count", JNum 2);
                            ("items", JArr [Demo.issue 7; Demo.issue 3])]) _)
              (Demo.issue 7) [Demo.issue 3] _ _ _).
    + intros req Hreq. exists tt. cbn [serve Demo.search_env]. rewrite Hreq. reflexivity.
    + reflexivity.
    + vm_compute. reflexivity.
  - refine (proj2 (github_find_or_create unit (Demo.search_env [])
                     "https://api.github.com" "tok" "acme/widgets" "ACF-1" "Hello" "text"
                     Demo.world
                     (JObj [("total_count", JNum 0); ("items", JArr [])]) _)
              (Demo.issue 8) _ _ _ _).
    + intros req Hreq. exists tt. cbn [serve Demo.search_env]. rewrite Hreq. reflexivity.
    + reflexivity.
    + intros req r Hreq. exists r. cbn [serve Demo.search_env]. rewrite Hreq. reflexivity.
    + vm_compute. reflexivity.
Defined.

Lemma azure_evidence_appends_witness :
  exists w',
    azure_post_each Demo.threads_env "https://dev.azure.com/acme" "proj" "widgets" "pat" 9
      ["first run"; "second run"] Demo.threads_world
    = (Ok tt, w')
    /\ remote w' = remote Demo.threads_world ++ ["first run"; "second run"].
Proof.
  refine (azure_evidence_appends Demo.threads_env "https://dev.azure.com/acme" "proj"
            "widgets" 9 "pat" ["first run"; "second run"] Demo.threads_world _ _).
  - reflexivity.
  - discriminate.
Defined.

Lemma frontmatter_first_80_lines_witness :
  frontmatter_title (Demo.long_story "One") = frontmatter_title (Demo.long_story "Two").
Proof.
  refine (frontmatter_first_80_lines (Demo.long_story "One") (Demo.long_story "Two") _ _);
    vm_compute; reflexivity.
Defined.

Lemma evidence_after_dry_start_witness :
  fst (cmd_evidence Demo.github_env Demo.evidence_args
         (snd (cmd_start Demo.github_env Demo.dry_token_args Demo.world)))
  = Err MissingProviderInfo
  /\ offline_step (snd (cmd_start Demo.github_env Demo.dry_token_args Demo.world))
       (snd (cmd_evidence Demo.github_env Demo.evidence_args
               (snd (cmd_start Demo.github_env Demo.dry_token_args Demo.world)))).
Proof.
  refine (evidence_after_dry_start unit Demo.github_env Demo.dry_token_args
            Demo.evidence_args Demo.world 0%Z
            (snd (cmd_start Demo.github_env Demo.dry_token_args Demo.world)) _ _ _ _);
    vm_compute; reflexivity.
Defined.



(** *** [--push] implies [--commit] *)

Lemma review_pack_path_valid : forall root id,
  Re.fullmatch STORY_ID_RE id = true ->
  _review_pack_path root id
  = (root ++ "/" ++ "artifacts/review-pack/" ++ id ++ ".md")%string.
Proof.
  intros root id H. destruct (valid_id_head id H) as [rest ->].
  unfold _review_pack_path, path_join.
  cbn [Str.startswith Ascii.eqb Bool.eqb andb append].
  now rewrite !str_app_assoc.
Qed.

(** X21. [start --push], through [main], commits whether or not [--commit]
    is given.  In a run that is no dry run, once the story is found and the
    work tree is clean, and when the checked git commands succeed, the live
    commands before the provider path are the four local steps, then
    [git add] of the review pack and the state file by their paths relative
    to the repository, [git commit -m "<id>: start autopilot"] and
    [git push -u origin <branch>], in this order. *)
Theorem push_implies_commit :
  forall S (env : Env S) args (w : World S) root file title content rel,
    dry_run args = false ->
    push args = true ->
    _repo_root env = Ok root ->
    _parse_story (texts w) (path_join root (stories_dir args)) (story_id args)
    = Ok (file, title, content) ->
    relative_to root file = Some rel ->
    _require_clean_worktree env (allow_untracked args) = Ok tt ->
    let b := ("feature/" ++ story_id args ++ "-" ++ _slugify title)%string in
    let pack := ("artifacts/review-pack/" ++ story_id args ++ ".md")%string in
    let st := ("artifacts/autopilot/" ++ story_id args ++ ".json")%string in
    let message := (story_id args ++ ": start autopilot")%string in
    fst (proc env ["git"; "checkout"; base_branch args]) = 0%Z ->
    fst (proc env ["git"; "checkout"; "-b"; b]) = 0%Z ->
    fst (proc env ["git"; "add"; pack; st]) = 0%Z ->
    fst (proc env ["git"; "commit"; "-m"; message]) = 0%Z ->
    fst (proc env ["git"; "push"; "-u"; "origin"; b]) = 0%Z ->
    exists c w1,
      main env (Start args) w
      = (r <- start_integrate env (with_commit args) c ;;
         start_finish env (with_commit args) c r) w1
      /\ branch c = b
      /\ commands (trace w1)
         = commands (trace w)
           ++ [["git"; "fetch"; "origin"; base_branch args];
               ["git"; "checkout"; base_branch args];
               ["git"; "pull"; "--ff-only"];
               ["git"; "checkout"; "-b"; b];
               ["git"; "add"; pack; st];
               ["git"; "commit"; "-m"; message];
               ["git"; "push"; "-u"; "origin"; b]].
Proof.
  intros S env args w root file title content rel Hd Hp Hroot Hparse Hrel Hclean
    b pack st message Hc Hb Hadd Hcommit Hpush.
  unfold b, pack, st, message in *. clear b pack st message.
  pose proof (parse_story_valid _ _ _ _ Hparse) as Hvalid.
  assert (Hpack : relative_to root (_review_pack_path root (story_id args))
                  = Some ("artifacts/review-pack/" ++ story_id args ++ ".md")%string).
  { rewrite (review_pack_path_valid root _ Hvalid).
    apply relative_to_under_eq. discriminate. }
  assert (Hstate : relative_to root (_state_path root (story_id args))
                   = Some ("artifacts/autopilot/" ++ story_id args ++ ".json")%string).
  { rewrite (state_path_valid root _ Hvalid).
    apply relative_to_under_eq. discriminate. }
  assert (Hprep : exists c w1,
             start_prepare env (with_commit args) w = (Ok c, w1)
             /\ branch c = ("feature/" ++ story_id args ++ "-" ++ _slugify title)%string
             /\ commands (trace w1)
                = commands (trace w)
                  ++ [["git"; "fetch"; "origin"; base_branch args];
                      ["git"; "checkout"; base_branch args];
                      ["git"; "pull"; "--ff-only"];
                      ["git"; "checkout"; "-b";
                       ("feature/" ++ story_id args ++ "-" ++ _slugify title)%string];
                      ["git"; "add";
                       ("artifacts/review-pack/" ++ story_id args ++ ".md")%string;
                       ("artifacts/autopilot/" ++ story_id args ++ ".json")%string];
                      ["git"; "commit"; "-m"; (story_id args ++ ": start autopilot")%string];
                      ["git"; "push"; "-u"; "origin";
                       ("feature/" ++ story_id args ++ "-" ++ _slugify title)%string]]).
  { destruct w as [tx js rm tk tr]. cbn [texts] in Hparse.
    unfold start_prepare.
    cbn [with_commit dry_run commit push story_id stories_dir base_branch allow_untracked
         provider].
    rewrite Hd, Hp.
    cbv [bind lift lift_opt ret fail when negb andb get_texts _git_live _run_live emit
         _write_review_pack _ensure_dir write_text _now_utc_iso _write_json
         texts jsons remote ticks trace].
    rewrite Hroot. cbv iota beta. rewrite Hparse. cbv iota beta.
    rewrite Hclean. cbv iota beta. rewrite Hc. rewrite Z.eqb_refl. cbv iota beta.
    rewrite Hb. rewrite Z.eqb_refl. cbv iota beta.
    rewrite Hrel. cbv iota beta.
    rewrite Hpack. cbv iota beta. rewrite Hstate. cbv iota beta.
    rewrite Hadd. rewrite Z.eqb_refl. cbv iota beta.
    rewrite Hcommit. rewrite Z.eqb_refl. cbv iota beta.
    rewrite Hpush. rewrite Z.eqb_refl. cbv iota beta.
    eexists. eexists. split; [reflexivity|].
    cbn [branch trace]. split; [reflexivity|].
    rewrite !commands_app. cbn [commands]. rewrite !app_nil_r, <- !app_assoc.
    reflexivity. }
  destruct Hprep as [c [w1 [Hprep [Hbranch Hcmds]]]].
  exists c, w1. split; [|split; [exact Hbranch|exact Hcmds]].
  unfold main. rewrite Hp. unfold cmd_start. now rewrite (bind_ok _ _ _ _ _ _ _ _ Hprep).
Qed.

Lemma push_implies_commit_witness :
  exists c w1,
    main Demo.github_env (Start Demo.push_args) Demo.world
    = (r <- start_integrate Demo.github_env (with_commit Demo.push_args) c ;;
       start_finish Demo.github_env (with_commit Demo.push_args) c r) w1
    /\ branch c = ("feature/" ++ story_id Demo.push_args ++ "-"
                     ++ _slugify "Hello, World!! Foo")%string
    /\ commands (trace w1)
       = commands (trace Demo.world)
         ++ [["git"; "fetch"; "origin"; base_branch Demo.push_args];
             ["git"; "checkout"; base_branch Demo.push_args];
             ["git"; "pull"; "--ff-only"];
             ["git"; "checkout"; "-b";
              ("feature/" ++ story_id Demo.push_args ++ "-"
                 ++ _slugify "Hello, World!! Foo")%string];
             ["git"; "add";
              ("artifacts/review-pack/" ++ story_id Demo.push_args ++ ".md")%string;
              ("artifacts/autopilot/" ++ story_id Demo.push_args ++ ".json")%string];
             ["git"; "commit"; "-m"; (story_id Demo.push_args ++ ": start autopilot")%string];
             ["git"; "push"; "-u"; "origin";
              ("feature/" ++ story_id Demo.push_args ++ "-"
                 ++ _slugify "Hello, World!! Foo")%string]].
Proof.
  refine (push_implies_commit unit Demo.github_env Demo.push_args Demo.world "/r"
            "/r/artifacts/stories/ACF-1.md" "Hello, World!! Foo" Demo.story
            "artifacts/stories/ACF-1.md" _ _ _ _ _ _ _ _ _ _ _);
    vm_compute; reflexivity.
Defined.

(** *** The pull request on GitHub *)

(** X22. The GitHub path of [start], with credentials, [--push] and no dry
    run, when the search finds the issue of the story: the second and last
    request creates the pull request with the title [<id>: <title>], the
    feature branch as head, the base branch as base, the composed body,
    which refers to the issue by [#<number>], and the draft flag of the
    command line; the issue and the pull request the service returned are
    what is recorded in the provider block of the state. *)
Theorem github_pull_request :
  forall S (env : Env S) args c (w : World S) res x rest num hurl ttl made p body_,
    opt_truthy (github_token_of env (github_token args)) = true ->
    opt_truthy (github_repo_of env args) = true ->
    dry_run args = false ->
    push args = true ->
    (forall req, method req = "GET" ->
                 exists r', serve env req (remote w) = (Replied res, r')) ->
    reply_list "items" res = JArr (x :: rest) ->
    getitem "number" x = Ok num ->
    getitem "html_url" x = Ok hurl ->
    getitem "title" x = Ok ttl ->
    _compose_pr_body (repo_root c) (story_id args) (story_title c) (story_file c)
      (issue_reference num) (review_pack c) = Ok body_ ->
    (forall req r, method req = "POST" ->
                   exists r', serve env req r = (Replied made, r')) ->
    issue_triple made = Ok p ->
    let api := opt_str (github_api_url_of env args) in
    let repo := opt_str (github_repo_of env args) in
    let found := JObj [("number", num); ("html_url", hurl); ("title", ttl)] in
    exists w' q1 q2,
      start_github env args c w
      = (Ok ({| kind := "github"; issue := Some found; pr := Some p |},
             set_provider
               (JObj [("kind", JStr "github"); ("apiUrl", JStr api); ("repo", JStr repo);
                      ("issue", found); ("pr", p)])
               (state c)), w')
      /\ trace w' = trace w ++ [Http q1; Http q2]
      /\ method q1 = "GET"
      /\ method q2 = "POST"
      /\ url q2 = (api ++ "/repos/" ++ repo ++ "/pulls")%string
      /\ body q2 =
         Some (JObj [("title", JStr (story_id args ++ ": " ++ story_title c));
                     ("head", JStr (branch c));
                     ("base", JStr (base_branch args));
                     ("body", JStr body_);
                     ("draft", JBool (draft args))]).
Proof.
  intros S env args c w res x rest num hurl ttl made p body_ Htok Hrepo Hd Hp Hget Hitems
    Hnum Hurl Httl Hbody Hpost Hpr api repo found.
  unfold start_github. rewrite Htok, Hrepo, Hd, Hp. cbn [negb orb andb].
  unfold _github_find_or_create_issue, _github_create_pr, _http_json. cbv [bind].
  match goal with
  | |- context [serve env ?q (remote w)] =>
      destruct (Hget q eq_refl) as [r1 Hq1]; set (q1 := q) in *
  end.
  rewrite Hq1. fold (reply_list "items" res). rewrite Hitems.
  cbn [json_truthy first_item lift]. unfold issue_triple at 1.
  rewrite Hnum, Hurl, Httl. cbv iota beta.
  cbn [Dict.get String.eqb Ascii.eqb Bool.eqb json_truthy opt_json_truthy andb].
  fold (issue_reference num). rewrite Hbody. cbv iota beta. cbn [remote].
  match goal with
  | |- context [serve env ?q r1] =>
      destruct (Hpost q r1 eq_refl) as [r2 Hq2]; set (q2 := q) in *
  end.
  rewrite Hq2. cbn [lift]. rewrite Hpr. cbv iota beta.
  eexists. exists q1, q2. split; [reflexivity|]. cbn [trace].
  rewrite <- app_assoc. split; [reflexivity|]. split; [reflexivity|].
  split; [reflexivity|]. split; reflexivity.
Qed.

Lemma github_pull_request_witness :
  let api := opt_str (github_api_url_of (Demo.search_env [Demo.issue 7]) Demo.push_args) in
  let repo := opt_str (github_repo_of (Demo.search_env [Demo.issue 7]) Demo.push_args) in
  let found :=
    JObj [("number", JNum 7);
          ("html_url", JStr "https://github.com/acme/widgets/issues/7");
          ("title", JStr "ACF-1: Hello, World!! Foo")] in
  exists w' q1 q2,
    start_github (Demo.search_env [Demo.issue 7]) Demo.push_args Demo.prepared_ctx Demo.world
    = (Ok ({| kind := "github"; issue := Some found;
              pr := Some (JObj [("number", JNum 8);
                                ("html_url", JStr "https://github.com/acme/widgets/issues/8");
                                ("title", JStr "ACF-1: Hello, World!! Foo")]) |},
           set_provider
             (JObj [("kind", JStr "github"); ("apiUrl", JStr api); ("repo", JStr repo);
                    ("issue", found);
                    ("pr", JObj [("number", JNum 8);
                                 ("html_url",
                                  JStr "https://github.com/acme/widgets/issues/8");
                                 ("title", JStr "ACF-1: Hello, World!! Foo")])])
             (state Demo.prepared_ctx)), w')
    /\ trace w' = trace Demo.world ++ [Http q1; Http q2]
    /\ method q1 = "GET"
    /\ method q2 = "POST"
    /\ url q2 = (api ++ "/repos/" ++ repo ++ "/pulls")%string
    /\ body q2 =
       Some (JObj [("title", JStr (story_id Demo.push_args ++ ": "
                                    ++ story_title Demo.prepared_ctx));
                   ("head", JStr (branch Demo.prepared_ctx));
                   ("base", JStr (base_branch Demo.push_args));
                   ("body", JStr Demo.found_body);
                   ("draft", JBool (draft Demo.push_args))]).
Proof.
  refine (github_pull_request unit (Demo.search_env [Demo.issue 7]) Demo.push_args
            Demo.prepared_ctx Demo.world
            (JObj [("total_count", JNum 1); ("items", JArr [Demo.issue 7])])
            (Demo.issue 7) [] (JNum 7)
            (JStr "https://github.com/acme/widgets/issues/7")
            (JStr "ACF-1: Hello, World!! Foo")
            (Demo.issue 8)
            (JObj [("number", JNum 8);
                   ("html_url", JStr "https://github.com/acme/widgets/issues/8");
                   ("title", JStr "ACF-1: Hello, World!! Foo")])
            Demo.found_body _ _ _ _ _ _ _ _ _ _ _ _).
  - vm_compute. reflexivity.
  - vm_compute. reflexivity.
  - reflexivity.
  - reflexivity.
  - intros req Hreq. exists tt. cbn [serve Demo.search_env]. rewrite Hreq. reflexivity.
  - reflexivity.
  - vm_compute. reflexivity.
  - vm_compute. reflexivity.
  - vm_compute. reflexivity.
  - vm_compute. reflexivity.
  - intros req r Hreq. exists r. cbn [serve Demo.search_env]. rewrite Hreq. reflexivity.
  - vm_compute. reflexivity.
Defined.

(** *** The pull request on Azure DevOps *)

(** X23. The Azure DevOps path of [start], with a PAT, the coordinates,
    [--push] and no dry run.  The first request is the WIQL query, whose
    address carries the organisation URL and the project as they are given:
    when the client refuses it, nothing is sent and the run fails with that
    refusal.  When the service answers and the query finds a work item of
    the story, no work item is created; the second request creates the pull
    request from [refs/heads/<branch>] to [refs/heads/<base>] with the title
    [<id>: <title>] and the composed description, which names the work item;
    the third and last request links the work item to the pull request, its
    body being the JSON patch that adds the relation [ArtifactLink] with
    the URL [vstfs:///Git/PullRequestId/<project>%2F<repo>%2F<prId>]; and
    the state records the ids of both. *)
Theorem azure_pull_request :
  forall S (env : Env S) args c (w : World S) org project repo,
    opt_truthy (azure_pat_of env (azure_pat args)) = true ->
    azure_coordinates env args = (Some org, Some project, Some repo) ->
    Str.truthy org = true -> Str.truthy project = true -> Str.truthy repo = true ->
    dry_run args = false ->
    push args = true ->
    ((forall req, url req = wiql_url org project ->
                  fst (serve env req (remote w)) = Refused) ->
     start_azure env args c w = (Err InvalidURL, w))
    /\ (forall res x rest idj wi prd prid body_,
          (forall req, url req = wiql_url org project ->
                       exists r', serve env req (remote w) = (Replied res, r')) ->
          reply_list "workItems" res = JArr (x :: rest) ->
          getitem "id" x = Ok idj ->
          to_int idj = Ok wi ->
          wi <> 0%Z ->
          _compose_pr_body (repo_root c) (story_id args) (story_title c) (story_file c)
            (Some ("WorkItem " ++ str_of_Z wi)%string) (review_pack c) = Ok body_ ->
          (forall req r, url req = azure_pr_url org project repo ->
                         exists r', serve env req r = (Replied (JObj prd), r')) ->
          Dict.get "pullRequestId" prd = Some (JNum prid) ->
          prid <> 0%Z ->
          (forall req r, method req = "PATCH" ->
                         exists j r', serve env req r = (Replied j, r')) ->
          exists pref block w' q1 q2 q3,
            start_azure env args c w = (Ok (pref, set_provider (JObj block) (state c)), w')
            /\ kind pref = "azuredevops"
            /\ Dict.get "workItemId" block = Some (JNum wi)
            /\ Dict.get "prId" block = Some (JNum prid)
            /\ trace w' = trace w ++ [Http q1; Http q2; Http q3]
            /\ url q1 = wiql_url org project
            /\ (method q2 = "POST" /\ url q2 = azure_pr_url org project repo)
            /\ body q2 =
               Some (JObj [("sourceRefName", JStr ("refs/heads/" ++ branch c));
                           ("targetRefName", JStr ("refs/heads/" ++ base_branch args));
                           ("title", JStr (story_id args ++ ": " ++ story_title c));
                           ("description", JStr body_);
                           ("isDraft", JBool (draft args))])
            /\ (method q3 = "PATCH" /\ url q3 = work_item_url org project wi)
            /\ body q3 =
               Some (JArr
                       [JObj [("op", JStr "add");
                              ("path", JStr "/relations/-");
                              ("value",
                               JObj [("rel", JStr "ArtifactLink");
                                     ("url",
                                      JStr ("vstfs:///Git/PullRequestId/" ++ quote project
                                              ++ "%2F" ++ quote repo ++ "%2F"
                                              ++ str_of_Z prid)%string);
                                     ("attributes",
                                      JObj [("name", JStr "Pull Request")])])]])).
Proof.
  intros S env args c w org project repo Hpat Hcoord Horg Hproject Hrepo Hd Hp. split.
  { intros Hrefused.
    unfold start_azure. rewrite Hcoord. cbn [opt_truthy opt_str].
    rewrite Hpat, Horg, Hproject, Hrepo, Hd, Hp. cbn [negb orb andb].
    unfold _azure_wiql_find_work_item, _http_json. cbv [bind].
    match goal with
    | |- context [serve env ?q (remote w)] =>
        pose proof (Hrefused q eq_refl) as Hq;
        destruct (serve env q (remote w)) as [reply r1]
    end.
    cbn [fst] in Hq. subst reply. reflexivity. }
  intros res x rest idj wi prd prid body_
    Hwiql Hitems Hid Hwi Hwi0 Hbody Hpr Hprid Hprid0 Hpatch.
  apply Z.eqb_neq in Hwi0, Hprid0.
  unfold start_azure. rewrite Hcoord. cbn [opt_truthy opt_str].
  rewrite Hpat, Horg, Hproject, Hrepo, Hd, Hp. cbn [negb orb andb].
  unfold _azure_wiql_find_work_item, _http_json. cbv [bind].
  match goal with
  | |- context [serve env ?q (remote w)] =>
      destruct (Hwiql q eq_refl) as [r1 Hq1]; set (q1 := q) in *
  end.
  rewrite Hq1. fold (reply_list "workItems" res). rewrite Hitems.
  cbn [json_truthy negb first_item lift]. rewrite Hid, Hwi. cbv iota beta.
  cbn [ret]. rewrite Hbody. cbv iota beta.
  unfold _azure_create_pr, _http_json. cbn [remote].
  match goal with
  | |- context [serve env ?q r1] =>
      destruct (Hpr q r1 eq_refl) as [r2 Hq2]; set (q2 := q) in *
  end.
  rewrite Hq2. cbn [get_default]. rewrite Hprid.
  unfold int_or_0. cbn [json_truthy to_int py_int]. rewrite Hprid0. cbn [negb].
  unfold _azure_link_work_item_to_pr. cbn [opt_Z_or_0 orb]. rewrite Hwi0, Hprid0.
  cbn [orb]. unfold _http_json. cbv [bind]. cbn [remote].
  match goal with
  | |- context [serve env ?q r2] =>
      destruct (Hpatch q r2 eq_refl) as [j [r3 Hq3]]; set (q3 := q) in *
  end.
  rewrite Hq3. cbn [ret get_opt lift].
  destruct (Dict.get "url" prd); destruct (Dict.get "title" prd);
    (eexists; eexists; eexists; exists q1, q2, q3;
     split; [reflexivity|];
     split; [reflexivity|];
     split; [reflexivity|];
     split; [reflexivity|];
     split; [cbn [trace]; now rewrite <- !app_assoc|];
     split; [reflexivity|];
     split; [split; reflexivity|];
     split; [reflexivity|];
     split; [split; reflexivity|reflexivity]).
Qed.

Lemma azure_pull_request_witness :
  (exists pref block w' q1 q2 q3,
     start_azure Demo.azure_flow_env Demo.azure_push_args Demo.prepared_ctx Demo.world
     = (Ok (pref, set_provider (JObj block) (state Demo.prepared_ctx)), w')
     /\ kind pref = "azuredevops"
     /\ Dict.get "workItemId" block = Some (JNum 42)
     /\ Dict.get "prId" block = Some (JNum 9)
     /\ trace w' = trace Demo.world ++ [Http q1; Http q2; Http q3]
     /\ url q1 = wiql_url "https://dev.azure.com/acme" "proj"
     /\ (method q2 = "POST"
         /\ url q2 = azure_pr_url "https://dev.azure.com/acme" "proj" "widgets")
     /\ body q2 =
        Some (JObj [("sourceRefName", JStr ("refs/heads/" ++ branch Demo.prepared_ctx));
                    ("targetRefName",
                     JStr ("refs/heads/" ++ base_branch Demo.azure_push_args));
                    ("title", JStr (story_id Demo.azure_push_args ++ ": "
                                     ++ story_title Demo.prepared_ctx));
                    ("description", JStr Demo.azure_body);
                    ("isDraft", JBool (draft Demo.azure_push_args))])
     /\ (method q3 = "PATCH"
         /\ url q3 = work_item_url "https://dev.azure.com/acme" "proj" 42)
     /\ body q3 =
        Some (JArr
                [JObj [("op", JStr "add");
                       ("path", JStr "/relations/-");
                       ("value",
                        JObj [("rel", JStr "ArtifactLink");
                              ("url",
                               JStr ("vstfs:///Git/PullRequestId/" ++ quote "proj"
                                       ++ "%2F" ++ quote "widgets" ++ "%2F"
                                       ++ str_of_Z 9)%string);
                              ("attributes",
                               JObj [("name", JStr "Pull Request")])])]]))
  /\ start_azure Demo.checked_env Demo.spaced_args Demo.prepared_ctx Demo.world
     = (Err InvalidURL, Demo.world).
Proof.
  split.
  - refine (proj2 (azure_pull_request unit Demo.azure_flow_env Demo.azure_push_args
                     Demo.prepared_ctx Demo.world "https://dev.azure.com/acme" "proj"
                     "widgets" _ _ _ _ _ _ _)
              (JObj [("queryType", JStr "flat");
                     ("workItems", JArr [JObj [("id", JNum 42)]])])
              (JObj [("id", JNum 42)]) [] (JNum 42) 42%Z
              [("pullRequestId", JNum 9);
               ("url", JStr "https://dev.azure.com/acme/_apis/git/pullRequests/9");
               ("title", JStr "ACF-1: Hello, World!! Foo")]
              9%Z Demo.azure_body _ _ _ _ _ _ _ _ _ _).
    + vm_compute. reflexivity.
    + vm_compute. reflexivity.
    + reflexivity.
    + reflexivity.
    + reflexivity.
    + reflexivity.
    + reflexivity.
    + intros req Hreq. exists tt. cbn [serve Demo.azure_flow_env]. rewrite Hreq.
      vm_compute. reflexivity.
    + reflexivity.
    + reflexivity.
    + reflexivity.
    + discriminate.
    + vm_compute. reflexivity.
    + intros req r Hreq. exists r. cbn [serve Demo.azure_flow_env]. rewrite Hreq.
      vm_compute. reflexivity.
    + reflexivity.
    + discriminate.
    + intros req r Hreq. cbn [serve Demo.azure_flow_env].
      destruct (String.eqb (url req) _); [eexists; exists r; reflexivity|].
      destruct (String.eqb (url req) _); eexists; exists r; reflexivity.
  - refine (proj1 (azure_pull_request unit Demo.checked_env Demo.spaced_args
                     Demo.prepared_ctx Demo.world "https://dev.azure.com/acme" "my proj"
                     "widgets" _ _ _ _ _ _ _) _).
    + vm_compute. reflexivity.
    + vm_compute. reflexivity.
    + reflexivity.
    + reflexivity.
    + reflexivity.
    + reflexivity.
    + reflexivity.
    + intros req Hreq. unfold Demo.checked_env, Demo.checked. cbn [serve].
      rewrite Hreq. vm_compute. reflexivity.
Defined.
